(** * Commercial listing page: feed normalisation, filtering and grouping

    Shallow embedding of the listing pipeline of the page components
    ([src/pages/index.tsx] and its later commercial-only revisions):
    the XML record extractor, the normaliser and classifier, the filter
    engine and the grouper.

    Modelling conventions.
    - A JavaScript string is a [string] (a sequence of 8-bit characters).
      [toLowerCase] and [trim] act on the ASCII range, where they agree with
      the JavaScript built-ins; characters outside that range are kept as
      they are.
    - A JavaScript number is a [number]: [NaN] or an exact rational.
      Rounding to binary64 and the infinities are left out.
    - The DOM built by [DOMParser] is a rose tree of elements and text nodes.
      The parser itself is a parameter of the extractor. *)

From Stdlib Require Import String Ascii List Bool Arith ZArith QArith Lia.
From Stdlib Require Import Qround Permutation DecimalString DecimalNat.
From stdpp Require Import gmap strings.
Import ListNotations.

Local Open Scope string_scope.
Local Open Scope list_scope.

(** ** Strings *)

Module Str.

Definition isUpper (c : ascii) : bool :=
  let n := nat_of_ascii c in (65 <=? n)%nat && (n <=? 90)%nat.

Definition lowerChar (c : ascii) : ascii :=
  if isUpper c then ascii_of_nat (nat_of_ascii c + 32) else c.

(** [String.prototype.toLowerCase]. *)
Fixpoint toLowerCase (s : string) : string :=
  match s with
  | EmptyString => EmptyString
  | String c s' => String (lowerChar c) (toLowerCase s')
  end.

(** [String.prototype.includes]: [includes s search] is [s.includes(search)]. *)
Fixpoint includes (s search : string) : bool :=
  String.prefix search s ||
  match s with
  | EmptyString => false
  | String _ s' => includes s' search
  end.

(** A string in a boolean position: every string but the empty one is truthy. *)
Definition truthy (s : string) : bool :=
  match s with EmptyString => false | String _ _ => true end.

(** [a || b] on strings. *)
Definition orElse (a b : string) : string := if truthy a then a else b.

(** White space removed by [trim], in the ASCII range:
    TAB, LF, VT, FF, CR and SPACE. *)
Definition isWhiteSpace (c : ascii) : bool :=
  let n := nat_of_ascii c in
  ((9 <=? n)%nat && (n <=? 13)%nat) || (n =? 32)%nat.

Fixpoint trimStart (s : string) : string :=
  match s with
  | EmptyString => EmptyString
  | String c s' => if isWhiteSpace c then trimStart s' else s
  end.

Fixpoint trimEnd (s : string) : string :=
  match s with
  | EmptyString => EmptyString
  | String c s' =>
      match trimEnd s' with
      | EmptyString => if isWhiteSpace c then EmptyString else String c EmptyString
      | t => String c t
      end
  end.

(** [String.prototype.trim]. *)
Definition trim (s : string) : string := trimEnd (trimStart s).

Definition isDigit (c : ascii) : bool :=
  let n := nat_of_ascii c in (48 <=? n)%nat && (n <=? 57)%nat.

Definition digitValue (c : ascii) : nat := nat_of_ascii c - 48.

Fixpoint filterChars (keep : ascii -> bool) (s : string) : string :=
  match s with
  | EmptyString => EmptyString
  | String c s' =>
      if keep c then String c (filterChars keep s') else filterChars keep s'
  end.

(** [s.replace(/[^\d.]/g, '')]: every character that is neither a decimal
    digit nor a dot is deleted. *)
Definition stripNonNumeric (s : string) : string :=
  filterChars (fun c => isDigit c || Ascii.eqb c ".") s.

(** The template-literal rendering of a non-negative integer. *)
Definition ofNat (n : nat) : string := NilZero.string_of_uint (Nat.to_uint n).

(** [p] occurs in [s] as a contiguous run of characters. *)
Definition Substring (p s : string) : Prop :=
  exists pre post : string, s = String.append pre (String.append p post).

End Str.

(** ** Numbers *)

Module Num.

(** A JavaScript number: [NaN] or an exact rational value.  The rounding of
    binary64 and the two infinities are not modelled: a value of the model is
    the value of the code when it is a whole number of magnitude at most
    [2 ^ 53], and facts about the number read from a text state that range. *)
Inductive number : Type :=
| NaN
| Num (q : Q).

Definition ofZ (z : Z) : number := Num (inject_Z z).
Definition ofNat (n : nat) : number := ofZ (Z.of_nat n).

(** A number in a boolean position: [NaN] and zero are falsy. *)
Definition truthy (x : number) : bool :=
  match x with
  | NaN => false
  | Num q => negb (Qeq_bool q 0)
  end.

(** [a || b] on numbers. *)
Definition orElse (a b : number) : number := if truthy a then a else b.

(** [a < b]; a comparison with [NaN] is false. *)
Definition lt (a b : number) : bool :=
  match a, b with
  | Num x, Num y => negb (Qle_bool y x)
  | _, _ => false
  end.

(** [a > b]. *)
Definition gt (a b : number) : bool := lt b a.

(** [a <= b]; a comparison with [NaN] is false. *)
Definition le (a b : number) : bool :=
  match a, b with
  | Num x, Num y => Qle_bool x y
  | _, _ => false
  end.


(** Longest prefix of characters satisfying [f], and the rest. *)
Fixpoint span (f : ascii -> bool) (s : string) : string * string :=
  match s with
  | EmptyString => (EmptyString, EmptyString)
  | String c s' =>
      if f c then let (a, r) := span f s' in (String c a, r)
      else (EmptyString, s)
  end.

Definition isHexDigit (c : ascii) : bool :=
  let n := nat_of_ascii c in
  Str.isDigit c || ((65 <=? n)%nat && (n <=? 70)%nat)
                || ((97 <=? n)%nat && (n <=? 102)%nat).

Definition hexDigitValue (c : ascii) : nat :=
  let n := nat_of_ascii c in
  if Str.isDigit c then n - 48
  else if (97 <=? n)%nat then n - 87 else n - 55.

(** Value of a digit string in the given radix, most significant first. *)
Fixpoint digitsValue (radix : Z) (value : ascii -> nat) (acc : Z) (s : string) : Z :=
  match s with
  | EmptyString => acc
  | String c s' => digitsValue radix value (radix * acc + Z.of_nat (value c)) s'
  end.

(** [parseFloat] on the unsigned decimal grammar [digits], [digits.digits],
    [digits.] and [.digits]: the longest such prefix is converted, and a
    string with no such prefix gives [NaN].  The page only ever passes
    strings of digits and dots (the result of the [replace]), on which this
    is the whole of [parseFloat]; a sign, an exponent or [Infinity] cannot
    occur there.  The value is the exact rational; the code's is the nearest
    binary64, which is the same number for a whole number up to [2 ^ 53]. *)
Definition parseFloat (s : string) : number :=
  let (intPart, rest) := span Str.isDigit (Str.trimStart s) in
  let fracPart :=
    match rest with
    | String "."%char rest' => fst (span Str.isDigit rest')
    | _ => EmptyString
    end in
  if negb (Str.truthy intPart) && negb (Str.truthy fracPart) then NaN
  else Num (Qmake (digitsValue 10 Str.digitValue 0 (String.append intPart fracPart))
                  (Z.to_pos (10 ^ Z.of_nat (String.length fracPart)))).

(** [parseInt] with no radix argument: leading white space is skipped, an
    optional sign is read, a [0x] or [0X] prefix selects radix 16, and the
    longest prefix of digits is converted; no digit gives [NaN].  The value
    is the exact integer; the code's is the nearest binary64, which is the
    same number for a text of at most 15 characters. *)
Definition parseInt (s : string) : number :=
  let s0 := Str.trimStart s in
  let (sign, s1) :=
    match s0 with
    | String "-"%char r => ((-1)%Z, r)
    | String "+"%char r => (1%Z, r)
    | _ => (1%Z, s0)
    end in
  let (radix, s2) :=
    match s1 with
    | String "0"%char (String "x"%char r) => (16%Z, r)
    | String "0"%char (String "X"%char r) => (16%Z, r)
    | _ => (10%Z, s1)
    end in
  let isDig := if (radix =? 16)%Z then isHexDigit else Str.isDigit in
  let value := if (radix =? 16)%Z then hexDigitValue else Str.digitValue in
  let digits := fst (span isDig s2) in
  if Str.truthy digits then ofZ (sign * digitsValue radix value 0 digits)
  else NaN.

End Num.

(** ** The DOM of a parsed feed *)

Module Dom.

(** Element and text nodes.  Attributes, comments and processing
    instructions play no part in type selectors or in [textContent]. *)
#[warnings="-register-all"]
Inductive Node : Type :=
| Text (data : string)
| Element (tagName : string) (childNodes : list Node).

(** A reference to an element of a document: the node and the tag names of
    its ancestors, the parent first. *)
Record Handle : Type := { ancestors : list string; node : Node }.

Record Document : Type := { documentElement : Node }.

(** [Node.textContent]: the text of all descendants, in document order. *)
Fixpoint textContent (n : Node) : string :=
  match n with
  | Text data => data
  | Element _ children =>
      fold_right String.append EmptyString (List.map textContent children)
  end.

(** The element descendants of a node, in document order. *)
Fixpoint descendants (anc : list string) (n : Node) : list Handle :=
  match n with
  | Text _ => []
  | Element tag children =>
      flat_map
        (fun c =>
           match c with
           | Text _ => []
           | Element _ _ =>
               {| ancestors := tag :: anc; node := c |}
                 :: descendants (tag :: anc) c
           end)
        children
  end.

(** The selectors the page uses: [E], [A E] and [A > E]. *)
Inductive Selector : Type :=
| Tag (name : string)
| Descendant (ancestor name : string)
| Child (parent name : string).

(** Selector matching; tag names of an XML document are case-sensitive. *)
Definition matches (sel : Selector) (h : Handle) : bool :=
  match node h with
  | Text _ => false
  | Element tag _ =>
      match sel with
      | Tag name => String.eqb tag name
      | Descendant a name =>
          String.eqb tag name && existsb (String.eqb a) (ancestors h)
      | Child p name =>
          String.eqb tag name &&
          match ancestors h with
          | parent :: _ => String.eqb parent p
          | [] => false
          end
      end
  end.

Definition matchesAny (sels : list Selector) (h : Handle) : bool :=
  existsb (fun sel => matches sel h) sels.

(** [Element.querySelectorAll] for a selector list: the descendants of the
    element that match one of the selectors, each once, in document order. *)
Definition querySelectorAll (h : Handle) (sels : list Selector) : list Handle :=
  List.filter (matchesAny sels) (descendants (ancestors h) (node h)).

(** [Element.querySelector]: the first match, if any. *)
Definition querySelector (h : Handle) (sels : list Selector) : option Handle :=
  hd_error (querySelectorAll h sels).

(** All elements of a document, in document order. *)
Definition elementsOf (doc : Document) : list Handle :=
  match documentElement doc with
  | Text _ => []
  | Element _ _ as root =>
      {| ancestors := []; node := root |} :: descendants [] root
  end.

(** [Document.querySelectorAll] and [Document.querySelector]. *)
Definition docQuerySelectorAll (doc : Document) (sels : list Selector) : list Handle :=
  List.filter (matchesAny sels) (elementsOf doc).

Definition docQuerySelector (doc : Document) (sels : list Selector) : option Handle :=
  hd_error (docQuerySelectorAll doc sels).

(** [node.textContent?.trim()]. *)
Definition trimmedText (h : Handle) : string := Str.trim (textContent (node h)).

End Dom.

(** ** Definitions shared by every revision of the page *)

Module Common.
Import Dom.

(** The feed a record comes from: ['sale' | 'rent']. *)
Inductive FeedType : Type := sale | rent.

Definition feedTypeName (t : FeedType) : string :=
  match t with sale => "sale" | rent => "rent" end.

Definition feedTypeEqb (a b : FeedType) : bool :=
  match a, b with
  | sale, sale | rent, rent => true
  | _, _ => false
  end.

(** ['commercial' | 'residential']. *)
Inductive PropertyType : Type := commercial | residential.

Definition TARGET_COMMUNITIES : list string :=
  ["Business Bay"; "Motor City"; "Barsha Heights"].

(** The three imported fallback images (all three imports name the same
    asset). *)
Definition heroProperty1 : string := "@/assets/react.svg".
Definition heroProperty2 : string := "@/assets/react.svg".
Definition heroProperty3 : string := "@/assets/react.svg".

Definition fallbackImages : list string :=
  [heroProperty1; heroProperty2; heroProperty3].

Definition commercialPatterns : list string :=
  ["office"; "retail"; "commercial"; "shop"; "warehouse"; "industrial";
   "business"; "clinic"; "medical"; "restaurant"; "cafe"; "hotel";
   "showroom"; "mall"; "plaza"; "center"; "building"; "studio";
   "workspace"; "laboratory"; "workshop"; "factory"; "logistics"; "storage"].

Definition isCommercialCategory (category : string) : bool :=
  let categoryLower := Str.toLowerCase category in
  existsb (fun pattern => Str.includes categoryLower pattern) commercialPatterns.

(** The closure [getFieldValue] of the element being processed: the trimmed
    text of the first field, among the candidate names in order, that exists
    and is not blank; the empty string when there is none. *)
Fixpoint getFieldValue (element : Handle) (fieldNames : list string) : string :=
  match fieldNames with
  | [] => EmptyString
  | fieldName :: rest =>
      match querySelector element [Tag fieldName] with
      | Some field =>
          if Str.truthy (trimmedText field) then trimmedText field
          else getFieldValue element rest
      | None => getFieldValue element rest
      end
  end.

(** An object literal with string keys: its entries in declaration order,
    which is the order of [Object.keys]. *)
Definition keysOf (o : list (string * string)) : list string := List.map fst o.

(** [o[key]]. *)
Definition getProp (o : list (string * string)) (key : string) : option string :=
  option_map snd (List.find (fun e => String.eqb (fst e) key) o).

(** [finalCommunity] for a raw community string, under an alias table. *)
Definition finalCommunityOf (communityMappings : list (string * string))
           (community : string) : string :=
  let normalizedCommunity := Str.toLowerCase community in
  let mappedCommunity :=
    List.find (fun key => Str.includes normalizedCommunity key)
              (keysOf communityMappings) in
  match mappedCommunity with
  | Some key =>
      if Str.truthy key then
        match getProp communityMappings key with
        | Some mapped => mapped
        | None => EmptyString (* not reached: [key] is a key of the table *)
        end
      else community
  | None => community
  end.

Definition isTargetCommunity (finalCommunity : string) : bool :=
  existsb
    (fun targetCommunity =>
       Str.includes (Str.toLowerCase finalCommunity) (Str.toLowerCase targetCommunity)
       || Str.includes (Str.toLowerCase targetCommunity) (Str.toLowerCase finalCommunity))
    TARGET_COMMUNITIES.

Definition categoryFields : list string :=
  ["Category"; "PropertyCategory"; "PropertyType"; "UnitCategory"; "Type"].
Definition communityFields : list string :=
  ["Community"; "CommunityName"; "Location"; "Area"].
Definition titleFields : list string :=
  ["PropertyName"; "PropertyTitle"; "Title"; "Name"].
Definition priceFields (type : FeedType) : list string :=
  match type with
  | sale => ["SellPrice"; "Price"; "PropertyPrice"; "SalePrice"]
  | rent => ["Rent"; "RentPrice"; "Price"; "PropertyPrice"]
  end.
Definition areaFields : list string :=
  ["BuiltupArea"; "FloorArea"; "Area"; "PropertyArea"; "TotalArea"].
Definition bedroomsFields : list string :=
  ["Bedrooms"; "BedroomCount"; "NumberOfBedrooms"].

(** [parseFloat(priceStr.replace(/[^\d.]/g, '')) || 0]. *)
Definition priceOf (priceStr : string) : Num.number :=
  Num.orElse (Num.parseFloat (Str.stripNonNumeric priceStr)) (Num.ofZ 0).

(** [parseFloat(areaStr.replace(/[^\d.]/g, '')) || 800]. *)
Definition areaOf (areaStr : string) : Num.number :=
  Num.orElse (Num.parseFloat (Str.stripNonNumeric areaStr)) (Num.ofZ 800).

(** [Array.from(imageElements).map(img => img.textContent?.trim()).filter(Boolean)]. *)
Definition imageTexts (imageElements : list Handle) : list string :=
  List.filter Str.truthy (List.map trimmedText imageElements).

Definition nestedImageSelectors : list Selector :=
  [Descendant "Image" "ImageURL"; Child "Image" "ImageURL"].
Definition directImageSelectors : list Selector :=
  [Tag "Image"; Tag "PropertyImage"; Tag "ImageURL"; Tag "Photo"].
Definition listingSelectors : list Selector :=
  [Tag "UnitDTO"; Tag "Property"; Tag "property"; Tag "PropertyInfo"].

(** The values of [i] in [for (let i = start; i < bound; i += step)]. *)
Fixpoint forRange (fuel start bound step : nat) : list nat :=
  match fuel with
  | O => []
  | S fuel' =>
      if (start <? bound)%nat
      then start :: forRange fuel' (start + step) bound step
      else []
  end.

(** [propertiesByCommunity], for a record type with a [community] field:
    an object with one key per target community, each holding the members
    of the filtered collection whose community is that name. *)
Section Grouper.
Context {Property : Type} (community : Property -> string).

Definition groupOf (filteredProperties : list Property) (name : string)
  : list Property :=
  List.filter (fun p => String.eqb (community p) name) filteredProperties.

Definition propertiesByCommunity (filteredProperties : list Property)
  : gmap string (list Property) :=
  fold_left
    (fun grouped name => <[name := groupOf filteredProperties name]> grouped)
    TARGET_COMMUNITIES
    ∅.
End Grouper.

End Common.

(** ** The commercial-only page with chunked parsing ([parseXMLPropertiesOptimized])

    The revision with [agentName] has the same normaliser, filter and
    classifier, with one more field read for the record. *)

Module Optimized.
Import Dom Common.

Record Property : Type := {
  id : string;
  title : string;
  price : Num.number;
  area : Num.number;
  bedrooms : Num.number;
  community : string;
  images : list string;
  type : FeedType;
  propertyType : PropertyType;
  category : option string
}.

Definition communityMappings : list (string * string) :=
  [("dubai investment park (dip)", "Motor City");
   ("dubai investment park", "Motor City");
   ("business bay", "Business Bay");
   ("motor city", "Motor City");
   ("barsha heights", "Barsha Heights");
   ("al barsha heights", "Barsha Heights")].

Definition finalCommunityOf : string -> string :=
  Common.finalCommunityOf communityMappings.

(** [parseInt(bedroomsStr) || 0]. *)
Definition bedroomsOf (bedroomsStr : string) : Num.number :=
  Num.orElse (Num.parseInt bedroomsStr) (Num.ofZ 0).

(** The image texts read from the element: those under its [Images]
    container, and none when it has no such container. *)
Definition extractImages (element : Handle) : list string :=
  match querySelector element [Tag "Images"] with
  | Some imagesContainer =>
      imageTexts (querySelectorAll imagesContainer nestedImageSelectors)
  | None => []
  end.

(** [images.length > 0 ? images.slice(0, 5) : fallbackImages]. *)
Definition finalImagesOf (images : list string) : list string :=
  if (0 <? length images)%nat then firstn 5 images else fallbackImages.

(** One iteration of the loop of [processChunk], for the element at index
    [i]: the record pushed, or [None] when the iteration pushes nothing.
    [now] is the reading of [Date.now()] in that iteration. *)
Definition processElement (type : FeedType) (now : nat) (i : nat)
           (element : Handle) : option Property :=
  let category := getFieldValue element categoryFields in
  if negb (Str.truthy category) || negb (isCommercialCategory category) then None
  else
    let community := getFieldValue element communityFields in
    let finalCommunity := finalCommunityOf community in
    if negb (isTargetCommunity finalCommunity) then None
    else
      let title :=
        Str.orElse (getFieldValue element titleFields)
                   (String.append "Property " (Str.ofNat (i + 1))) in
      let priceStr := getFieldValue element (priceFields type) in
      let areaStr := getFieldValue element areaFields in
      let bedroomsStr := getFieldValue element bedroomsFields in
      let price := priceOf priceStr in
      let area := areaOf areaStr in
      let bedrooms := bedroomsOf bedroomsStr in
      let images := extractImages element in
      let finalImages := finalImagesOf images in
      if Num.gt price (Num.ofZ 0) then
        Some {| id := String.append (feedTypeName type)
                        (String.append "-"
                           (String.append (Str.ofNat now)
                              (String.append "-" (Str.ofNat i))));
                title := title;
                price := price;
                area := area;
                bedrooms := bedrooms;
                community := finalCommunity;
                images := finalImages;
                type := type;
                propertyType := commercial;
                category := Some category |}
      else None.

(** [processChunk]: the elements at indices [startIndex] up to
    [min(startIndex + chunkSize, elements.length)] are processed in order,
    each pushing at most one record. *)
Definition processChunk (type : FeedType) (now : nat -> nat)
           (elements : list Handle) (startIndex chunkSize : nat)
           (properties : list Property) : list Property :=
  let endIndex := Nat.min (startIndex + chunkSize) (length elements) in
  fold_left
    (fun props i =>
       match nth_error elements i with
       | Some element =>
           match processElement type (now i) i element with
           | Some p => props ++ [p]
           | None => props
           end
       | None => props
       end)
    (seq startIndex (endIndex - startIndex))
    properties.

(** The records pushed, in order, while the elements at the given indices
    are processed. *)
Definition recordsAt (type : FeedType) (now : nat -> nat)
           (elements : list Handle) (indices : list nat) : list Property :=
  flat_map
    (fun i =>
       match nth_error elements i with
       | Some element =>
           match processElement type (now i) i element with
           | Some p => [p]
           | None => []
           end
       | None => []
       end)
    indices.

Definition chunkSize : nat := 50.
Definition elementLimit : nat := 300.

(** The records built from an already parsed document. *)
Definition parseDocument (now : nat -> nat) (xmlDoc : Document)
           (type : FeedType) : list Property :=
  match docQuerySelector xmlDoc [Tag "parsererror"] with
  | Some _ => []
  | None =>
      let elements := docQuerySelectorAll xmlDoc listingSelectors in
      let bound := Nat.min (length elements) elementLimit in
      fold_left
        (fun props i => processChunk type now elements i chunkSize props)
        (forRange bound 0 bound chunkSize)
        []
  end.

(** [parseXMLPropertiesOptimized]; [parseFromString] is the DOM parser and
    [now] gives the clock reading while the element at an index is
    processed. *)
Definition parseXMLPropertiesOptimized (parseFromString : string -> Document)
           (now : nat -> nat) (xmlString : string) (type : FeedType)
  : list Property :=
  parseDocument now (parseFromString xmlString) type.

(** *** Filter state and filter engine *)

Record State : Type := {
  salesProperties : list Property;
  rentProperties : list Property;
  searchTerm : string;
  priceRange : Num.number * Num.number;
  areaRange : Num.number * Num.number;
  selectedPropertyType : string;
  activeTab : FeedType
}.

Definition initialState : State :=
  {| salesProperties := [];
     rentProperties := [];
     searchTerm := EmptyString;
     priceRange := (Num.ofZ 0, Num.ofZ 5000000);
     areaRange := (Num.ofZ 0, Num.ofZ 2000);
     selectedPropertyType := "any";
     activeTab := sale |}.

Definition clearFilters (st : State) : State :=
  {| salesProperties := salesProperties st;
     rentProperties := rentProperties st;
     searchTerm := EmptyString;
     priceRange := (Num.ofZ 0, Num.ofZ 5000000);
     areaRange := (Num.ofZ 0, Num.ofZ 2000);
     selectedPropertyType := "any";
     activeTab := activeTab st |}.

Definition setSelectedPropertyType (value : string) (st : State) : State :=
  {| salesProperties := salesProperties st;
     rentProperties := rentProperties st;
     searchTerm := searchTerm st;
     priceRange := priceRange st;
     areaRange := areaRange st;
     selectedPropertyType := value;
     activeTab := activeTab st |}.

Definition currentProperties (st : State) : list Property :=
  match activeTab st with
  | sale => salesProperties st
  | rent => rentProperties st
  end.

Definition isCommercial (t : PropertyType) : bool :=
  match t with commercial => true | residential => false end.

(** [property.category && property.category.toLowerCase().includes(x)]. *)
Definition categoryIncludes (c : option string) (x : string) : bool :=
  match c with
  | Some cat => Str.truthy cat && Str.includes (Str.toLowerCase cat) x
  | None => false
  end.

(** [property.category && !property.category.toLowerCase().includes(x)]. *)
Definition categoryExcludes (c : option string) (x : string) : bool :=
  match c with
  | Some cat => Str.truthy cat && negb (Str.includes (Str.toLowerCase cat) x)
  | None => false
  end.

(** The callback of [currentProperties.filter] in [filteredProperties]. *)
Definition passesFilter (st : State) (property : Property) : bool :=
  if negb (isCommercial (propertyType property)) then false
  else if Str.truthy (searchTerm st)
          && negb (Str.includes (Str.toLowerCase (title property))
                                (Str.toLowerCase (searchTerm st)))
          && negb (Str.includes (Str.toLowerCase (community property))
                                (Str.toLowerCase (searchTerm st)))
          && negb (categoryIncludes (category property)
                                    (Str.toLowerCase (searchTerm st)))
  then false
  else if Num.lt (price property) (fst (priceRange st))
          || Num.gt (price property) (snd (priceRange st))
  then false
  else if Num.lt (area property) (fst (areaRange st))
          || Num.gt (area property) (snd (areaRange st))
  then false
  else if Str.truthy (selectedPropertyType st)
          && negb (String.eqb (selectedPropertyType st) "any")
          && categoryExcludes (category property) (selectedPropertyType st)
  then false
  else true.

Definition filteredProperties (st : State) : list Property :=
  List.filter (passesFilter st) (currentProperties st).

Definition propertiesByCommunity (st : State) : gmap string (list Property) :=
  Common.propertiesByCommunity community (filteredProperties st).

End Optimized.

(** ** The first revision of the page ([src/pages/index.tsx]) *)

Module Index.
Import Dom Common.

Record Property : Type := {
  id : string;
  title : string;
  price : Num.number;
  area : Num.number;
  bedrooms : Num.number;
  community : string;
  images : list string;
  type : FeedType
}.

Definition MOCK_PROPERTIES : list Property :=
  [ {| id := "1"; title := "Control Tower"; price := Num.ofZ 2500000;
       area := Num.ofZ 1200; bedrooms := Num.ofZ 2; community := "Business Bay";
       images := [heroProperty1; heroProperty2; heroProperty3]; type := sale |};
    {| id := "2"; title := "Marina Pinnacle"; price := Num.ofZ 180000;
       area := Num.ofZ 950; bedrooms := Num.ofZ 1; community := "Motor City";
       images := [heroProperty2; heroProperty3; heroProperty1]; type := rent |};
    {| id := "3"; title := "Downtown Heights"; price := Num.ofZ 3200000;
       area := Num.ofZ 1500; bedrooms := Num.ofZ 3; community := "Downtown Dubai";
       images := [heroProperty3; heroProperty1; heroProperty2]; type := sale |};
    {| id := "4"; title := "Barsha Residences"; price := Num.ofZ 120000;
       area := Num.ofZ 800; bedrooms := Num.ofZ 1; community := "Barsha Heights";
       images := [heroProperty1; heroProperty3; heroProperty2]; type := rent |};
    {| id := "5"; title := "Bay Square"; price := Num.ofZ 1800000;
       area := Num.ofZ 1000; bedrooms := Num.ofZ 2; community := "Business Bay";
       images := [heroProperty2; heroProperty1; heroProperty3]; type := sale |};
    {| id := "6"; title := "Green Community"; price := Num.ofZ 95000;
       area := Num.ofZ 750; bedrooms := Num.ofZ 1; community := "Motor City";
       images := [heroProperty3; heroProperty2; heroProperty1]; type := rent |} ].

Definition communityMappings : list (string * string) :=
  [("dubai investment park (dip)", "Motor City");
   ("dubai investment park", "Motor City");
   ("business bay", "Business Bay");
   ("motor city", "Motor City");
   ("barsha heights", "Barsha Heights")].

Definition finalCommunityOf : string -> string :=
  Common.finalCommunityOf communityMappings.

(** [parseInt(bedroomsStr) || 1], and [bedrooms || 1] again in the record. *)
Definition bedroomsOf (bedroomsStr : string) : Num.number :=
  let bedrooms := Num.orElse (Num.parseInt bedroomsStr) (Num.ofZ 1) in
  Num.orElse bedrooms (Num.ofZ 1).

(** The image texts read from the element: those under its [Images]
    container when it has one, else those of its direct image elements. *)
Definition extractImages (element : Handle) : list string :=
  match querySelector element [Tag "Images"] with
  | Some imagesContainer =>
      imageTexts (querySelectorAll imagesContainer nestedImageSelectors)
  | None =>
      imageTexts (querySelectorAll element directImageSelectors)
  end.

(** [images.length > 0 ? images : fallbackImages]. *)
Definition finalImagesOf (images : list string) : list string :=
  if (0 <? length images)%nat then images else fallbackImages.

(** The callback of [propertyElements.forEach]: the record pushed for the
    element at [index], or [None] when nothing is pushed. *)
Definition processElement (type : FeedType) (index : nat) (element : Handle)
  : option Property :=
  let title :=
    Str.orElse (getFieldValue element titleFields)
               (String.append "Property " (Str.ofNat (index + 1))) in
  let priceStr := getFieldValue element (priceFields type) in
  let areaStr := getFieldValue element areaFields in
  let community := getFieldValue element communityFields in
  let bedroomsStr := getFieldValue element bedroomsFields in
  let price := priceOf priceStr in
  let area := areaOf areaStr in
  let images := extractImages element in
  let finalImages := finalImagesOf images in
  let finalCommunity := finalCommunityOf community in
  if isTargetCommunity finalCommunity && Num.gt price (Num.ofZ 0) then
    Some {| id := String.append (feedTypeName type)
                    (String.append "-" (Str.ofNat index));
            title := title;
            price := price;
            area := area;
            bedrooms := bedroomsOf bedroomsStr;
            community := finalCommunity;
            images := finalImages;
            type := type |}
  else None.

(** [forEach] over the elements with their indices, from [index] on. *)
Fixpoint forEachElement (type : FeedType) (index : nat) (elements : list Handle)
         (properties : list Property) : list Property :=
  match elements with
  | [] => properties
  | element :: rest =>
      forEachElement type (S index) rest
        (match processElement type index element with
         | Some p => properties ++ [p]
         | None => properties
         end)
  end.

(** The records pushed, in order, for the elements from [index] on. *)
Fixpoint recordsFrom (type : FeedType) (index : nat) (elements : list Handle)
  : list Property :=
  match elements with
  | [] => []
  | element :: rest =>
      match processElement type index element with
      | Some p => p :: recordsFrom type (S index) rest
      | None => recordsFrom type (S index) rest
      end
  end.

Definition parseDocument (xmlDoc : Document) (type : FeedType) : list Property :=
  match docQuerySelector xmlDoc [Tag "parsererror"] with
  | Some _ => []
  | None =>
      forEachElement type 0 (docQuerySelectorAll xmlDoc listingSelectors) []
  end.

(** [parseXMLProperties]; [parseFromString] is the DOM parser. *)
Definition parseXMLProperties (parseFromString : string -> Document)
           (xmlString : string) (type : FeedType) : list Property :=
  parseDocument (parseFromString xmlString) type.

Definition propertiesByCommunity (filteredProperties : list Property)
  : gmap string (list Property) :=
  Common.propertiesByCommunity community filteredProperties.

End Index.

(** ** Sample feeds *)

Module Samples.
Import Dom Common.

Definition field (name value : string) : Node := Element name [Text value].

Definition feedOf (listings : list Node) : Document :=
  {| documentElement := Element "ArrayOfUnitDTO" listings |}.

Definition handleOf (listing : Node) : Handle :=
  {| ancestors := ["ArrayOfUnitDTO"]; node := listing |}.

(** A commercial listing with no community field at all. *)
Definition listingWithoutCommunity : Node :=
  Element "UnitDTO" [field "Category" "Office"; field "SellPrice" "100"].

(** A listing whose price field is not a number. *)
Definition listingPriceNA : Node :=
  Element "UnitDTO"
    [field "Category" "Office"; field "Community" "Business Bay";
     field "SellPrice" "N/A"].

(** A listing with no bedrooms field. *)
Definition listingWithoutBedrooms : Node :=
  Element "UnitDTO"
    [field "Category" "Office"; field "Community" "Business Bay";
     field "SellPrice" "100"].


(** A listing with seven image URLs. *)
Definition listingSevenImages : Node :=
  Element "UnitDTO"
    [field "Category" "Office"; field "Community" "Motor City";
     field "SellPrice" "100";
     Element "Images"
       (List.map (fun u => Element "Image" [field "ImageURL" u])
                 ["u1"; "u2"; "u3"; "u4"; "u5"; "u6"; "u7"])].

(** A retail listing in an aliased community, and its residential twin. *)
Definition listingRetailShop : Node :=
  Element "UnitDTO"
    [field "Category" "Retail Shop"; field "Community" "Al Barsha Heights";
     field "SellPrice" "500,000"; field "BuiltupArea" "900 sqft"].

Definition listingApartment : Node :=
  Element "UnitDTO"
    [field "Category" "Apartment"; field "Community" "Al Barsha Heights";
     field "SellPrice" "500,000"; field "BuiltupArea" "900 sqft"].

(** The document a browser builds for a feed that is not well-formed. *)
Definition errorDocument : Document :=
  {| documentElement := Element "parsererror" [Text "error on line 1"] |}.

(** A DOM parser that reports an error for every input. *)
Definition rejectingParser (xmlString : string) : Document := errorDocument.

(** A record with no category, and the state after choosing "Office" in
    the property-type select with that record loaded. *)
Definition propertyWithoutCategory : Optimized.Property :=
  {| Optimized.id := "sale-0-0";
     Optimized.title := "Unit 12";
     Optimized.price := Num.ofZ 100;
     Optimized.area := Num.ofZ 800;
     Optimized.bedrooms := Num.ofZ 0;
     Optimized.community := "Business Bay";
     Optimized.images := fallbackImages;
     Optimized.type := sale;
     Optimized.propertyType := commercial;
     Optimized.category := None |}.

Definition loadedState (sales : list Optimized.Property) : Optimized.State :=
  {| Optimized.salesProperties := sales;
     Optimized.rentProperties := [];
     Optimized.searchTerm := Optimized.searchTerm Optimized.initialState;
     Optimized.priceRange := Optimized.priceRange Optimized.initialState;
     Optimized.areaRange := Optimized.areaRange Optimized.initialState;
     Optimized.selectedPropertyType :=
       Optimized.selectedPropertyType Optimized.initialState;
     Optimized.activeTab := Optimized.activeTab Optimized.initialState |}.

Definition officeFilterState : Optimized.State :=
  Optimized.setSelectedPropertyType "office" (loadedState [propertyWithoutCategory]).

(** A record priced above the upper bound of the default price range. *)
Definition expensiveProperty : Optimized.Property :=
  {| Optimized.id := "sale-0-1";
     Optimized.title := "Tower floor";
     Optimized.price := Num.ofZ 6000000;
     Optimized.area := Num.ofZ 1500;
     Optimized.bedrooms := Num.ofZ 0;
     Optimized.community := "Business Bay";
     Optimized.images := fallbackImages;
     Optimized.type := sale;
     Optimized.propertyType := commercial;
     Optimized.category := Some "Office" |}.

End Samples.

(** ** Arithmetic on numbers *)

Module NumOps.
Import Num.


Definition sub (a b : number) : number :=
  match a, b with
  | Num x, Num y => Num (x - y)
  | _, _ => NaN
  end.




End NumOps.

(** ** The image slider of a property card *)

Module Slider.
Import Num NumOps.




(** The state update of [onImageIndexChange]. *)
Definition setImageIndex (propertyId : string) (index : number)
           (prev : gmap string number) : gmap string number :=
  <[propertyId := index]> prev.

End Slider.

(** ** The filter controls of the chunked revision *)

Module OptimizedUi.
Import Dom Common Optimized.

Definition setSearchTerm (value : string) (st : State) : State :=
  {| salesProperties := salesProperties st;
     rentProperties := rentProperties st;
     searchTerm := value;
     priceRange := priceRange st;
     areaRange := areaRange st;
     selectedPropertyType := selectedPropertyType st;
     activeTab := activeTab st |}.

Definition setPriceRange (value : Num.number * Num.number) (st : State) : State :=
  {| salesProperties := salesProperties st;
     rentProperties := rentProperties st;
     searchTerm := searchTerm st;
     priceRange := value;
     areaRange := areaRange st;
     selectedPropertyType := selectedPropertyType st;
     activeTab := activeTab st |}.

Definition setAreaRange (value : Num.number * Num.number) (st : State) : State :=
  {| salesProperties := salesProperties st;
     rentProperties := rentProperties st;
     searchTerm := searchTerm st;
     priceRange := priceRange st;
     areaRange := value;
     selectedPropertyType := selectedPropertyType st;
     activeTab := activeTab st |}.

Definition setActiveTab (value : FeedType) (st : State) : State :=
  {| salesProperties := salesProperties st;
     rentProperties := rentProperties st;
     searchTerm := searchTerm st;
     priceRange := priceRange st;
     areaRange := areaRange st;
     selectedPropertyType := selectedPropertyType st;
     activeTab := value |}.

Definition setSalesProperties (value : list Property) (st : State) : State :=
  {| salesProperties := value;
     rentProperties := rentProperties st;
     searchTerm := searchTerm st;
     priceRange := priceRange st;
     areaRange := areaRange st;
     selectedPropertyType := selectedPropertyType st;
     activeTab := activeTab st |}.

Definition setRentProperties (value : list Property) (st : State) : State :=
  {| salesProperties := salesProperties st;
     rentProperties := value;
     searchTerm := searchTerm st;
     priceRange := priceRange st;
     areaRange := areaRange st;
     selectedPropertyType := selectedPropertyType st;
     activeTab := activeTab st |}.

(** The [onChange] handlers of the four range inputs; [value] is
    [e.target.value]. *)
Definition onPriceMinChange (value : string) (st : State) : State :=
  setPriceRange (Num.parseInt value, snd (priceRange st)) st.

Definition onPriceMaxChange (value : string) (st : State) : State :=
  setPriceRange (fst (priceRange st), Num.parseInt value) st.

Definition onAreaMinChange (value : string) (st : State) : State :=
  setAreaRange (Num.parseInt value, snd (areaRange st)) st.

Definition onAreaMaxChange (value : string) (st : State) : State :=
  setAreaRange (fst (areaRange st), Num.parseInt value) st.

(** The values of the items of the property-type select. *)
Definition propertyTypeOptions : list string :=
  ["any"; "office"; "retail"; "warehouse"; "showroom"; "clinic"; "restaurant"].

(** A value a range input with [min="0"], the given [max] and [step] can
    hold: the decimal text of a multiple of the step that is at most the
    maximum. *)
Definition rangeInputValue (max step : Z) (value : string) : Prop :=
  exists k : Z,
    (0 <= k)%Z /\ (k * step <= max)%Z /\ value = Str.ofNat (Z.to_nat (k * step)).

(** What the user and the feed loads can do to the state. *)
Inductive Event : Type :=
| SearchTyped (value : string)
| PriceMinMoved (value : string)
| PriceMaxMoved (value : string)
| AreaMinMoved (value : string)
| AreaMaxMoved (value : string)
| PropertyTypeChosen (value : string)
| TabChosen (tab : FeedType)
| FiltersCleared
| SalesLoaded (salesProps : list Property)
| RentLoaded (rentProps : list Property).

Definition handle (e : Event) (st : State) : State :=
  match e with
  | SearchTyped value => setSearchTerm value st
  | PriceMinMoved value => onPriceMinChange value st
  | PriceMaxMoved value => onPriceMaxChange value st
  | AreaMinMoved value => onAreaMinChange value st
  | AreaMaxMoved value => onAreaMaxChange value st
  | PropertyTypeChosen value => setSelectedPropertyType value st
  | TabChosen tab => setActiveTab tab st
  | FiltersCleared => clearFilters st
  | SalesLoaded salesProps => setSalesProperties salesProps st
  | RentLoaded rentProps => setRentProperties rentProps st
  end.

(** An event the rendered controls can deliver: the price inputs have
    [max="5000000" step="50000"], the area inputs [max="2000" step="50"], and
    the select offers its seven values. *)
Definition deliverable (e : Event) : Prop :=
  match e with
  | PriceMinMoved value | PriceMaxMoved value => rangeInputValue 5000000 50000 value
  | AreaMinMoved value | AreaMaxMoved value => rangeInputValue 2000 50 value
  | PropertyTypeChosen value => In value propertyTypeOptions
  | _ => True
  end.

(** The states reached from the initial one by deliverable events. *)
Inductive Reachable : State -> Prop :=
| reach_initial : Reachable initialState
| reach_event (e : Event) (st : State) :
    Reachable st -> deliverable e -> Reachable (handle e st).

(** The callback of the [filter] that counts the tab that is not shown. *)
Definition passesCountFilter (st : State) (p : Property) : bool :=
  if Str.truthy (searchTerm st)
     && negb (Str.includes (Str.toLowerCase (title p))
                           (Str.toLowerCase (searchTerm st)))
     && negb (Str.includes (Str.toLowerCase (community p))
                           (Str.toLowerCase (searchTerm st)))
     && negb (categoryIncludes (category p) (Str.toLowerCase (searchTerm st)))
  then false
  else if Num.lt (price p) (fst (priceRange st))
          || Num.gt (price p) (snd (priceRange st))
  then false
  else if Num.lt (area p) (fst (areaRange st))
          || Num.gt (area p) (snd (areaRange st))
  then false
  else if Str.truthy (selectedPropertyType st)
          && negb (String.eqb (selectedPropertyType st) "any")
          && categoryExcludes (category p) (selectedPropertyType st)
  then false
  else true.

(** The number shown on the trigger of a tab. *)
Definition tabCount (st : State) (tab : FeedType) : nat :=
  if feedTypeEqb (activeTab st) tab then length (filteredProperties st)
  else length (List.filter (passesCountFilter st)
                           (match tab with
                            | sale => salesProperties st
                            | rent => rentProperties st
                            end)).

End OptimizedUi.

(** ** Fetching the feeds *)

Module Net.

(** What the page reads of a [Response]. *)
Record Response : Type := { ok : bool; text : string }.

End Net.

(** *** The chunked revision: sequential proxies, sales before rentals *)

Module OptimizedLoad.
Import Dom Common Optimized Net.

Definition CORS_PROXIES : list string :=
  ["https://api.allorigins.win/raw?url="; "https://corsproxy.io/?"].

Section Fetching.
(** [fetch] gives the response to a request URL, or [None] when the attempt
    throws (network failure, abort on timeout, unreadable body).
    [encodeURIComponent] is the built-in, [parseFromString] the DOM parser
    and [now] the clock. *)
Context (fetch : string -> option Response)
        (encodeURIComponent : string -> string)
        (parseFromString : string -> Document)
        (now : nat -> nat).

Definition fetchWithTimeout (url : string) (type : FeedType) (proxyUrl : string)
  : option (list Property) :=
  match fetch (String.append proxyUrl (encodeURIComponent url)) with
  | Some response =>
      if ok response
      then Some (parseXMLPropertiesOptimized parseFromString now (text response) type)
      else None
  | None => None
  end.

(** The loop over the proxies: the first result that is not empty is
    returned; the empty list when the proxies are exhausted. *)
Fixpoint tryProxies (url : string) (type : FeedType) (proxies : list string)
  : list Property :=
  match proxies with
  | [] => []
  | proxy :: rest =>
      match fetchWithTimeout url type proxy with
      | Some result =>
          if (0 <? length result)%nat then result else tryProxies url type rest
      | None => tryProxies url type rest
      end
  end.

Definition fetchXMLDataOptimized (url : string) (type : FeedType) : list Property :=
  tryProxies url type CORS_PROXIES.
End Fetching.

Record LoadingState : Type := {
  sales : bool;
  rent : bool;
  salesComplete : bool;
  rentComplete : bool;
  salesError : bool;
  rentError : bool
}.

(** ['api' | 'error']. *)
Inductive DataSource : Type := api | error.

(** The part of the component state the loads write. *)
Record Page : Type := {
  salesProperties : list Property;
  rentProperties : list Property;
  loadingState : LoadingState;
  dataSource : DataSource
}.

Definition initialPage : Page :=
  {| salesProperties := [];
     rentProperties := [];
     loadingState := {| sales := true; rent := false; salesComplete := false;
                        rentComplete := false; salesError := false;
                        rentError := false |};
     dataSource := api |}.

(** The state after [loadSalesData] has its fetch result. *)
Definition salesLoaded (salesProps : list Property) (pg : Page) : Page :=
  let prev := loadingState pg in
  if (0 <? length salesProps)%nat then
    {| salesProperties := salesProps;
       rentProperties := rentProperties pg;
       loadingState := {| sales := false; rent := rent prev; salesComplete := true;
                          rentComplete := rentComplete prev;
                          salesError := salesError prev;
                          rentError := rentError prev |};
       dataSource := api |}
  else
    {| salesProperties := salesProperties pg;
       rentProperties := rentProperties pg;
       loadingState := {| sales := false; rent := rent prev; salesComplete := true;
                          rentComplete := rentComplete prev;
                          salesError := true;
                          rentError := rentError prev |};
       dataSource := error |}.

(** The state when [loadRentalsData] starts. *)
Definition rentalsStarted (pg : Page) : Page :=
  let prev := loadingState pg in
  {| salesProperties := salesProperties pg;
     rentProperties := rentProperties pg;
     loadingState := {| sales := sales prev; rent := true;
                        salesComplete := salesComplete prev;
                        rentComplete := rentComplete prev;
                        salesError := salesError prev;
                        rentError := rentError prev |};
     dataSource := dataSource pg |}.

(** The state after [loadRentalsData] has its fetch result. *)
Definition rentalsLoaded (rentProps : list Property) (pg : Page) : Page :=
  let prev := loadingState pg in
  if (0 <? length rentProps)%nat then
    {| salesProperties := salesProperties pg;
       rentProperties := rentProps;
       loadingState := {| sales := sales prev; rent := false;
                          salesComplete := salesComplete prev;
                          rentComplete := true;
                          salesError := salesError prev;
                          rentError := rentError prev |};
       dataSource := dataSource pg |}
  else
    {| salesProperties := salesProperties pg;
       rentProperties := rentProperties pg;
       loadingState := {| sales := sales prev; rent := false;
                          salesComplete := salesComplete prev;
                          rentComplete := true;
                          salesError := salesError prev;
                          rentError := true |};
       dataSource := dataSource pg |}.

Definition salesUrl : string :=
  "http://webapi.goyzer.com/Company.asmx/SalesListings?AccessCode=50!@Chestertons!29&GroupCode=5029&Bedrooms=&StartPriceRange=&EndPriceRange=&CategoryID=&SpecialProjects=&CountryID=&StateID=&CommunityID=&DistrictID=&FloorAreaMin=&FloorAreaMax=&UnitCategory=&UnitID=&BedroomsMax=&PropertyID=&ReadyNow=&PageIndex=&".

Definition rentUrl : string :=
  "http://webapi.goyzer.com/Company.asmx/RentListings?AccessCode=50!@Chestertons!29&GroupCode=5029&PropertyType=&Bedrooms=&StartPriceRange=&EndPriceRange=&categoryID=&CountryID=&StateID=&CommunityID=&FloorAreaMin=&FloorAreaMax=&UnitCategory=&UnitID=&BedroomsMax=&PropertyID=&ReadyNow=&PageIndex=&".

(** The effect on mount: the sales feed is loaded, then the rentals feed. *)
Definition loadAll (fetch : string -> option Response)
           (encodeURIComponent : string -> string)
           (parseFromString : string -> Document) (now : nat -> nat)
           (pg : Page) : Page :=
  let salesProps :=
    fetchXMLDataOptimized fetch encodeURIComponent parseFromString now salesUrl Common.sale in
  let rentProps :=
    fetchXMLDataOptimized fetch encodeURIComponent parseFromString now rentUrl Common.rent in
  rentalsLoaded rentProps (rentalsStarted (salesLoaded salesProps pg)).

End OptimizedLoad.

(** *** The first revision: first answering proxy, mock data as fallback *)

Module IndexLoad.
Import Dom Common Index Net.

Definition CORS_PROXIES : list string :=
  ["https://api.allorigins.win/raw?url="; "https://corsproxy.io/?";
   "https://cors-anywhere.herokuapp.com/"].

Section Fetching.
Context (fetch : string -> option Response)
        (encodeURIComponent : string -> string)
        (parseFromString : string -> Document).

(** The loop over the proxies: the records parsed from the first response
    that is [ok], whatever their number; the mock records of the feed's kind
    when no proxy answers. *)
Fixpoint tryProxies (url : string) (type : FeedType) (proxies : list string)
  : list Property :=
  match proxies with
  | [] => List.filter (fun p => feedTypeEqb (Index.type p) type) MOCK_PROPERTIES
  | proxy :: rest =>
      match fetch (String.append proxy (encodeURIComponent url)) with
      | Some response =>
          if ok response
          then parseXMLProperties parseFromString (text response) type
          else tryProxies url type rest
      | None => tryProxies url type rest
      end
  end.

Definition fetchXMLData (url : string) (type : FeedType) : list Property :=
  tryProxies url type CORS_PROXIES.

(** The value [loadData] passes to [setProperties]. *)
Definition loadData : list Property :=
  let salesProperties := fetchXMLData OptimizedLoad.salesUrl sale in
  let rentProperties := fetchXMLData OptimizedLoad.rentUrl rent in
  let allProperties := salesProperties ++ rentProperties in
  if (length allProperties =? 0)%nat then MOCK_PROPERTIES else allProperties.
End Fetching.

End IndexLoad.

(** ** The revision with a community selector

    Its grouper first keeps the members that pass the target-community
    test, then groups them. *)

Module Agent.
Import Common.

(** What a read of the grouped object gives: a list of records, or the
    member of [Object.prototype] that an inherited name answers. *)
Inductive Selection (Property : Type) : Type :=
| Listed (properties : list Property)
| Inherited (name : string).

Arguments Listed {Property} properties.
Arguments Inherited {Property} name.

(** [useState<string>('Business Bay')]. *)
Definition initialActiveCommunity : string := "Business Bay".

(** The values of the community tabs, [TARGET_COMMUNITIES.map]: the only
    arguments [setActiveCommunity] receives. *)
Definition communityTabValues : list string := TARGET_COMMUNITIES.

(** The member names of [Object.prototype] in ECMAScript. *)
Definition objectPrototypeNames : list string :=
  [ "constructor"; "hasOwnProperty"; "isPrototypeOf"; "propertyIsEnumerable";
    "toLocaleString"; "toString"; "valueOf"; "__proto__";
    "__defineGetter__"; "__defineSetter__"; "__lookupGetter__";
    "__lookupSetter__" ].

Definition standardPrototypeHas (name : string) : bool :=
  existsb (String.eqb name) objectPrototypeNames.

Section Grouping.
Context {Property : Type} (community : Property -> string).

(** Whether [Object.prototype] answers a name with a truthy value. *)
Context (objectPrototypeHas : string -> bool).

Definition targetCommunityProperties (filteredProperties : list Property)
  : list Property :=
  List.filter (fun property => isTargetCommunity (community property))
              filteredProperties.

Definition propertiesByCommunity (filteredProperties : list Property)
  : gmap string (list Property) :=
  Common.propertiesByCommunity community
    (targetCommunityProperties filteredProperties).

(** [propertiesByCommunity[activeCommunity] || []].  An own key gives its
    array, which is truthy also when empty.  A name that is no own key is
    looked up in [Object.prototype]: a member found there is truthy and is
    the value.  Any other name reads [undefined], hence the empty array. *)
Definition currentCommunityProperties (filteredProperties : list Property)
           (activeCommunity : string) : Selection Property :=
  match propertiesByCommunity filteredProperties !! activeCommunity with
  | Some properties => Listed properties
  | None =>
      if objectPrototypeHas activeCommunity then Inherited activeCommunity
      else Listed []
  end.
End Grouping.

End Agent.

(** ** The commercial-only page with mock fallback

    The revision that caps the elements at 200, parses in one pass, lists
    the categories of a feed and falls back to mock records. *)

Module Commercial.
Import Dom Common Net.

Record Property : Type := {
  id : string;
  title : string;
  price : Num.number;
  area : Num.number;
  bedrooms : Num.number;
  community : string;
  images : list string;
  type : FeedType;
  propertyType : PropertyType;
  category : option string
}.

Definition CORS_PROXIES : list string :=
  ["https://api.allorigins.win/raw?url="; "https://corsproxy.io/?";
   "https://cors-anywhere.herokuapp.com/"].

(** [Set.prototype.add] on a set kept in insertion order. *)
Definition setAdd (x : string) (s : list string) : list string :=
  if existsb (String.eqb x) s then s else s ++ [x].

(** The categories of the listing elements of a parsed document, each once,
    in order of first occurrence. *)
(** The callback of [propertyElements.forEach]: a category that is not
    empty joins the set. *)
Definition addCategory (categories : list string) (element : Handle)
  : list string :=
  let category := getFieldValue element categoryFields in
  if Str.truthy category then setAdd category categories else categories.

(** The categories of the listing elements of a parsed document, each once,
    in order of first occurrence. *)
Definition extractCategories (xmlDoc : Document) : list string :=
  fold_left addCategory (docQuerySelectorAll xmlDoc listingSelectors) [].

Definition extractCategoriesFromXML (parseFromString : string -> Document)
           (xmlString : string) : list string :=
  extractCategories (parseFromString xmlString).

Definition MOCK_PROPERTIES : list Property :=
  [ {| id := "1"; title := "Premium Office Space - Business Bay Tower";
       price := Num.ofZ 2500000; area := Num.ofZ 1200; bedrooms := Num.ofZ 0;
       community := "Business Bay";
       images := [heroProperty1; heroProperty2; heroProperty3]; type := sale;
       propertyType := commercial; category := Some "Office" |};
    {| id := "2"; title := "Retail Shop - Motor City Plaza";
       price := Num.ofZ 180000; area := Num.ofZ 950; bedrooms := Num.ofZ 0;
       community := "Motor City";
       images := [heroProperty2; heroProperty3; heroProperty1]; type := rent;
       propertyType := commercial; category := Some "Retail" |};
    {| id := "3"; title := "Commercial Building - Business Bay";
       price := Num.ofZ 3200000; area := Num.ofZ 1500; bedrooms := Num.ofZ 0;
       community := "Business Bay";
       images := [heroProperty3; heroProperty1; heroProperty2]; type := sale;
       propertyType := commercial; category := Some "Commercial" |};
    {| id := "4"; title := "Office Space - Barsha Heights";
       price := Num.ofZ 120000; area := Num.ofZ 800; bedrooms := Num.ofZ 0;
       community := "Barsha Heights";
       images := [heroProperty1; heroProperty3; heroProperty2]; type := rent;
       propertyType := commercial; category := Some "Office" |};
    {| id := "5"; title := "Showroom - Business Bay";
       price := Num.ofZ 1800000; area := Num.ofZ 1000; bedrooms := Num.ofZ 0;
       community := "Business Bay";
       images := [heroProperty2; heroProperty1; heroProperty3]; type := sale;
       propertyType := commercial; category := Some "Showroom" |};
    {| id := "6"; title := "Warehouse - Motor City";
       price := Num.ofZ 95000; area := Num.ofZ 750; bedrooms := Num.ofZ 0;
       community := "Motor City";
       images := [heroProperty3; heroProperty2; heroProperty1]; type := rent;
       propertyType := commercial; category := Some "Warehouse" |} ].

(** The alias table is that of the chunked revision. *)
Definition communityMappings : list (string * string) :=
  [("dubai investment park (dip)", "Motor City");
   ("dubai investment park", "Motor City");
   ("business bay", "Business Bay");
   ("motor city", "Motor City");
   ("barsha heights", "Barsha Heights");
   ("al barsha heights", "Barsha Heights")].

Definition finalCommunityOf : string -> string :=
  Common.finalCommunityOf communityMappings.

(** [parseInt(bedroomsStr) || 0], and [bedrooms || 0] again in the record. *)
Definition bedroomsOf (bedroomsStr : string) : Num.number :=
  let bedrooms := Num.orElse (Num.parseInt bedroomsStr) (Num.ofZ 0) in
  Num.orElse bedrooms (Num.ofZ 0).

Definition extractImages (element : Handle) : list string :=
  match querySelector element [Tag "Images"] with
  | Some imagesContainer =>
      imageTexts (querySelectorAll imagesContainer nestedImageSelectors)
  | None =>
      imageTexts (querySelectorAll element directImageSelectors)
  end.

(** [images.length > 0 ? images : fallbackImages]. *)
Definition finalImagesOf (images : list string) : list string :=
  if (0 <? length images)%nat then images else fallbackImages.

(** The callback of [limitedElements.forEach]. *)
Definition processElement (type : FeedType) (index : nat) (element : Handle)
  : option Property :=
  let category := getFieldValue element categoryFields in
  if negb (Str.truthy category) || negb (isCommercialCategory category) then None
  else
    let community := getFieldValue element communityFields in
    let finalCommunity := finalCommunityOf community in
    if negb (isTargetCommunity finalCommunity) then None
    else
      let title :=
        Str.orElse (getFieldValue element titleFields)
                   (String.append "Property " (Str.ofNat (index + 1))) in
      let priceStr := getFieldValue element (priceFields type) in
      let areaStr := getFieldValue element areaFields in
      let bedroomsStr := getFieldValue element bedroomsFields in
      let price := priceOf priceStr in
      let area := areaOf areaStr in
      let images := extractImages element in
      let finalImages := finalImagesOf images in
      if Num.gt price (Num.ofZ 0) then
        Some {| id := String.append (feedTypeName type)
                        (String.append "-" (Str.ofNat index));
                title := title;
                price := price;
                area := area;
                bedrooms := bedroomsOf bedroomsStr;
                community := finalCommunity;
                images := finalImages;
                type := type;
                propertyType := commercial;
                category := Some category |}
      else None.

Fixpoint forEachElement (type : FeedType) (index : nat) (elements : list Handle)
         (properties : list Property) : list Property :=
  match elements with
  | [] => properties
  | element :: rest =>
      forEachElement type (S index) rest
        (match processElement type index element with
         | Some p => properties ++ [p]
         | None => properties
         end)
  end.

(** The records pushed, in order, for the elements from [index] on. *)
Fixpoint recordsFrom (type : FeedType) (index : nat) (elements : list Handle)
  : list Property :=
  match elements with
  | [] => []
  | element :: rest =>
      match processElement type index element with
      | Some p => p :: recordsFrom type (S index) rest
      | None => recordsFrom type (S index) rest
      end
  end.

Definition elementLimit : nat := 200.

Definition parseDocument (xmlDoc : Document) (type : FeedType) : list Property :=
  match docQuerySelector xmlDoc [Tag "parsererror"] with
  | Some _ => []
  | None =>
      let limitedElements :=
        firstn elementLimit (docQuerySelectorAll xmlDoc listingSelectors) in
      forEachElement type 0 limitedElements []
  end.

Definition parseXMLProperties (parseFromString : string -> Document)
           (xmlString : string) (type : FeedType) : list Property :=
  parseDocument (parseFromString xmlString) type.

Section Fetching.
Context (fetch : string -> option Response)
        (encodeURIComponent : string -> string)
        (parseFromString : string -> Document).

Definition fetchWithTimeout (url : string) (type : FeedType) (proxyUrl : string)
  : option (list Property) :=
  match fetch (String.append proxyUrl (encodeURIComponent url)) with
  | Some response =>
      if ok response
      then Some (parseXMLProperties parseFromString (text response) type)
      else None
  | None => None
  end.

(** The loop over the settled results, in the order of the proxies. *)
Fixpoint firstSuccessful (results : list (option (list Property))) : list Property :=
  match results with
  | [] => []
  | result :: rest =>
      match result with
      | Some value => if (0 <? length value)%nat then value else firstSuccessful rest
      | None => firstSuccessful rest
      end
  end.

(** All proxies are asked; the first result, in proxy order, that is not
    empty is returned. *)
Definition fetchXMLDataOptimized (url : string) (type : FeedType) : list Property :=
  firstSuccessful (List.map (fetchWithTimeout url type) CORS_PROXIES).

(** The value [loadData] passes to [setProperties]. *)
Definition loadData : list Property :=
  let salesProperties := fetchXMLDataOptimized OptimizedLoad.salesUrl sale in
  let rentProperties := fetchXMLDataOptimized OptimizedLoad.rentUrl rent in
  let allProperties := salesProperties ++ rentProperties in
  if (0 <? length allProperties)%nat then allProperties else MOCK_PROPERTIES.
End Fetching.

End Commercial.

(** ** Record identifiers *)

Module Identifiers.
Import Common.

(** [`${type}-${Date.now()}-${i}`] and [`${type}-${index}`]. *)
Definition optimizedId (type : FeedType) (now i : nat) : string :=
  String.append (feedTypeName type)
    (String.append "-"
       (String.append (Str.ofNat now) (String.append "-" (Str.ofNat i)))).

Definition indexId (type : FeedType) (index : nat) : string :=
  String.append (feedTypeName type) (String.append "-" (Str.ofNat index)).

End Identifiers.

(** ** Further sample inputs *)

Module Cases.
Import Dom Common.

(** A listing with a [Price] field, which both feed kinds read. *)
Definition listingPriced : Node :=
  Element "UnitDTO"
    [Samples.field "Category" "Office"; Samples.field "Community" "Business Bay";
     Samples.field "Price" "AED 120,000"].

(** The mock record of the first revision whose community is no target. *)
Definition downtownMock : Index.Property :=
  {| Index.id := "3"; Index.title := "Downtown Heights";
     Index.price := Num.ofZ 3200000; Index.area := Num.ofZ 1500;
     Index.bedrooms := Num.ofZ 3; Index.community := "Downtown Dubai";
     Index.images := [heroProperty3; heroProperty1; heroProperty2];
     Index.type := sale |}.

(** Sales shown, with one record loaded in each feed. *)
Definition twoTabState : Optimized.State :=
  OptimizedUi.setRentProperties [Samples.propertyWithoutCategory]
    (Samples.loadedState [Samples.expensiveProperty]).

(** A network where only the second proxy of the chunked revision answers,
    an encoding that changes nothing and a parser that always builds the
    same one-listing document. *)
Definition secondProxyAnswers (requestUrl : string) : option Net.Response :=
  if String.prefix "https://corsproxy.io/?" requestUrl
  then Some {| Net.ok := true; Net.text := "<feed/>" |}
  else None.

Definition noEncoding (s : string) : string := s.

Definition oneListingParser (xmlString : string) : Document :=
  Samples.feedOf [listingPriced].

(** A network where nothing answers. *)
Definition deadNetwork (requestUrl : string) : option Net.Response := None.

End Cases.

(** * Facts *)

(** ** Strings *)

Module StrFacts.
Import Str.

Lemma append_nil (s : string) : String.append EmptyString s = s.
Proof. reflexivity. Qed.

Lemma append_cons (c : ascii) (s t : string) :
  String.append (String c s) t = String c (String.append s t).
Proof. reflexivity. Qed.

Lemma prefix_nil (s : string) : String.prefix EmptyString s = true.
Proof. now destruct s. Qed.

Lemma prefix_cons_nil (c : ascii) (p : string) :
  String.prefix (String c p) EmptyString = false.
Proof. reflexivity. Qed.

Lemma prefix_cons (c d : ascii) (p s : string) :
  String.prefix (String c p) (String d s) =
  if ascii_dec c d then String.prefix p s else false.
Proof. reflexivity. Qed.

Lemma includes_nil (p : string) :
  includes EmptyString p = String.prefix p EmptyString.
Proof. unfold includes. now rewrite orb_false_r. Qed.

Lemma includes_cons (c : ascii) (s p : string) :
  includes (String c s) p = String.prefix p (String c s) || includes s p.
Proof. reflexivity. Qed.

Lemma prefix_iff (p s : string) :
  String.prefix p s = true <-> exists post, s = String.append p post.
Proof.
  revert s. induction p as [|c p IH]; intros s.
  - rewrite prefix_nil. split; [intros _; now exists s | reflexivity].
  - destruct s as [|d s].
    + rewrite prefix_cons_nil.
      split; [discriminate | intros [post H]; rewrite append_cons in H; discriminate].
    + rewrite prefix_cons. destruct (ascii_dec c d) as [->|Hne].
      * rewrite IH. split; intros [post H]; exists post.
        -- rewrite append_cons. congruence.
        -- rewrite append_cons in H. congruence.
      * split; [discriminate |].
        intros [post H]. rewrite append_cons in H. congruence.
Qed.

Lemma includes_iff (s p : string) :
  includes s p = true <-> Substring p s.
Proof.
  induction s as [|c s IH].
  - rewrite includes_nil, prefix_iff. split.
    + intros [post H]. now exists EmptyString, post.
    + intros [pre [post H]]. destruct pre as [|d pre].
      * now exists post.
      * rewrite append_cons in H. discriminate.
  - rewrite includes_cons, orb_true_iff, prefix_iff, IH. split.
    + intros [[post H] | [pre [post H]]].
      * now exists EmptyString, post.
      * exists (String c pre), post. rewrite append_cons. now rewrite H.
    + intros [pre [post H]]. destruct pre as [|d pre].
      * left. now exists post.
      * right. exists pre, post. rewrite append_cons in H. congruence.
Qed.

Lemma prefix_refl (s : string) : String.prefix s s = true.
Proof.
  induction s as [|c s IH]; [reflexivity|].
  rewrite prefix_cons. destruct (ascii_dec c c); [assumption | congruence].
Qed.

Lemma includes_refl (s : string) : includes s s = true.
Proof.
  destruct s as [|c s]; [reflexivity|].
  now rewrite includes_cons, prefix_refl.
Qed.

(** Every string includes the empty string. *)
Lemma includes_empty (s : string) : includes s EmptyString = true.
Proof. destruct s; reflexivity. Qed.

Lemma toLowerCase_empty : toLowerCase EmptyString = EmptyString.
Proof. reflexivity. Qed.

Lemma truthy_true_iff (s : string) : truthy s = true <-> s <> EmptyString.
Proof. destruct s; simpl; split; congruence. Qed.

End StrFacts.

(** ** The commercial classifier *)

Module ClassifierFacts.
Import Common.

Lemma commercialPatterns_length : length commercialPatterns = 24%nat.
Proof. reflexivity. Qed.

(** C3. A category is classified as commercial exactly when its lower-cased
    text contains one of the 24 keyword substrings; "Modern Office Space" is
    commercial and "2 Bedroom Apartment" is not. *)
Theorem isCommercialCategory_iff_keyword :
  (forall category : string,
      isCommercialCategory category = true <->
      exists pattern : string,
        In pattern commercialPatterns /\
        Str.Substring pattern (Str.toLowerCase category))
  /\ isCommercialCategory "Modern Office Space" = true
  /\ isCommercialCategory "2 Bedroom Apartment" = false.
Proof.
  split; [|split; reflexivity].
  intros category. unfold isCommercialCategory.
  rewrite existsb_exists. split.
  - intros [pattern [Hin Hinc]]. exists pattern. split; [exact Hin|].
    now apply StrFacts.includes_iff.
  - intros [pattern [Hin Hsub]]. exists pattern. split; [exact Hin|].
    now apply StrFacts.includes_iff.
Qed.

End ClassifierFacts.

(** ** Community canonicalisation *)

Module CommunityFacts.
Import Common.

Lemma find_first {A : Type} (f : A -> bool) (l pre post : list A) (x : A) :
  l = pre ++ x :: post ->
  f x = true ->
  (forall y, In y pre -> f y = false) ->
  List.find f l = Some x.
Proof.
  intros -> Hx Hpre. induction pre as [|y pre IH]; simpl.
  - now rewrite Hx.
  - rewrite (Hpre y (or_introl eq_refl)). apply IH.
    intros z Hz. apply Hpre. now right.
Qed.

Lemma find_all_false {A : Type} (f : A -> bool) (l : list A) :
  (forall y, In y l -> f y = false) -> List.find f l = None.
Proof.
  induction l as [|y l IH]; intros H; simpl; [reflexivity|].
  rewrite (H y (or_introl eq_refl)). apply IH.
  intros z Hz. apply H. now right.
Qed.

Section Table.
Variable communityMappings : list (string * string).
Variable community : string.

Abbreviation normalizedCommunity := (Str.toLowerCase community).

(** The first key, in declaration order, that the lower-cased community
    includes decides the result. *)
Lemma finalCommunityOf_first (pre post : list (string * string))
      (key mapped : string) :
  communityMappings = pre ++ (key, mapped) :: post ->
  key <> EmptyString ->
  Str.includes normalizedCommunity key = true ->
  (forall e, In e pre -> Str.includes normalizedCommunity (fst e) = false) ->
  finalCommunityOf communityMappings community = mapped.
Proof.
  intros Htable Hkey Hinc Hpre. unfold finalCommunityOf. cbv zeta.
  match goal with
  | |- context [List.find ?f ?l] => replace (List.find f l) with (Some key)
  end.
  2:{ symmetry. apply (find_first _ _ (List.map fst pre) (List.map fst post)).
      - unfold keysOf. rewrite Htable, List.map_app. reflexivity.
      - exact Hinc.
      - intros k Hk. apply in_map_iff in Hk as [e [<- He]]. now apply Hpre. }
  destruct (Str.truthy key) eqn:Ht.
  - assert (Hget : List.find (fun e => String.eqb (fst e) key) communityMappings
                   = Some (key, mapped)).
    { apply (find_first _ _ pre post); [exact Htable | apply String.eqb_refl |].
      intros e He. apply String.eqb_neq. intros Heq.
      specialize (Hpre e He). rewrite Heq in Hpre. congruence. }
    unfold getProp. now rewrite Hget.
  - destruct key; [congruence | discriminate].
Qed.

(** With no key included, the raw community is kept. *)
Lemma finalCommunityOf_unmatched :
  (forall key, In key (keysOf communityMappings) ->
               Str.includes normalizedCommunity key = false) ->
  finalCommunityOf communityMappings community = community.
Proof.
  intros H. unfold finalCommunityOf. cbv zeta.
  match goal with
  | |- context [List.find ?f ?l] => replace (List.find f l) with (@None string)
  end; [reflexivity|].
  symmetry. now apply find_all_false.
Qed.
End Table.

Lemma includes_false_iff (s p : string) :
  Str.includes s p = false <-> ~ Str.Substring p s.
Proof.
  rewrite <- StrFacts.includes_iff. destruct (Str.includes s p); split; congruence.
Qed.

(** C4. Under the alias table of either revision, a community whose
    lower-cased text contains an alias key is mapped to the value of the
    first such key in declaration order, and a community containing no
    alias key is returned unchanged. *)
Theorem finalCommunity_first_alias_wins (table : list (string * string)) :
  In table [Optimized.communityMappings; Index.communityMappings] ->
  (forall (community : string) (pre post : list (string * string))
          (key mapped : string),
      table = pre ++ (key, mapped) :: post ->
      Str.Substring key (Str.toLowerCase community) ->
      (forall e, In e pre -> ~ Str.Substring (fst e) (Str.toLowerCase community)) ->
      finalCommunityOf table community = mapped)
  /\ (forall community : string,
         (forall key, In key (keysOf table) ->
                      ~ Str.Substring key (Str.toLowerCase community)) ->
         finalCommunityOf table community = community)
  /\ finalCommunityOf table "Dubai Investment Park (DIP) — Phase 2" = "Motor City"
  /\ finalCommunityOf table "Al Barsha Heights" = "Barsha Heights".
Proof.
  intros Htable.
  assert (Hkeys : forall key, In key (keysOf table) -> key <> EmptyString).
  { intros key Hin.
    destruct Htable as [<- | [<- | []]]; simpl in Hin;
      repeat (destruct Hin as [<- | Hin]; [discriminate|]); destruct Hin. }
  split; [|split; [|split]].
  - intros community pre post key mapped Heq Hsub Hpre.
    apply (finalCommunityOf_first table community pre post key mapped Heq).
    + apply Hkeys. unfold keysOf. rewrite Heq, List.map_app. apply in_or_app.
      right. now left.
    + now apply StrFacts.includes_iff.
    + intros e He. apply includes_false_iff. now apply Hpre.
  - intros community H. apply finalCommunityOf_unmatched.
    intros key Hin. apply includes_false_iff. now apply H.
  - destruct Htable as [<- | [<- | []]]; reflexivity.
  - destruct Htable as [<- | [<- | []]]; reflexivity.
Qed.

Lemma finalCommunity_first_alias_wins_witness :
  In Optimized.communityMappings
     [Optimized.communityMappings; Index.communityMappings]
  /\ Optimized.finalCommunityOf "Al Barsha Heights Tower" = "Barsha Heights"
  /\ Optimized.finalCommunityOf "Downtown Dubai" = "Downtown Dubai".
Proof.
  assert (Hin : In Optimized.communityMappings
                   [Optimized.communityMappings; Index.communityMappings])
    by (left; reflexivity).
  split; [exact Hin|].
  destruct (finalCommunity_first_alias_wins Optimized.communityMappings Hin)
    as [Hfirst [Hnone _]].
  split.
  - apply (Hfirst "Al Barsha Heights Tower"
                  [("dubai investment park (dip)", "Motor City");
                   ("dubai investment park", "Motor City");
                   ("business bay", "Business Bay");
                   ("motor city", "Motor City")]
                  [("al barsha heights", "Barsha Heights")]
                  "barsha heights" "Barsha Heights").
    + reflexivity.
    + apply StrFacts.includes_iff. reflexivity.
    + intros e He. apply includes_false_iff.
      simpl in He. repeat (destruct He as [<- | He]; [reflexivity|]). destruct He.
  - apply (Hnone "Downtown Dubai").
    intros key Hkey. apply includes_false_iff.
    simpl in Hkey. repeat (destruct Hkey as [<- | Hkey]; [reflexivity|]). destruct Hkey.
Defined.

End CommunityFacts.

(** ** Numbers *)

Module NumFacts.
Import Num.

Lemma gt_false_of_le (a b : number) : le a b = true -> gt a b = false.
Proof.
  destruct a as [|x], b as [|y]; simpl; try discriminate.
  intros H. unfold gt, lt. now rewrite H.
Qed.

Lemma le_of_not_gt (x y : Q) : gt (Num x) (Num y) = false -> le (Num x) (Num y) = true.
Proof. unfold gt, lt, le. now destruct (Qle_bool x y). Qed.

Lemma orElse_not_NaN (a : number) (d : Q) : orElse a (Num d) <> NaN.
Proof. unfold orElse. destruct a as [|q]; simpl; [discriminate|]. now destruct (Qeq_bool q 0). Qed.

Lemma digitsValue_nonneg (radix : Z) (value : ascii -> nat) (s : string) :
  forall acc : Z, (0 <= radix)%Z -> (0 <= acc)%Z ->
                  (0 <= digitsValue radix value acc s)%Z.
Proof.
  induction s as [|c s IH]; intros acc Hr Hacc; simpl; [exact Hacc|].
  apply IH; [exact Hr|]. nia.
Qed.



Lemma parseInt_empty : parseInt EmptyString = NaN.
Proof. reflexivity. Qed.

End NumFacts.

(** ** The loops of the extractor *)

Module LoopFacts.
Import Dom Common.

(** A [for] loop with a positive step whose bound is the smaller of the
    array length and a limit reached by whole steps visits, chunk after
    chunk, exactly the indices from [start] up to the bound. *)
Lemma forRange_chunks (step n limit : nat) :
  (0 < step)%nat ->
  forall (fuel start k : nat),
    limit = (start + k * step)%nat ->
    (Nat.min n limit - start <= fuel)%nat ->
    flat_map (fun i => seq i (Nat.min (i + step) n - i))
             (forRange fuel start (Nat.min n limit) step)
    = seq start (Nat.min n limit - start).
Proof.
  intros Hstep. induction fuel as [|fuel IH]; intros start k Hlimit Hfuel.
  - simpl. replace (Nat.min n limit - start)%nat with 0%nat by lia. reflexivity.
  - simpl. destruct (Nat.ltb_spec start (Nat.min n limit)) as [Hlt|Hge].
    + destruct k as [|k]; [lia|].
      simpl flat_map.
      rewrite (IH (start + step)%nat k) by lia.
      destruct (Nat.le_gt_cases (start + step) n) as [Hle|Hgt].
      * replace (Nat.min (start + step) n - start)%nat with step by lia.
        replace (Nat.min n limit - start)%nat
          with (step + (Nat.min n limit - (start + step)))%nat by lia.
        now rewrite seq_app.
      * replace (Nat.min n limit - (start + step))%nat with 0%nat by lia.
        replace (Nat.min (start + step) n - start)%nat
          with (Nat.min n limit - start)%nat by lia.
        simpl. now rewrite app_nil_r.
    + replace (Nat.min n limit - start)%nat with 0%nat by lia. reflexivity.
Qed.

(** More fuel than the bound does not change the indices visited. *)
Lemma forRange_fuel (step bound : nat) :
  (0 < step)%nat ->
  forall fuel1 fuel2 start : nat,
    (bound - start <= fuel1)%nat -> (bound - start <= fuel2)%nat ->
    forRange fuel1 start bound step = forRange fuel2 start bound step.
Proof.
  intros Hstep. induction fuel1 as [|fuel1 IH]; intros fuel2 start H1 H2.
  - destruct fuel2 as [|fuel2]; [reflexivity|]. simpl.
    destruct (Nat.ltb_spec start bound); [lia | reflexivity].
  - simpl. destruct (Nat.ltb_spec start bound) as [Hlt|Hge].
    + destruct fuel2 as [|fuel2]; [lia|]. simpl.
      destruct (Nat.ltb_spec start bound); [|lia].
      f_equal. apply IH; lia.
    + destruct fuel2 as [|fuel2]; [reflexivity|]. simpl.
      destruct (Nat.ltb_spec start bound); [lia | reflexivity].
Qed.

End LoopFacts.

(** ** The normaliser of the chunked revision *)

Module OptimizedFacts.
Import Dom Common Optimized.

Lemma recordsAt_app type now elements (l1 l2 : list nat) :
  recordsAt type now elements (l1 ++ l2)
  = recordsAt type now elements l1 ++ recordsAt type now elements l2.
Proof. unfold recordsAt. apply flat_map_app. Qed.

(** A chunk appends the records of its indices to those already pushed. *)
Lemma processChunk_recordsAt type now elements (startIndex size : nat) :
  forall properties : list Property,
    processChunk type now elements startIndex size properties
    = properties ++
      recordsAt type now elements
        (seq startIndex (Nat.min (startIndex + size) (length elements) - startIndex)).
Proof.
  unfold processChunk.
  generalize (seq startIndex (Nat.min (startIndex + size) (length elements) - startIndex)).
  intros indices. induction indices as [|i indices IH]; intros properties.
  - simpl. now rewrite app_nil_r.
  - simpl fold_left. rewrite IH.
    change (i :: indices) with ([i] ++ indices). rewrite recordsAt_app.
    rewrite app_assoc. f_equal.
    unfold recordsAt. simpl.
    destruct (nth_error elements i) as [element|]; [|now rewrite app_nil_r].
    destruct (processElement type (now i) i element);
      now rewrite ?app_nil_r.
Qed.

Lemma chunks_recordsAt type now elements (size : nat) (starts : list nat) :
  forall properties : list Property,
    fold_left (fun props i => processChunk type now elements i size props)
              starts properties
    = properties ++
      recordsAt type now elements
        (flat_map (fun i => seq i (Nat.min (i + size) (length elements) - i)) starts).
Proof.
  induction starts as [|i starts IH]; intros properties.
  - simpl. now rewrite app_nil_r.
  - simpl fold_left. rewrite IH, processChunk_recordsAt.
    simpl flat_map. now rewrite recordsAt_app, app_assoc.
Qed.

(** The chunked loops process the first [min(elements.length, 300)]
    elements, each once and in document order. *)
Lemma parseDocument_records (now : nat -> nat) (xmlDoc : Document) (type : FeedType) :
  parseDocument now xmlDoc type =
  match docQuerySelector xmlDoc [Tag "parsererror"] with
  | Some _ => []
  | None =>
      recordsAt type now (docQuerySelectorAll xmlDoc listingSelectors)
        (seq 0 (Nat.min (length (docQuerySelectorAll xmlDoc listingSelectors))
                        elementLimit))
  end.
Proof.
  unfold parseDocument.
  destruct (docQuerySelector xmlDoc [Tag "parsererror"]); [reflexivity|].
  cbv zeta. rewrite chunks_recordsAt. simpl app.
  set (n := length (docQuerySelectorAll xmlDoc listingSelectors)).
  f_equal.
  rewrite (LoopFacts.forRange_chunks chunkSize n elementLimit
             ltac:(unfold chunkSize; lia) (Nat.min n elementLimit) 0 6).
  - now rewrite Nat.sub_0_r.
  - reflexivity.
  - lia.
Qed.

Lemma recordsAt_In type now elements indices (p : Property) :
  In p (recordsAt type now elements indices) ->
  exists (i : nat) (element : Handle),
    In i indices /\ nth_error elements i = Some element /\
    processElement type (now i) i element = Some p.
Proof.
  unfold recordsAt. rewrite in_flat_map. intros [i [Hi Hp]].
  destruct (nth_error elements i) as [element|] eqn:Hnth; [|destruct Hp].
  destruct (processElement type (now i) i element) as [q|] eqn:Hq; [|destruct Hp].
  destruct Hp as [<- | []]. now exists i, element.
Qed.

(** Every record of the output was pushed for some listing element. *)
Lemma parseDocument_In now xmlDoc type (p : Property) :
  In p (parseDocument now xmlDoc type) ->
  exists (i : nat) (element : Handle),
    nth_error (docQuerySelectorAll xmlDoc listingSelectors) i = Some element /\
    processElement type (now i) i element = Some p.
Proof.
  rewrite parseDocument_records.
  destruct (docQuerySelector xmlDoc [Tag "parsererror"]); [intros []|].
  intros H. apply recordsAt_In in H as [i [element [_ [Hnth Hp]]]].
  now exists i, element.
Qed.

(** A sale feed with one retail listing gives one commercial record, in
    the canonical community and with the numbers read from the text; the
    same listing with a residential category gives none. *)
Example retail_shop_scenario :
  parseDocument (fun _ => 0%nat) (Samples.feedOf [Samples.listingRetailShop]) sale
  = [ {| id := "sale-0-0"; title := "Property 1";
         price := Num.Num 500000; area := Num.Num 900; bedrooms := Num.Num 0;
         community := "Barsha Heights"; images := fallbackImages; type := sale;
         propertyType := commercial; category := Some "Retail Shop" |} ]
  /\ parseDocument (fun _ => 0%nat) (Samples.feedOf [Samples.listingApartment]) sale
     = [].
Proof. split; reflexivity. Qed.

(** What a pushed record holds. *)
Lemma processElement_Some type now i element (p : Property) :
  processElement type now i element = Some p ->
  Str.truthy (getFieldValue element categoryFields) = true
  /\ isCommercialCategory (getFieldValue element categoryFields) = true
  /\ category p = Some (getFieldValue element categoryFields)
  /\ propertyType p = commercial
  /\ community p = finalCommunityOf (getFieldValue element communityFields)
  /\ isTargetCommunity (community p) = true
  /\ price p = priceOf (getFieldValue element (priceFields type))
  /\ Num.gt (price p) (Num.ofZ 0) = true
  /\ area p = areaOf (getFieldValue element areaFields)
  /\ bedrooms p = bedroomsOf (getFieldValue element bedroomsFields)
  /\ images p = finalImagesOf (extractImages element).
Proof.
  unfold processElement. cbv zeta.
  destruct (Str.truthy (getFieldValue element categoryFields)); [|discriminate].
  destruct (isCommercialCategory (getFieldValue element categoryFields));
    [|discriminate].
  simpl orb. cbv iota.
  destruct (isTargetCommunity
              (finalCommunityOf (getFieldValue element communityFields))) eqn:Hgate;
    [|discriminate].
  simpl negb. cbv iota.
  destruct (Num.gt (priceOf (getFieldValue element (priceFields type))) (Num.ofZ 0))
    eqn:Hprice; [|discriminate].
  intros [= <-]. simpl. repeat split; assumption.
Qed.

End OptimizedFacts.

(** ** The normaliser of the first revision *)

Module IndexFacts.
Import Dom Common Index.

Lemma forEachElement_recordsFrom type (elements : list Handle) :
  forall (index : nat) (properties : list Property),
    forEachElement type index elements properties
    = properties ++ recordsFrom type index elements.
Proof.
  induction elements as [|element rest IH]; intros index properties; simpl.
  - now rewrite app_nil_r.
  - rewrite IH. destruct (processElement type index element) as [p|].
    + now rewrite <- app_assoc.
    + reflexivity.
Qed.

Lemma index_parseDocument_records (xmlDoc : Document) (type : FeedType) :
  parseDocument xmlDoc type =
  match docQuerySelector xmlDoc [Tag "parsererror"] with
  | Some _ => []
  | None => recordsFrom type 0 (docQuerySelectorAll xmlDoc listingSelectors)
  end.
Proof.
  unfold parseDocument.
  destruct (docQuerySelector xmlDoc [Tag "parsererror"]); [reflexivity|].
  now rewrite forEachElement_recordsFrom.
Qed.

Lemma recordsFrom_In type (elements : list Handle) (p : Property) :
  forall index : nat,
    In p (recordsFrom type index elements) ->
    exists (i : nat) (element : Handle),
      In element elements /\ processElement type i element = Some p.
Proof.
  induction elements as [|element rest IH]; intros index; simpl; [intros []|].
  destruct (processElement type index element) as [q|] eqn:Hq.
  - intros [<- | Hin].
    + exists index, element. split; [now left | assumption].
    + destruct (IH _ Hin) as [i [e [He Hp]]]. exists i, e. split; [now right | assumption].
  - intros Hin. destruct (IH _ Hin) as [i [e [He Hp]]].
    exists i, e. split; [now right | assumption].
Qed.

Lemma index_parseDocument_In xmlDoc type (p : Property) :
  In p (parseDocument xmlDoc type) ->
  exists (i : nat) (element : Handle), processElement type i element = Some p.
Proof.
  rewrite index_parseDocument_records.
  destruct (docQuerySelector xmlDoc [Tag "parsererror"]); [intros []|].
  intros H. apply recordsFrom_In in H as [i [element [_ Hp]]]. now exists i, element.
Qed.

Lemma index_processElement_Some type index element (p : Property) :
  processElement type index element = Some p ->
  community p = finalCommunityOf (getFieldValue element communityFields)
  /\ isTargetCommunity (community p) = true
  /\ price p = priceOf (getFieldValue element (priceFields type))
  /\ Num.gt (price p) (Num.ofZ 0) = true
  /\ area p = areaOf (getFieldValue element areaFields)
  /\ bedrooms p = bedroomsOf (getFieldValue element bedroomsFields)
  /\ images p = finalImagesOf (extractImages element).
Proof.
  unfold processElement. cbv zeta.
  destruct (isTargetCommunity
              (finalCommunityOf (getFieldValue element communityFields))) eqn:Hgate;
    [|discriminate].
  destruct (Num.gt (priceOf (getFieldValue element (priceFields type))) (Num.ofZ 0))
    eqn:Hprice; [|discriminate].
  simpl andb. cbv iota.
  intros [= <-]. simpl. repeat split; assumption.
Qed.

End IndexFacts.

(** ** The price gate *)

Module PriceFacts.
Import Dom Common.

(** The derived price is never [NaN]. *)
Lemma priceOf_not_NaN (priceStr : string) : priceOf priceStr <> Num.NaN.
Proof. apply NumFacts.orElse_not_NaN. Qed.

(** C5. A listing element whose derived price is at most 0 pushes no
    record, in the chunked revision and in the first one; a price field
    "N/A" derives the price 0; and every record of the extractor's output,
    like every mock record of the first revision, has a price above 0. *)
Theorem price_gate :
  (forall (type : FeedType) (now i : nat) (element : Handle),
      Num.le (priceOf (getFieldValue element (priceFields type))) (Num.ofZ 0) = true ->
      Optimized.processElement type now i element = None)
  /\ (forall (type : FeedType) (index : nat) (element : Handle),
         Num.le (priceOf (getFieldValue element (priceFields type))) (Num.ofZ 0) = true ->
         Index.processElement type index element = None)
  /\ priceOf "N/A" = Num.ofZ 0
  /\ (forall (parseFromString : string -> Document) (now : nat -> nat)
             (xmlString : string) (type : FeedType) (p : Optimized.Property),
         In p (Optimized.parseXMLPropertiesOptimized parseFromString now xmlString type) ->
         Num.gt (Optimized.price p) (Num.ofZ 0) = true)
  /\ (forall (parseFromString : string -> Document)
             (xmlString : string) (type : FeedType) (p : Index.Property),
         In p (Index.parseXMLProperties parseFromString xmlString type) ->
         Num.gt (Index.price p) (Num.ofZ 0) = true)
  /\ (forall p : Index.Property,
         In p Index.MOCK_PROPERTIES -> Num.gt (Index.price p) (Num.ofZ 0) = true).
Proof.
  split; [|split; [|split; [|split; [|split]]]].
  - intros type now i element Hle.
    destruct (Optimized.processElement type now i element) as [p|] eqn:Hp;
      [|reflexivity].
    apply OptimizedFacts.processElement_Some in Hp.
    destruct Hp as (_ & _ & _ & _ & _ & _ & Hprice & Hgt & _).
    rewrite Hprice in Hgt. apply NumFacts.gt_false_of_le in Hle. congruence.
  - intros type index element Hle.
    destruct (Index.processElement type index element) as [p|] eqn:Hp;
      [|reflexivity].
    apply IndexFacts.index_processElement_Some in Hp.
    destruct Hp as (_ & _ & Hprice & Hgt & _).
    rewrite Hprice in Hgt. apply NumFacts.gt_false_of_le in Hle. congruence.
  - reflexivity.
  - intros parseFromString now xmlString type p Hin.
    apply OptimizedFacts.parseDocument_In in Hin as [i [element [_ Hp]]].
    now apply OptimizedFacts.processElement_Some in Hp.
  - intros parseFromString xmlString type p Hin.
    apply IndexFacts.index_parseDocument_In in Hin as [i [element Hp]].
    now apply IndexFacts.index_processElement_Some in Hp.
  - intros p Hin. simpl in Hin.
    repeat (destruct Hin as [<- | Hin]; [reflexivity|]). destruct Hin.
Qed.

Lemma price_gate_witness :
  Num.le (priceOf (getFieldValue (Samples.handleOf Samples.listingPriceNA)
                                 (priceFields sale)))
         (Num.ofZ 0) = true
  /\ Optimized.processElement sale 0 0 (Samples.handleOf Samples.listingPriceNA) = None
  /\ Optimized.parseDocument (fun _ => 0%nat)
       (Samples.feedOf [Samples.listingPriceNA]) sale = [].
Proof.
  split; [reflexivity|]. split; [|reflexivity].
  destruct price_gate as [H _].
  apply (H sale 0%nat 0%nat (Samples.handleOf Samples.listingPriceNA)).
  reflexivity.
Defined.

End PriceFacts.

(** ** The target-community gate *)

Module GateFacts.
Import Dom Common.

(** A target name passes the gate. *)
Lemma isTargetCommunity_target (name : string) :
  In name TARGET_COMMUNITIES -> isTargetCommunity name = true.
Proof.
  intros Hin. unfold isTargetCommunity. apply existsb_exists.
  exists name. split; [exact Hin|].
  now rewrite StrFacts.includes_refl.
Qed.

(** C1. The empty community passes the target-community gate, because
    every target name includes the empty string; a commercial listing with
    no community field and a positive price is therefore pushed, with an
    empty community, by the chunked revision and by the first one. *)
Theorem empty_community_passes_gate :
  isTargetCommunity EmptyString = true
  /\ getFieldValue (Samples.handleOf Samples.listingWithoutCommunity)
                   communityFields = EmptyString
  /\ (exists p : Optimized.Property,
         Optimized.parseDocument (fun _ => 0%nat)
           (Samples.feedOf [Samples.listingWithoutCommunity]) sale = [p]
         /\ Optimized.community p = EmptyString)
  /\ (exists p : Index.Property,
         Index.parseDocument
           (Samples.feedOf [Samples.listingWithoutCommunity]) sale = [p]
         /\ Index.community p = EmptyString).
Proof.
  split; [reflexivity|]. split; [reflexivity|].
  split; eexists; (split; [reflexivity|reflexivity]).
Qed.

End GateFacts.

(** ** Bedrooms *)

Module BedroomsFacts.
Import Dom Common.





(** *** Safe integers

    Whole numbers of magnitude below [2 ^ 53] are the safe integers of
    binary64, the range in which [parseInt] is exact. *)








End BedroomsFacts.

Module BedroomsClaims.
Import Dom Common BedroomsFacts.




End BedroomsClaims.

(** ** Images *)

Module ImagesFacts.
Import Dom Common.

Lemma fallbackImages_length : length fallbackImages = 3%nat.
Proof. reflexivity. Qed.

Lemma capped_cases (images : list string) :
  (images = [] /\ Optimized.finalImagesOf images = fallbackImages)
  \/ (images <> [] /\ Optimized.finalImagesOf images = firstn 5 images).
Proof.
  unfold Optimized.finalImagesOf. destruct images as [|u images].
  - left. split; reflexivity.
  - right. split; [discriminate | reflexivity].
Qed.

Lemma capped_length (images : list string) :
  (1 <= length (Optimized.finalImagesOf images) <= 5)%nat.
Proof.
  destruct (capped_cases images) as [[-> ->] | [Hne ->]].
  - simpl. lia.
  - rewrite length_firstn. destruct images; [congruence | cbn [length]; lia].
Qed.

Lemma uncapped_cases (images : list string) :
  (images = [] /\ Index.finalImagesOf images = fallbackImages)
  \/ (images <> [] /\ Index.finalImagesOf images = images).
Proof.
  unfold Index.finalImagesOf. destruct images as [|u images].
  - left. split; reflexivity.
  - right. split; [discriminate | reflexivity].
Qed.

Lemma uncapped_length (images : list string) :
  (1 <= length (Index.finalImagesOf images))%nat.
Proof.
  destruct (uncapped_cases images) as [[-> ->] | [Hne ->]].
  - simpl. lia.
  - destruct images; [congruence | simpl; lia].
Qed.

(** C8. Every record the normaliser builds has at least one image.  With
    no image text extracted from the element the images are the three
    placeholders; otherwise they are the extracted texts in document order,
    cut to the first five in the chunked revision and whole in the first
    revision.  The same bound holds for every record of the output. *)
Theorem images_never_empty :
  length fallbackImages = 3%nat
  /\ (forall (type : FeedType) (now i : nat) (element : Handle) (p : Optimized.Property),
         Optimized.processElement type now i element = Some p ->
         (1 <= length (Optimized.images p) <= 5)%nat
         /\ (Optimized.extractImages element = [] ->
             Optimized.images p = fallbackImages)
         /\ (Optimized.extractImages element <> [] ->
             Optimized.images p = firstn 5 (Optimized.extractImages element)))
  /\ (forall (type : FeedType) (index : nat) (element : Handle) (p : Index.Property),
         Index.processElement type index element = Some p ->
         (1 <= length (Index.images p))%nat
         /\ (Index.extractImages element = [] -> Index.images p = fallbackImages)
         /\ (Index.extractImages element <> [] ->
             Index.images p = Index.extractImages element))
  /\ (forall (parseFromString : string -> Document) (now : nat -> nat)
             (xmlString : string) (type : FeedType) (p : Optimized.Property),
         In p (Optimized.parseXMLPropertiesOptimized parseFromString now xmlString type) ->
         (1 <= length (Optimized.images p))%nat)
  /\ (forall (parseFromString : string -> Document)
             (xmlString : string) (type : FeedType) (p : Index.Property),
         In p (Index.parseXMLProperties parseFromString xmlString type) ->
         (1 <= length (Index.images p))%nat).
Proof.
  split; [reflexivity|]. split; [|split; [|split]].
  - intros type now i element p Hp.
    apply OptimizedFacts.processElement_Some in Hp.
    destruct Hp as (_ & _ & _ & _ & _ & _ & _ & _ & _ & _ & Himg).
    rewrite Himg. split; [apply capped_length|].
    destruct (capped_cases (Optimized.extractImages element)) as [[He ->] | [Hne ->]];
      split; intros H; congruence.
  - intros type index element p Hp.
    apply IndexFacts.index_processElement_Some in Hp.
    destruct Hp as (_ & _ & _ & _ & _ & _ & Himg).
    rewrite Himg. split; [apply uncapped_length|].
    destruct (uncapped_cases (Index.extractImages element)) as [[He ->] | [Hne ->]];
      split; intros H; congruence.
  - intros parseFromString now xmlString type p Hin.
    apply OptimizedFacts.parseDocument_In in Hin as [i [element [_ Hp]]].
    apply OptimizedFacts.processElement_Some in Hp.
    destruct Hp as (_ & _ & _ & _ & _ & _ & _ & _ & _ & _ & Himg).
    rewrite Himg. apply capped_length.
  - intros parseFromString xmlString type p Hin.
    apply IndexFacts.index_parseDocument_In in Hin as [i [element Hp]].
    apply IndexFacts.index_processElement_Some in Hp.
    destruct Hp as (_ & _ & _ & _ & _ & _ & Himg).
    rewrite Himg. apply uncapped_length.
Qed.

Lemma images_never_empty_witness :
  (exists p : Optimized.Property,
      Optimized.processElement sale 0 0
        (Samples.handleOf Samples.listingSevenImages) = Some p
      /\ Optimized.images p = ["u1"; "u2"; "u3"; "u4"; "u5"])
  /\ (exists p : Optimized.Property,
         Optimized.processElement sale 0 0
           (Samples.handleOf Samples.listingWithoutBedrooms) = Some p
         /\ Optimized.images p = fallbackImages)
  /\ (exists p : Index.Property,
         Index.processElement sale 0
           (Samples.handleOf Samples.listingSevenImages) = Some p
         /\ Index.images p = ["u1"; "u2"; "u3"; "u4"; "u5"; "u6"; "u7"]).
Proof.
  destruct images_never_empty as [_ [Hopt [Hidx _]]].
  split; [|split].
  - eexists. split; [reflexivity|].
    destruct (Hopt sale 0%nat 0%nat (Samples.handleOf Samples.listingSevenImages)
                   _ eq_refl) as [_ [_ Hcap]].
    rewrite Hcap; [reflexivity | discriminate].
  - eexists. split; [reflexivity|].
    destruct (Hopt sale 0%nat 0%nat (Samples.handleOf Samples.listingWithoutBedrooms)
                   _ eq_refl) as [_ [Hnone _]].
    apply Hnone. reflexivity.
  - eexists. split; [reflexivity|].
    destruct (Hidx sale 0%nat (Samples.handleOf Samples.listingSevenImages)
                   _ eq_refl) as [_ [_ Hall]].
    rewrite Hall; [reflexivity | discriminate].
Defined.

End ImagesFacts.

(** ** Malformed feeds *)

Module ParseErrorFacts.
Import Dom Common.

(** C9. When the document built by the parser holds a [parsererror]
    element, the extractor returns the empty sequence, in the chunked
    revision and in the first one. *)
Theorem parse_error_gives_no_records
        (parseFromString : string -> Document) (xmlString : string) :
  docQuerySelector (parseFromString xmlString) [Tag "parsererror"] <> None ->
  (forall (now : nat -> nat) (type : FeedType),
      Optimized.parseXMLPropertiesOptimized parseFromString now xmlString type = [])
  /\ (forall type : FeedType,
         Index.parseXMLProperties parseFromString xmlString type = []).
Proof.
  intros Herror. split.
  - intros now type.
    unfold Optimized.parseXMLPropertiesOptimized, Optimized.parseDocument.
    destruct (docQuerySelector (parseFromString xmlString) [Tag "parsererror"]);
      [reflexivity | congruence].
  - intros type. unfold Index.parseXMLProperties, Index.parseDocument.
    destruct (docQuerySelector (parseFromString xmlString) [Tag "parsererror"]);
      [reflexivity | congruence].
Qed.

Lemma parse_error_gives_no_records_witness :
  docQuerySelector (Samples.rejectingParser "<UnitDTO><Category>Office")
                   [Tag "parsererror"] <> None
  /\ Optimized.parseXMLPropertiesOptimized Samples.rejectingParser (fun _ => 0%nat)
       "<UnitDTO><Category>Office" sale = []
  /\ Index.parseXMLProperties Samples.rejectingParser
       "<UnitDTO><Category>Office" rent = [].
Proof.
  assert (Herror : docQuerySelector
                     (Samples.rejectingParser "<UnitDTO><Category>Office")
                     [Tag "parsererror"] <> None) by discriminate.
  split; [exact Herror|].
  destruct (parse_error_gives_no_records Samples.rejectingParser
              "<UnitDTO><Category>Office" Herror) as [Hopt Hidx].
  split; [apply Hopt | apply Hidx].
Defined.

End ParseErrorFacts.

(** ** The filter engine *)

Module FilterFacts.
Import Dom Common Optimized.

Lemma categoryExcludes_missing (c : option string) (x : string) :
  c = None \/ c = Some EmptyString -> categoryExcludes c x = false.
Proof. intros [-> | ->]; reflexivity. Qed.

(** The claim C2 as the specification states it fails: with "office"
    selected, a record with no category is in the filtered collection. *)
Lemma no_category_passes_type_filter :
  category Samples.propertyWithoutCategory = None
  /\ selectedPropertyType Samples.officeFilterState = "office"
  /\ selectedPropertyType Samples.officeFilterState <> "any"
  /\ In Samples.propertyWithoutCategory
        (filteredProperties Samples.officeFilterState).
Proof.
  split; [reflexivity|]. split; [reflexivity|]. split; [discriminate|].
  left. reflexivity.
Qed.

(** C2, amended. The property-type filter never rejects a record with no
    category: whatever value is selected, such a record passes the filter,
    and is in the filtered collection, exactly when it does with "any"
    selected, that is when it passes the commercial, search, price and
    area checks. *)
Theorem type_filter_skips_missing_category
        (st : State) (property : Property) (value : string) :
  category property = None \/ category property = Some EmptyString ->
  passesFilter (setSelectedPropertyType value st) property
  = passesFilter (setSelectedPropertyType "any" st) property
  /\ (In property (filteredProperties (setSelectedPropertyType value st)) <->
      In property (filteredProperties (setSelectedPropertyType "any" st))).
Proof.
  intros Hcat.
  assert (Heq : passesFilter (setSelectedPropertyType value st) property
                = passesFilter (setSelectedPropertyType "any" st) property).
  { unfold passesFilter. simpl.
    rewrite (categoryExcludes_missing _ value Hcat).
    now rewrite ?andb_false_r. }
  split; [exact Heq|].
  unfold filteredProperties. rewrite !filter_In, Heq. reflexivity.
Qed.

Lemma type_filter_skips_missing_category_witness :
  (category Samples.propertyWithoutCategory = None
   \/ category Samples.propertyWithoutCategory = Some EmptyString)
  /\ passesFilter Samples.officeFilterState Samples.propertyWithoutCategory = true.
Proof.
  assert (Hcat : category Samples.propertyWithoutCategory = None
                 \/ category Samples.propertyWithoutCategory = Some EmptyString)
    by (left; reflexivity).
  split; [exact Hcat|].
  destruct (type_filter_skips_missing_category
              (Samples.loadedState [Samples.propertyWithoutCategory])
              Samples.propertyWithoutCategory "office" Hcat) as [Heq _].
  unfold Samples.officeFilterState. rewrite Heq. reflexivity.
Defined.

(** A record above the upper end of either range fails the filter. *)
Lemma passesFilter_above_range (st : State) (property : Property) :
  Num.gt (price property) (snd (priceRange st)) = true
  \/ Num.gt (area property) (snd (areaRange st)) = true ->
  passesFilter st property = false.
Proof.
  intros H. unfold passesFilter.
  repeat match goal with
         | |- (if ?c then false else _) = false =>
             lazymatch c with
             | context [Num.gt (price property)] =>
                 destruct H as [H|H];
                 [rewrite H, orb_true_r; reflexivity | destruct c; [reflexivity|]]
             | context [Num.gt (area property)] =>
                 rewrite H, orb_true_r; reflexivity
             | _ => destruct c; [reflexivity|]
             end
         end.
Qed.

(** C10. The price and area bounds are enforced whatever the filter state:
    a record above the upper end of a range is not in the filtered
    collection.  [clearFilters] puts the ranges back to [0, 5000000] and
    [0, 2000], the values they start with, so that after it a record priced
    above 5,000,000 or larger than 2,000 is excluded. *)
Theorem range_bounds_enforced_after_clear :
  priceRange initialState = (Num.ofZ 0, Num.ofZ 5000000)
  /\ areaRange initialState = (Num.ofZ 0, Num.ofZ 2000)
  /\ (forall st : State,
         searchTerm (clearFilters st) = EmptyString
         /\ priceRange (clearFilters st) = (Num.ofZ 0, Num.ofZ 5000000)
         /\ areaRange (clearFilters st) = (Num.ofZ 0, Num.ofZ 2000)
         /\ selectedPropertyType (clearFilters st) = "any")
  /\ (forall (st : State) (property : Property),
         Num.gt (price property) (snd (priceRange st)) = true
         \/ Num.gt (area property) (snd (areaRange st)) = true ->
         ~ In property (filteredProperties st))
  /\ (forall (st : State) (property : Property),
         Num.gt (price property) (Num.ofZ 5000000) = true
         \/ Num.gt (area property) (Num.ofZ 2000) = true ->
         ~ In property (filteredProperties (clearFilters st))).
Proof.
  split; [reflexivity|]. split; [reflexivity|]. split; [|split].
  - intros st. repeat split.
  - intros st property H Hin. unfold filteredProperties in Hin.
    apply filter_In in Hin as [_ Hpass].
    rewrite (passesFilter_above_range st property H) in Hpass. discriminate.
  - intros st property H Hin. unfold filteredProperties in Hin.
    apply filter_In in Hin as [_ Hpass].
    rewrite (passesFilter_above_range (clearFilters st) property H) in Hpass.
    discriminate.
Qed.

Lemma range_bounds_enforced_after_clear_witness :
  Num.gt (price Samples.expensiveProperty) (Num.ofZ 5000000) = true
  /\ In Samples.expensiveProperty
        (currentProperties (clearFilters (Samples.loadedState [Samples.expensiveProperty])))
  /\ ~ In Samples.expensiveProperty
       (filteredProperties
          (clearFilters (Samples.loadedState [Samples.expensiveProperty]))).
Proof.
  split; [reflexivity|]. split; [left; reflexivity|].
  destruct range_bounds_enforced_after_clear as (_ & _ & _ & _ & H).
  apply H. left. reflexivity.
Defined.

End FilterFacts.

(** ** The grouper *)

Module GrouperFacts.
Import Common.

Section Filters.
Context {A : Type}.

Lemma filter_sublist (f : A -> bool) (l : list A) : sublist (List.filter f l) l.
Proof.
  induction l as [|x l IH]; simpl; [constructor|].
  destruct (f x); now constructor.
Qed.

(** Two filters that never both keep an element split the filter of
    their disjunction. *)
Lemma filter_disjoint_app (f g : A -> bool) (l : list A) :
  (forall x, In x l -> f x = true -> g x = false) ->
  Permutation (List.filter f l ++ List.filter g l)
              (List.filter (fun x => f x || g x) l).
Proof.
  induction l as [|x l IH]; intros Hdisj; simpl; [constructor|].
  assert (IH' := IH (fun y Hy => Hdisj y (or_intror Hy))).
  destruct (f x) eqn:Hf; simpl.
  - rewrite (Hdisj x (or_introl eq_refl) Hf). now constructor.
  - destruct (g x); [|exact IH'].
    apply Permutation_sym, Permutation_cons_app, Permutation_sym, IH'.
Qed.
End Filters.

Section Groups.
Context {Property : Type} (community : Property -> string).
Variable filteredProperties : list Property.

Abbreviation grouped := (propertiesByCommunity community filteredProperties).
Abbreviation group := (groupOf community filteredProperties).

Lemma TARGET_COMMUNITIES_NoDup : List.NoDup TARGET_COMMUNITIES.
Proof.
  unfold TARGET_COMMUNITIES.
  repeat (constructor; [simpl; intuition discriminate|]).
  constructor.
Qed.

(** One entry per target community, and no other key. *)
Lemma grouped_lookup_target (name : string) :
  In name TARGET_COMMUNITIES -> grouped !! name = Some (group name).
Proof.
  unfold propertiesByCommunity, TARGET_COMMUNITIES. simpl.
  intros [<- | [<- | [<- | []]]].
  - rewrite lookup_insert_ne by discriminate.
    rewrite lookup_insert_ne by discriminate.
    apply lookup_insert_eq.
  - rewrite lookup_insert_ne by discriminate.
    apply lookup_insert_eq.
  - apply lookup_insert_eq.
Qed.

Lemma grouped_lookup_other (name : string) :
  ~ In name TARGET_COMMUNITIES -> grouped !! name = None.
Proof.
  unfold propertiesByCommunity, TARGET_COMMUNITIES. simpl. intros Hnot.
  rewrite !lookup_insert_ne by (intros <-; apply Hnot; tauto).
  apply lookup_empty.
Qed.

Lemma grouped_lookup_Some (name : string) (l : list Property) :
  grouped !! name = Some l -> In name TARGET_COMMUNITIES /\ l = group name.
Proof.
  intros Hl. destruct (in_dec string_dec name TARGET_COMMUNITIES) as [Hin|Hnot].
  - rewrite (grouped_lookup_target name Hin) in Hl. split; congruence.
  - rewrite (grouped_lookup_other name Hnot) in Hl. discriminate.
Qed.

Lemma group_In (name : string) (p : Property) :
  In p (group name) <-> In p filteredProperties /\ community p = name.
Proof. unfold groupOf. rewrite filter_In, String.eqb_eq. reflexivity. Qed.

(** The groups of a list of distinct names, one after the other, hold the
    members whose community is one of the names. *)
Lemma groups_union (names : list string) :
  List.NoDup names ->
  Permutation (concat (List.map group names))
              (List.filter (fun p => existsb (String.eqb (community p)) names)
                           filteredProperties).
Proof.
  induction names as [|name names IH]; intros Hnodup; simpl.
  - induction filteredProperties as [|p l IHl]; simpl; [constructor | exact IHl].
  - inversion Hnodup as [|? ? Hnotin Hnodup']; subst.
    rewrite (IH Hnodup'). unfold groupOf at 1.
    apply (filter_disjoint_app
             (fun p => String.eqb (community p) name)
             (fun p => existsb (String.eqb (community p)) names)).
    intros p _ Heq. apply String.eqb_eq in Heq.
    destruct (existsb (String.eqb (community p)) names) eqn:Hex; [|reflexivity].
    apply existsb_exists in Hex as [other [Hother Heq']].
    apply String.eqb_eq in Heq'. congruence.
Qed.

(** C6. The grouper yields exactly one entry per target community, each
    holding the members of the filtered collection with that community:
    an empty list when there is none, and no entry under any other key.
    No record is in two groups, each group keeps the order of the
    filtered collection, and the groups together hold exactly the
    members whose community is a target name.  A record whose community
    fails the target-community gate is in no group. *)
Theorem groups_partition_filtered :
  (forall name, In name TARGET_COMMUNITIES -> grouped !! name = Some (group name))
  /\ (forall name, ~ In name TARGET_COMMUNITIES -> grouped !! name = None)
  /\ (forall name,
         In name TARGET_COMMUNITIES ->
         (forall p, In p filteredProperties -> community p <> name) ->
         grouped !! name = Some [])
  /\ (forall (name1 name2 : string) (l1 l2 : list Property) (p : Property),
         name1 <> name2 ->
         grouped !! name1 = Some l1 -> grouped !! name2 = Some l2 ->
         In p l1 -> ~ In p l2)
  /\ (forall (name : string) (l : list Property),
         grouped !! name = Some l -> sublist l filteredProperties)
  /\ Permutation
       (concat (List.map (fun name => default [] (grouped !! name))
                         TARGET_COMMUNITIES))
       (List.filter
          (fun p => existsb (String.eqb (community p)) TARGET_COMMUNITIES)
          filteredProperties)
  /\ (forall p : Property,
         isTargetCommunity (community p) = false ->
         forall (name : string) (l : list Property),
           grouped !! name = Some l -> ~ In p l).
Proof.
  split; [exact grouped_lookup_target|].
  split; [exact grouped_lookup_other|].
  split; [|split; [|split; [|split]]].
  - intros name Hin Hnone. rewrite (grouped_lookup_target name Hin). f_equal.
    unfold groupOf.
    induction filteredProperties as [|p l IH]; simpl; [reflexivity|].
    destruct (String.eqb_spec (community p) name) as [Heq|Hne].
    + destruct (Hnone p (or_introl eq_refl) Heq).
    + apply IH. intros q Hq. apply Hnone. now right.
  - intros name1 name2 l1 l2 p Hne H1 H2 Hp1 Hp2.
    apply grouped_lookup_Some in H1 as [_ ->].
    apply grouped_lookup_Some in H2 as [_ ->].
    apply group_In in Hp1 as [_ Hc1]. apply group_In in Hp2 as [_ Hc2].
    congruence.
  - intros name l Hl. apply grouped_lookup_Some in Hl as [_ ->].
    apply filter_sublist.
  - replace (List.map (fun name => default [] (grouped !! name)) TARGET_COMMUNITIES)
      with (List.map group TARGET_COMMUNITIES).
    + apply groups_union, TARGET_COMMUNITIES_NoDup.
    + apply map_ext_in. intros name Hin.
      now rewrite (grouped_lookup_target name Hin).
  - intros p Hgate name l Hl Hp.
    apply grouped_lookup_Some in Hl as [Hin ->].
    apply group_In in Hp as [_ Hc]. subst name.
    rewrite (GateFacts.isTargetCommunity_target _ Hin) in Hgate. discriminate.
Qed.
End Groups.

Lemma groups_partition_filtered_witness :
  Index.propertiesByCommunity Index.MOCK_PROPERTIES !! "Business Bay"
  = Some (List.filter (fun p => String.eqb (Index.community p) "Business Bay")
                      Index.MOCK_PROPERTIES)
  /\ Index.propertiesByCommunity [] !! "Motor City" = Some []
  /\ Index.propertiesByCommunity Index.MOCK_PROPERTIES !! "Downtown Dubai" = None.
Proof.
  destruct (groups_partition_filtered Index.community Index.MOCK_PROPERTIES)
    as (Hlookup & Hother & _).
  destruct (groups_partition_filtered Index.community [])
    as (_ & _ & Hempty & _).
  split; [|split].
  - apply Hlookup. left. reflexivity.
  - apply Hempty; [right; left; reflexivity | intros p []].
  - apply Hother. simpl. intros [H | [H | [H | []]]]; discriminate.
Defined.

End GrouperFacts.

(** ** Decimal text *)

Module DecimalTextFacts.

Lemma span_string_of_uint (d : Decimal.uint) :
  Num.span Str.isDigit (NilEmpty.string_of_uint d)
  = (NilEmpty.string_of_uint d, EmptyString).
Proof.
  induction d as [|d IH|d IH|d IH|d IH|d IH|d IH|d IH|d IH|d IH|d IH];
    [reflexivity|..];
    cbn [NilEmpty.string_of_uint Num.span];
    change (Str.isDigit _) with true; cbv iota; now rewrite IH.
Qed.

Lemma digitsValue_string_of_uint (d : Decimal.uint) :
  forall acc : nat,
    Num.digitsValue 10 Str.digitValue (Z.of_nat acc) (NilEmpty.string_of_uint d)
    = Z.of_nat (Nat.of_uint_acc d acc).
Proof.
  induction d as [|d IH|d IH|d IH|d IH|d IH|d IH|d IH|d IH|d IH|d IH];
    intros acc; [reflexivity|..];
    cbn [NilEmpty.string_of_uint Num.digitsValue Nat.of_uint_acc];
    rewrite <- IH; f_equal;
    rewrite ?Nat2Z.inj_succ, Nat.tail_mul_spec, Nat2Z.inj_mul;
    cbv [Str.digitValue]; simpl nat_of_ascii; simpl Nat.sub; simpl Z.of_nat; lia.
Qed.

(** The decimal text of a number, read by [parseInt]. *)
Lemma parseInt_decimal (c : ascii) (r : string) :
  Str.isDigit c = true ->
  (forall r', r <> String "x"%char r') -> (forall r', r <> String "X"%char r') ->
  Num.parseInt (String c r)
  = (let digits := fst (Num.span Str.isDigit (String c r)) in
     Num.ofZ (1 * Num.digitsValue 10 Str.digitValue 0 digits)).
Proof.
  intros Hc Hx HX. unfold Num.parseInt.
  assert (Hw : Str.isWhiteSpace c = false).
  { destruct c as [[] [] [] [] [] [] [] []]; try reflexivity; discriminate. }
  cbn [Str.trimStart]. rewrite Hw.
  assert (Hsign : (match String c r with
                   | String "-"%char r0 => ((-1)%Z, r0)
                   | String "+"%char r0 => (1%Z, r0)
                   | _ => (1%Z, String c r)
                   end) = (1%Z, String c r)).
  { destruct c as [[] [] [] [] [] [] [] []]; try reflexivity; discriminate. }
  rewrite Hsign.
  assert (Hradix : (match String c r with
                    | String "0"%char (String "x"%char r0) => (16%Z, r0)
                    | String "0"%char (String "X"%char r0) => (16%Z, r0)
                    | _ => (10%Z, String c r)
                    end) = (10%Z, String c r)).
  { destruct c as [[] [] [] [] [] [] [] []]; try reflexivity.
    destruct r as [|x r']; [reflexivity|].
    destruct x as [[] [] [] [] [] [] [] []]; try reflexivity.
    - now destruct (Hx r').
    - now destruct (HX r'). }
  rewrite Hradix. cbv beta iota zeta.
  change (10 =? 16)%Z with false. cbv iota.
  change (Num.span Str.isDigit (String c r))
    with (if Str.isDigit c
          then let (a, r0) := Num.span Str.isDigit r in (String c a, r0)
          else (EmptyString, String c r)).
  rewrite Hc. destruct (Num.span Str.isDigit r) as [a r0]. reflexivity.
Qed.

Lemma parseInt_string_of_uint (d : Decimal.uint) :
  Num.parseInt (NilZero.string_of_uint d) = Num.ofZ (Z.of_nat (Nat.of_uint d)).
Proof.
  assert (Hno : forall (d' : Decimal.uint) (x : ascii) (r' : string),
             NilEmpty.string_of_uint d' = String x r' -> Str.isDigit x = true).
  { intros d' x r' H. destruct d'; cbn in H; try discriminate;
      injection H as <- _; reflexivity. }
  destruct d as [|d|d|d|d|d|d|d|d|d|d]; [reflexivity|..];
    unfold NilZero.string_of_uint; cbn [NilEmpty.string_of_uint];
    (rewrite parseInt_decimal;
     [ cbv zeta;
       match goal with
       | |- context [Num.span Str.isDigit (String ?c (NilEmpty.string_of_uint ?d'))] =>
           change (String c (NilEmpty.string_of_uint d'))
             with (NilEmpty.string_of_uint
                     ltac:(match c with
                           | "0"%char => exact (Decimal.D0 d')
                           | "1"%char => exact (Decimal.D1 d')
                           | "2"%char => exact (Decimal.D2 d')
                           | "3"%char => exact (Decimal.D3 d')
                           | "4"%char => exact (Decimal.D4 d')
                           | "5"%char => exact (Decimal.D5 d')
                           | "6"%char => exact (Decimal.D6 d')
                           | "7"%char => exact (Decimal.D7 d')
                           | "8"%char => exact (Decimal.D8 d')
                           | "9"%char => exact (Decimal.D9 d')
                           end))
       end;
       rewrite span_string_of_uint; cbn [fst];
       rewrite Z.mul_1_l;
       rewrite (digitsValue_string_of_uint _ 0); reflexivity
     | reflexivity
     | intros r' H; apply Hno in H; discriminate
     | intros r' H; apply Hno in H; discriminate ]).
Qed.

Lemma parseInt_ofNat (n : nat) : Num.parseInt (Str.ofNat n) = Num.ofNat n.
Proof.
  unfold Str.ofNat. rewrite parseInt_string_of_uint.
  now rewrite DecimalNat.Unsigned.of_to.
Qed.

Lemma ofNat_inj (n m : nat) : Str.ofNat n = Str.ofNat m -> n = m.
Proof.
  intros H. apply (f_equal Num.parseInt) in H. rewrite !parseInt_ofNat in H.
  unfold Num.ofNat, Num.ofZ, inject_Z in H. injection H as H. lia.
Qed.

End DecimalTextFacts.

(** ** Prices and areas read from text *)

Module ParseFacts.
Import Common.

Lemma parseFloat_nonneg (s : string) :
  Num.parseFloat s = Num.NaN
  \/ exists q : Q, Num.parseFloat s = Num.Num q /\ (0 <= q)%Q.
Proof.
  unfold Num.parseFloat.
  destruct (Num.span Str.isDigit (Str.trimStart s)) as [intPart rest].
  match goal with |- context [if ?b then _ else _] => destruct b end;
    [now left|].
  right. eexists. split; [reflexivity|].
  unfold Qle. cbn [Qnum Qden]. rewrite Z.mul_0_l, Z.mul_1_r.
  apply NumFacts.digitsValue_nonneg; lia.
Qed.

Lemma truthy_positive (q : Q) :
  (0 <= q)%Q -> Num.truthy (Num.Num q) = true -> (0 < q)%Q.
Proof.
  intros Hle Ht. simpl in Ht. apply negb_true_iff in Ht.
  destruct (Qlt_le_dec 0 q) as [Hlt|Hge]; [exact Hlt|].
  assert (Heq : (q == 0)%Q) by (apply Qle_antisym; assumption).
  apply Qeq_bool_iff in Heq. congruence.
Qed.

Lemma gt_zero_iff (q : Q) : Num.gt (Num.Num q) (Num.ofZ 0) = true <-> (0 < q)%Q.
Proof.
  unfold Num.gt, Num.lt, Num.ofZ. rewrite negb_true_iff.
  change (inject_Z 0) with 0%Q. split.
  - intros H. apply Qnot_le_lt. intros Hle. apply Qle_bool_iff in Hle. congruence.
  - intros H. destruct (Qle_bool q 0%Q) eqn:E; [|reflexivity].
    apply Qle_bool_iff in E. exfalso. apply (Qlt_not_le _ _ H E).
Qed.

(** The derived price is a number that is not negative. *)
Lemma priceOf_nonneg (priceStr : string) :
  exists q : Q, priceOf priceStr = Num.Num q /\ (0 <= q)%Q.
Proof.
  unfold priceOf, Num.orElse.
  destruct (parseFloat_nonneg (Str.stripNonNumeric priceStr)) as [-> | [q [-> Hq]]].
  - exists 0%Q. split; [reflexivity | apply Qle_refl].
  - destruct (Num.truthy (Num.Num q)).
    + now exists q.
    + exists 0%Q. split; [reflexivity | apply Qle_refl].
Qed.

(** The derived area is a number above zero. *)
Lemma areaOf_positive (areaStr : string) :
  Num.gt (areaOf areaStr) (Num.ofZ 0) = true.
Proof.
  unfold areaOf, Num.orElse.
  destruct (parseFloat_nonneg (Str.stripNonNumeric areaStr)) as [-> | [q [-> Hq]]].
  - reflexivity.
  - destruct (Num.truthy (Num.Num q)) eqn:Ht; [|reflexivity].
    apply gt_zero_iff. now apply truthy_positive.
Qed.

Lemma title_nonempty (fieldValue : string) (index : nat) :
  Str.orElse fieldValue (String.append "Property " (Str.ofNat (index + 1)))
  <> EmptyString.
Proof.
  unfold Str.orElse. destruct fieldValue; simpl; discriminate.
Qed.

End ParseFacts.

(** ** What the extractor builds *)

Module ExtractorProps.
Import Dom Common.

Lemma recordsAt_length type now elements (indices : list nat) :
  (length (Optimized.recordsAt type now elements indices) <= length indices)%nat.
Proof.
  induction indices as [|i indices IH]; [reflexivity|].
  change (i :: indices) with ([i] ++ indices).
  rewrite OptimizedFacts.recordsAt_app, length_app.
  unfold Optimized.recordsAt at 1. simpl.
  destruct (nth_error elements i) as [element|]; simpl; [|lia].
  destruct (Optimized.processElement type (now i) i element); simpl; lia.
Qed.

Lemma recordsAt_firstn type now elements (limit : nat) (indices : list nat) :
  (forall i, In i indices -> (i < limit)%nat) ->
  Optimized.recordsAt type now (firstn limit elements) indices
  = Optimized.recordsAt type now elements indices.
Proof.
  induction indices as [|i indices IH]; intros Hlt; [reflexivity|].
  change (i :: indices) with ([i] ++ indices).
  rewrite !OptimizedFacts.recordsAt_app.
  rewrite IH by (intros j Hj; apply Hlt; now right).
  f_equal. unfold Optimized.recordsAt. simpl. rewrite nth_error_firstn.
  destruct (Nat.ltb_spec i limit) as [_|Hge]; [reflexivity|].
  specialize (Hlt i (or_introl eq_refl)). lia.
Qed.

(** X1. The chunks of 50 add up to one pass: unless the document holds a
    parser error, the output is the records of the first 300 listing
    elements, taken once each in document order, and elements after the
    300th play no part.  The output never has more than 300 records. *)
Theorem chunked_parse_is_single_pass
        (now : nat -> nat) (xmlDoc : Document) (type : FeedType) :
  Optimized.parseDocument now xmlDoc type
  = match docQuerySelector xmlDoc [Tag "parsererror"] with
    | Some _ => []
    | None =>
        let elements := firstn 300 (docQuerySelectorAll xmlDoc listingSelectors) in
        Optimized.recordsAt type now elements (seq 0 (length elements))
    end
  /\ (length (Optimized.parseDocument now xmlDoc type)
      <= Nat.min (length (docQuerySelectorAll xmlDoc listingSelectors)) 300)%nat.
Proof.
  rewrite OptimizedFacts.parseDocument_records.
  destruct (docQuerySelector xmlDoc [Tag "parsererror"]);
    [split; [reflexivity | simpl; lia]|].
  cbv zeta. rewrite length_firstn.
  unfold Optimized.elementLimit.
  rewrite (Nat.min_comm 300).
  split.
  - symmetry. apply recordsAt_firstn.
    intros i Hi. apply in_seq in Hi. lia.
  - etransitivity; [apply recordsAt_length|]. now rewrite length_seq.
Qed.

(** The record pushed for an element, field by field. *)
Lemma optimized_record type now i element (p : Optimized.Property) :
  Optimized.processElement type now i element = Some p ->
  p = {| Optimized.id :=
           String.append (feedTypeName type)
             (String.append "-"
                (String.append (Str.ofNat now) (String.append "-" (Str.ofNat i))));
         Optimized.title :=
           Str.orElse (getFieldValue element titleFields)
                      (String.append "Property " (Str.ofNat (i + 1)));
         Optimized.price := priceOf (getFieldValue element (priceFields type));
         Optimized.area := areaOf (getFieldValue element areaFields);
         Optimized.bedrooms :=
           Optimized.bedroomsOf (getFieldValue element bedroomsFields);
         Optimized.community :=
           Optimized.finalCommunityOf (getFieldValue element communityFields);
         Optimized.images :=
           Optimized.finalImagesOf (Optimized.extractImages element);
         Optimized.type := type;
         Optimized.propertyType := commercial;
         Optimized.category := Some (getFieldValue element categoryFields) |}.
Proof.
  unfold Optimized.processElement. cbv zeta.
  destruct (negb _ || negb _); [discriminate|].
  destruct (negb _); [discriminate|].
  destruct (Num.gt _ _); [|discriminate].
  now intros [= <-].
Qed.

Lemma index_record type index element (p : Index.Property) :
  Index.processElement type index element = Some p ->
  p = {| Index.id :=
           String.append (feedTypeName type) (String.append "-" (Str.ofNat index));
         Index.title :=
           Str.orElse (getFieldValue element titleFields)
                      (String.append "Property " (Str.ofNat (index + 1)));
         Index.price := priceOf (getFieldValue element (priceFields type));
         Index.area := areaOf (getFieldValue element areaFields);
         Index.bedrooms := Index.bedroomsOf (getFieldValue element bedroomsFields);
         Index.community :=
           Index.finalCommunityOf (getFieldValue element communityFields);
         Index.images := Index.finalImagesOf (Index.extractImages element);
         Index.type := type |}.
Proof.
  unfold Index.processElement. cbv zeta.
  match goal with
  | |- (if ?c then _ else _) = Some _ -> _ => destruct c; [|discriminate]
  end.
  now intros [= <-].
Qed.

(** The fields of a record of the chunked extractor. *)
Lemma optimized_record_sound
        (parseFromString : string -> Document) (now : nat -> nat)
        (xmlString : string) (type : FeedType) (p : Optimized.Property) :
  In p (Optimized.parseXMLPropertiesOptimized parseFromString now xmlString type) ->
  Optimized.title p <> EmptyString
  /\ Num.gt (Optimized.area p) (Num.ofZ 0) = true
  /\ Num.gt (Optimized.price p) (Num.ofZ 0) = true
  /\ Optimized.type p = type
  /\ Optimized.propertyType p = commercial
  /\ (exists c : string,
         Optimized.category p = Some c /\ c <> EmptyString
         /\ isCommercialCategory c = true)
  /\ isTargetCommunity (Optimized.community p) = true.
Proof.
  intros Hin.
  apply OptimizedFacts.parseDocument_In in Hin as [i [element [_ Hp]]].
  pose proof (OptimizedFacts.processElement_Some _ _ _ _ _ Hp)
    as (Hcat & Hcom & Hc & Hpt & _ & Hgate & _ & Hprice & _).
  pose proof (optimized_record _ _ _ _ _ Hp) as Heq.
  split; [rewrite Heq; apply ParseFacts.title_nonempty|].
  split; [rewrite Heq; apply ParseFacts.areaOf_positive|].
  split; [exact Hprice|].
  split; [now rewrite Heq|].
  split; [exact Hpt|].
  split; [|exact Hgate].
  exists (getFieldValue element categoryFields).
  split; [exact Hc|]. split; [|exact Hcom].
  now apply StrFacts.truthy_true_iff.
Qed.

(** X2. Every record the chunked extractor returns is well formed: its
    title is not empty, its area and price are above zero, it carries the
    feed kind asked for, it is marked commercial and holds a non-empty
    category that the classifier accepts, and its community passes the
    target-community test. *)
Theorem optimized_records_well_formed
        (parseFromString : string -> Document) (now : nat -> nat)
        (xmlString : string) (type : FeedType) (p : Optimized.Property) :
  In p (Optimized.parseXMLPropertiesOptimized parseFromString now xmlString type) ->
  Optimized.title p <> EmptyString
  /\ Num.gt (Optimized.area p) (Num.ofZ 0) = true
  /\ Num.gt (Optimized.price p) (Num.ofZ 0) = true
  /\ Optimized.type p = type
  /\ Optimized.propertyType p = commercial
  /\ (exists c : string,
         Optimized.category p = Some c /\ c <> EmptyString
         /\ isCommercialCategory c = true)
  /\ isTargetCommunity (Optimized.community p) = true.
Proof. apply optimized_record_sound. Qed.

Lemma optimized_records_well_formed_witness :
  exists p : Optimized.Property,
    In p (Optimized.parseXMLPropertiesOptimized
            (fun _ => Samples.feedOf [Samples.listingRetailShop])
            (fun _ => 0%nat) "<feed/>" sale)
    /\ Optimized.title p = "Property 1"
    /\ Optimized.type p = sale.
Proof.
  eexists. split; [left; reflexivity|].
  split; [reflexivity|].
  eapply (optimized_records_well_formed
            (fun _ => Samples.feedOf [Samples.listingRetailShop])
            (fun _ => 0%nat) "<feed/>" sale).
  left. reflexivity.
Defined.

Lemma bedroomsOf_truthy (bedroomsStr : string) :
  Num.truthy (Index.bedroomsOf bedroomsStr) = true.
Proof.
  unfold Index.bedroomsOf. cbv zeta. unfold Num.orElse.
  destruct (Num.truthy (Num.parseInt bedroomsStr)) eqn:Ht.
  - now rewrite Ht.
  - reflexivity.
Qed.

(** The fields of a record of the first revision's extractor. *)
Lemma index_record_sound
        (parseFromString : string -> Document)
        (xmlString : string) (type : FeedType) (p : Index.Property) :
  In p (Index.parseXMLProperties parseFromString xmlString type) ->
  Index.title p <> EmptyString
  /\ Num.gt (Index.area p) (Num.ofZ 0) = true
  /\ Num.gt (Index.price p) (Num.ofZ 0) = true
  /\ Index.type p = type
  /\ isTargetCommunity (Index.community p) = true
  /\ Num.truthy (Index.bedrooms p) = true.
Proof.
  intros Hin.
  apply IndexFacts.index_parseDocument_In in Hin as [i [element Hp]].
  pose proof (IndexFacts.index_processElement_Some _ _ _ _ Hp)
    as (_ & Hgate & _ & Hprice & _).
  pose proof (index_record _ _ _ _ Hp) as Heq.
  split; [rewrite Heq; apply ParseFacts.title_nonempty|].
  split; [rewrite Heq; apply ParseFacts.areaOf_positive|].
  split; [exact Hprice|].
  split; [now rewrite Heq|].
  split; [exact Hgate|].
  rewrite Heq. apply bedroomsOf_truthy.
Qed.

(** X3. Every record the first revision's extractor returns has a title
    that is not empty, an area and a price above zero, the feed kind asked
    for, a community that passes the target-community test, and a bedrooms
    value that is never 0 nor NaN (a field reading 0 becomes 1). *)
Theorem index_records_well_formed
        (parseFromString : string -> Document)
        (xmlString : string) (type : FeedType) (p : Index.Property) :
  In p (Index.parseXMLProperties parseFromString xmlString type) ->
  Index.title p <> EmptyString
  /\ Num.gt (Index.area p) (Num.ofZ 0) = true
  /\ Num.gt (Index.price p) (Num.ofZ 0) = true
  /\ Index.type p = type
  /\ isTargetCommunity (Index.community p) = true
  /\ Num.truthy (Index.bedrooms p) = true.
Proof. apply index_record_sound. Qed.

Lemma index_records_well_formed_witness :
  exists p : Index.Property,
    In p (Index.parseXMLProperties
            (fun _ => Samples.feedOf [Samples.listingRetailShop]) "<feed/>" sale)
    /\ Index.bedrooms p = Num.ofZ 1
    /\ Num.truthy (Index.bedrooms p) = true.
Proof.
  eexists. split; [left; reflexivity|].
  split; [reflexivity|].
  eapply (index_records_well_formed
            (fun _ => Samples.feedOf [Samples.listingRetailShop]) "<feed/>" sale).
  left. reflexivity.
Defined.

End ExtractorProps.

(** ** Record identifiers *)

Module IdentifierProps.
Import Dom Common Identifiers.

Lemma append_inj_l (p a b : string) :
  String.append p a = String.append p b -> a = b.
Proof.
  induction p as [|c p IH]; [trivial|].
  rewrite !StrFacts.append_cons. intros [= H]. now apply IH.
Qed.

Lemma span_app_stop (f : ascii -> bool) (a : string) (c : ascii) (r : string) :
  Num.span f a = (a, EmptyString) -> f c = false ->
  Num.span f (String.append a (String c r)) = (a, String c r).
Proof.
  intros Ha Hc. induction a as [|x a IH].
  - rewrite StrFacts.append_nil. simpl. now rewrite Hc.
  - rewrite StrFacts.append_cons. simpl in Ha |- *.
    destruct (f x); [|discriminate].
    destruct (Num.span f a) as [a' r'] eqn:Hspan.
    injection Ha as -> ->. now rewrite IH.
Qed.

Lemma span_ofNat (n : nat) :
  Num.span Str.isDigit (Str.ofNat n) = (Str.ofNat n, EmptyString).
Proof.
  unfold Str.ofNat, NilZero.string_of_uint.
  destruct (Nat.to_uint n) eqn:E; try (rewrite <- E); try reflexivity;
    rewrite E; apply DecimalTextFacts.span_string_of_uint.
Qed.

(** Two decimal texts followed by a dash and anything agree part by part. *)
Lemma dash_split (a b : nat) (r1 r2 : string) :
  String.append (Str.ofNat a) (String "-"%char r1)
  = String.append (Str.ofNat b) (String "-"%char r2) ->
  a = b /\ r1 = r2.
Proof.
  intros H. apply (f_equal (Num.span Str.isDigit)) in H.
  rewrite !span_app_stop in H by (apply span_ofNat || reflexivity).
  injection H as Ha Hr. split; [now apply DecimalTextFacts.ofNat_inj | exact Hr].
Qed.

Lemma optimizedId_inj type (n1 n2 i j : nat) :
  optimizedId type n1 i = optimizedId type n2 j -> i = j.
Proof.
  unfold optimizedId. intros H.
  apply append_inj_l in H. apply append_inj_l in H.
  change (String.append "-" (Str.ofNat i)) with (String "-"%char (Str.ofNat i)) in H.
  change (String.append "-" (Str.ofNat j)) with (String "-"%char (Str.ofNat j)) in H.
  apply dash_split in H as [_ H]. now apply DecimalTextFacts.ofNat_inj.
Qed.

Lemma indexId_inj type (i j : nat) : indexId type i = indexId type j -> i = j.
Proof.
  unfold indexId. intros H.
  apply append_inj_l in H. apply append_inj_l in H.
  now apply DecimalTextFacts.ofNat_inj.
Qed.

Lemma feed_prefix_differs (s1 s2 : string) :
  String.append (feedTypeName sale) s1 <> String.append (feedTypeName rent) s2.
Proof. simpl. discriminate. Qed.

Lemma recordsAt_ids type now elements (indices : list nat) :
  List.NoDup indices ->
  List.NoDup (List.map Optimized.id (Optimized.recordsAt type now elements indices)).
Proof.
  induction indices as [|i indices IH]; intros Hnd; [constructor|].
  inversion Hnd as [|? ? Hnotin Hnd']; subst.
  change (i :: indices) with ([i] ++ indices).
  rewrite OptimizedFacts.recordsAt_app.
  unfold Optimized.recordsAt at 1. simpl. rewrite app_nil_r.
  destruct (nth_error elements i) as [element|]; [|now apply IH].
  destruct (Optimized.processElement type (now i) i element) as [p|] eqn:Hp;
    [|now apply IH].
  simpl. constructor; [|now apply IH].
  intros Hin. apply in_map_iff in Hin as [q [Hid Hq]].
  apply OptimizedFacts.recordsAt_In in Hq as [j [e [Hj [_ Hq]]]].
  apply ExtractorProps.optimized_record in Hp, Hq. subst p q. simpl in Hid.
  apply optimizedId_inj in Hid. subst j. contradiction.
Qed.

Lemma recordsFrom_ids type (elements : list Handle) :
  forall index : nat,
    List.NoDup (List.map Index.id (Index.recordsFrom type index elements))
    /\ (forall p, In p (Index.recordsFrom type index elements) ->
                  exists j, (index <= j)%nat /\ Index.id p = indexId type j).
Proof.
  induction elements as [|element rest IH]; intros index; simpl.
  - split; [constructor | intros p []].
  - destruct (IH (S index)) as [Hnd Hids].
    destruct (Index.processElement type index element) as [p|] eqn:Hp.
    + apply ExtractorProps.index_record in Hp. split.
      * simpl. constructor; [|exact Hnd].
        intros Hin. apply in_map_iff in Hin as [q [Hid Hq]].
        destruct (Hids q Hq) as [j [Hj Hqid]].
        rewrite Hqid, Hp in Hid. simpl in Hid.
        apply indexId_inj in Hid. lia.
      * intros q [<- | Hq].
        -- exists index. split; [lia|]. now rewrite Hp.
        -- destruct (Hids q Hq) as [j [Hj Hqid]]. exists j. split; [lia | exact Hqid].
    + split; [exact Hnd|].
      intros q Hq. destruct (Hids q Hq) as [j [Hj Hqid]].
      exists j. split; [lia | exact Hqid].
Qed.

(** X4. The identifiers of the records of one extractor run are pairwise
    distinct, in the chunked revision (whatever the clock reads) and in the
    first revision, and no record of a sale feed shares its identifier with
    a record of a rent feed. *)
Theorem record_ids_distinct :
  (forall (parseFromString : string -> Document) (now : nat -> nat)
          (xmlString : string) (type : FeedType),
      List.NoDup
        (List.map Optimized.id
           (Optimized.parseXMLPropertiesOptimized parseFromString now xmlString type)))
  /\ (forall (parseFromString : string -> Document)
             (xmlString : string) (type : FeedType),
         List.NoDup
           (List.map Index.id
              (Index.parseXMLProperties parseFromString xmlString type)))
  /\ (forall (parseFromString : string -> Document) (now1 now2 : nat -> nat)
             (xml1 xml2 : string) (p q : Optimized.Property),
         In p (Optimized.parseXMLPropertiesOptimized parseFromString now1 xml1 sale) ->
         In q (Optimized.parseXMLPropertiesOptimized parseFromString now2 xml2 rent) ->
         Optimized.id p <> Optimized.id q)
  /\ (forall (parseFromString : string -> Document)
             (xml1 xml2 : string) (p q : Index.Property),
         In p (Index.parseXMLProperties parseFromString xml1 sale) ->
         In q (Index.parseXMLProperties parseFromString xml2 rent) ->
         Index.id p <> Index.id q).
Proof.
  split; [|split; [|split]].
  - intros parseFromString now xmlString type.
    unfold Optimized.parseXMLPropertiesOptimized.
    rewrite OptimizedFacts.parseDocument_records.
    destruct (docQuerySelector (parseFromString xmlString) [Tag "parsererror"]);
      [constructor|].
    apply recordsAt_ids, seq_NoDup.
  - intros parseFromString xmlString type.
    unfold Index.parseXMLProperties.
    rewrite IndexFacts.index_parseDocument_records.
    destruct (docQuerySelector (parseFromString xmlString) [Tag "parsererror"]);
      [constructor|].
    apply recordsFrom_ids.
  - intros parseFromString now1 now2 xml1 xml2 p q Hp Hq.
    apply OptimizedFacts.parseDocument_In in Hp as [i [e1 [_ Hp]]].
    apply OptimizedFacts.parseDocument_In in Hq as [j [e2 [_ Hq]]].
    apply ExtractorProps.optimized_record in Hp, Hq. subst p q.
    apply feed_prefix_differs.
  - intros parseFromString xml1 xml2 p q Hp Hq.
    apply IndexFacts.index_parseDocument_In in Hp as [i [e1 Hp]].
    apply IndexFacts.index_parseDocument_In in Hq as [j [e2 Hq]].
    apply ExtractorProps.index_record in Hp, Hq. subst p q.
    apply feed_prefix_differs.
Qed.

Lemma record_ids_distinct_witness :
  exists (p q : Optimized.Property),
    In p (Optimized.parseXMLPropertiesOptimized
            (fun _ => Samples.feedOf [Cases.listingPriced]) (fun _ => 0%nat)
            "<feed/>" sale)
    /\ In q (Optimized.parseXMLPropertiesOptimized
               (fun _ => Samples.feedOf [Cases.listingPriced]) (fun _ => 0%nat)
               "<feed/>" rent)
    /\ Optimized.id p <> Optimized.id q.
Proof.
  eexists. eexists. split; [left; reflexivity|]. split; [left; reflexivity|].
  destruct record_ids_distinct as (_ & _ & H & _).
  eapply (H (fun _ => Samples.feedOf [Cases.listingPriced])
            (fun _ => 0%nat) (fun _ => 0%nat) "<feed/>" "<feed/>");
    left; reflexivity.
Defined.

End IdentifierProps.

(** ** Canonical communities *)

Module CommunityProps.
Import Common.

Lemma find_key_cases (f : string -> bool) (keys : list string) :
  (exists key, List.find f keys = Some key /\ In key keys /\ f key = true)
  \/ (List.find f keys = None /\ forall key, In key keys -> f key = false).
Proof.
  destruct (List.find f keys) as [key|] eqn:E.
  - left. exists key. apply find_some in E. tauto.
  - right. split; [reflexivity|]. intros key Hin. now apply (find_none _ _ E).
Qed.

(** X5. The canonical community of the chunked revision is one of the three
    target names exactly when the lower-cased raw community contains an
    alias key.  Canonicalising twice changes nothing, and a canonical
    community that is a target name passes the target-community test. *)
Theorem canonical_community_is_target_iff_alias (community : string) :
  (In (Optimized.finalCommunityOf community) TARGET_COMMUNITIES <->
   exists key : string,
     In key (keysOf Optimized.communityMappings)
     /\ Str.Substring key (Str.toLowerCase community))
  /\ Optimized.finalCommunityOf (Optimized.finalCommunityOf community)
     = Optimized.finalCommunityOf community
  /\ (In (Optimized.finalCommunityOf community) TARGET_COMMUNITIES ->
      isTargetCommunity (Optimized.finalCommunityOf community) = true).
Proof.
  assert (Hcases :
            (In (Optimized.finalCommunityOf community) TARGET_COMMUNITIES
             /\ exists key, In key (keysOf Optimized.communityMappings)
                            /\ Str.includes (Str.toLowerCase community) key = true)
            \/ (Optimized.finalCommunityOf community = community
                /\ forall key, In key (keysOf Optimized.communityMappings) ->
                               Str.includes (Str.toLowerCase community) key = false)).
  { unfold Optimized.finalCommunityOf, finalCommunityOf. cbv zeta.
    destruct (find_key_cases (fun key => Str.includes (Str.toLowerCase community) key)
                             (keysOf Optimized.communityMappings))
      as [[key [-> [Hin Hinc]]] | [-> Hnone]].
    - left. split; [|now exists key].
      simpl in Hin.
      repeat (destruct Hin as [<- | Hin]; [simpl; tauto|]). destruct Hin.
    - right. split; [reflexivity | exact Hnone]. }
  split; [|split].
  - split.
    + intros Hin. destruct Hcases as [[_ [key [Hk Hinc]]] | [Heq Hnone]].
      * exists key. split; [exact Hk | now apply StrFacts.includes_iff].
      * rewrite Heq in Hin.
        assert (Hkey : In (Str.toLowerCase community)
                          (keysOf Optimized.communityMappings)).
        { simpl in Hin. destruct Hin as [<- | [<- | [<- | []]]]; simpl; tauto. }
        specialize (Hnone _ Hkey). rewrite StrFacts.includes_refl in Hnone.
        discriminate.
    + intros [key [Hk Hsub]]. apply StrFacts.includes_iff in Hsub.
      destruct Hcases as [[Hin _] | [_ Hnone]]; [exact Hin|].
      specialize (Hnone key Hk). congruence.
  - destruct Hcases as [[Hin _] | [Heq Hnone]].
    + simpl in Hin. destruct Hin as [<- | [<- | [<- | []]]]; reflexivity.
    + now rewrite !Heq.
  - apply GateFacts.isTargetCommunity_target.
Qed.

Lemma canonical_community_is_target_iff_alias_witness :
  In (Optimized.finalCommunityOf "DIP - Dubai Investment Park, Phase 1")
     TARGET_COMMUNITIES
  /\ isTargetCommunity
       (Optimized.finalCommunityOf "DIP - Dubai Investment Park, Phase 1") = true.
Proof.
  destruct (canonical_community_is_target_iff_alias
              "DIP - Dubai Investment Park, Phase 1") as [Hiff [_ Hgate]].
  assert (Hin : In (Optimized.finalCommunityOf "DIP - Dubai Investment Park, Phase 1")
                   TARGET_COMMUNITIES).
  { apply Hiff. exists "dubai investment park". split.
    - simpl. tauto.
    - apply StrFacts.includes_iff. reflexivity. }
  split; [exact Hin | exact (Hgate Hin)].
Defined.

End CommunityProps.

(** ** Groups and counts *)

Module GroupingProps.
Import Common.

Section Groups.
Context {Property : Type} (community : Property -> string).

Lemma filter_filter_implied (f g : Property -> bool) (l : list Property) :
  (forall p, f p = true -> g p = true) ->
  List.filter f (List.filter g l) = List.filter f l.
Proof.
  intros Himp. induction l as [|p l IH]; simpl; [reflexivity|].
  destruct (g p) eqn:Hg; simpl.
  - destruct (f p); now rewrite IH.
  - destruct (f p) eqn:Hf; [|exact IH].
    rewrite (Himp p Hf) in Hg. discriminate.
Qed.

Lemma groupOf_target_filter (l : list Property) (name : string) :
  In name TARGET_COMMUNITIES ->
  groupOf community (Agent.targetCommunityProperties community l) name
  = groupOf community l name.
Proof.
  intros Hin. unfold groupOf, Agent.targetCommunityProperties.
  apply filter_filter_implied. intros p Hp. apply String.eqb_eq in Hp.
  rewrite Hp. now apply GateFacts.isTargetCommunity_target.
Qed.

(** X6. In the revision with a community selector, keeping only the
    members that pass the target-community test before grouping changes no
    group: the grouped object is the one the other revisions build from the
    whole filtered collection.  The value read for the selected community is
    the group of that name when the name is a target community, as the
    initial selection and every value of the community tabs are.  For any
    other name the read gives the empty list, unless [Object.prototype] has a
    member of that name: the read then gives that member, not a list. *)
Theorem target_filter_changes_no_group
        (objectPrototypeHas : string -> bool) (filteredProperties : list Property) :
  Agent.propertiesByCommunity community filteredProperties
  = Common.propertiesByCommunity community filteredProperties
  /\ (forall activeCommunity : string,
         In activeCommunity TARGET_COMMUNITIES ->
         Agent.currentCommunityProperties community objectPrototypeHas
           filteredProperties activeCommunity
         = Agent.Listed (groupOf community filteredProperties activeCommunity))
  /\ (forall activeCommunity : string,
         activeCommunity = Agent.initialActiveCommunity
         \/ In activeCommunity Agent.communityTabValues ->
         Agent.currentCommunityProperties community objectPrototypeHas
           filteredProperties activeCommunity
         = Agent.Listed (groupOf community filteredProperties activeCommunity))
  /\ (forall activeCommunity : string,
         ~ In activeCommunity TARGET_COMMUNITIES ->
         objectPrototypeHas activeCommunity = false ->
         Agent.currentCommunityProperties community objectPrototypeHas
           filteredProperties activeCommunity
         = Agent.Listed [])
  /\ (forall activeCommunity : string,
         ~ In activeCommunity TARGET_COMMUNITIES ->
         objectPrototypeHas activeCommunity = true ->
         Agent.currentCommunityProperties community objectPrototypeHas
           filteredProperties activeCommunity
         = Agent.Inherited activeCommunity).
Proof.
  assert (Heq : Agent.propertiesByCommunity community filteredProperties
                = Common.propertiesByCommunity community filteredProperties).
  { unfold Agent.propertiesByCommunity, Common.propertiesByCommunity,
      TARGET_COMMUNITIES. simpl.
    rewrite !groupOf_target_filter by (simpl; tauto). reflexivity. }
  assert (Htarget : forall name : string,
             In name TARGET_COMMUNITIES ->
             Agent.currentCommunityProperties community objectPrototypeHas
               filteredProperties name
             = Agent.Listed (groupOf community filteredProperties name)).
  { intros name Hin. unfold Agent.currentCommunityProperties.
    now rewrite Heq, (GrouperFacts.grouped_lookup_target community _ name Hin). }
  split; [exact Heq|]. split; [exact Htarget|]. split; [|split].
  - intros name [-> | Hin]; apply Htarget; [simpl; tauto | exact Hin].
  - intros name Hnot Hproto. unfold Agent.currentCommunityProperties.
    now rewrite Heq, (GrouperFacts.grouped_lookup_other community _ name Hnot),
      Hproto.
  - intros name Hnot Hproto. unfold Agent.currentCommunityProperties.
    now rewrite Heq, (GrouperFacts.grouped_lookup_other community _ name Hnot),
      Hproto.
Qed.

Lemma filter_split_length (f : Property -> bool) (l : list Property) :
  length l
  = (length (List.filter f l) + length (List.filter (fun p => negb (f p)) l))%nat.
Proof.
  induction l as [|p l IH]; simpl; [reflexivity|].
  destruct (f p); simpl; lia.
Qed.

(** X7. The number of records shown under the three community headings is
    the number of filtered records whose community is exactly a target name;
    the count in the filter bar exceeds it by the filtered records with any
    other community, which are shown nowhere. *)
Theorem shown_count_versus_filtered_count (filteredProperties : list Property) :
  let grouped := Common.propertiesByCommunity community filteredProperties in
  let shown :=
    concat (List.map (fun name => default [] (grouped !! name)) TARGET_COMMUNITIES) in
  let hidden :=
    List.filter
      (fun p => negb (existsb (String.eqb (community p)) TARGET_COMMUNITIES))
      filteredProperties in
  length filteredProperties = (length shown + length hidden)%nat
  /\ (forall p, In p hidden ->
                forall name l, grouped !! name = Some l -> ~ In p l).
Proof.
  cbv zeta. split.
  - replace (List.map (fun name =>
                         default [] (Common.propertiesByCommunity community
                                       filteredProperties !! name))
                      TARGET_COMMUNITIES)
      with (List.map (groupOf community filteredProperties) TARGET_COMMUNITIES)
      by (apply map_ext_in; intros name Hin;
          now rewrite (GrouperFacts.grouped_lookup_target community _ name Hin)).
    rewrite (filter_split_length
               (fun p => existsb (String.eqb (community p)) TARGET_COMMUNITIES)
               filteredProperties).
    f_equal. symmetry. apply Permutation_length.
    apply GrouperFacts.groups_union, GrouperFacts.TARGET_COMMUNITIES_NoDup.
  - intros p Hp name l Hl Hin.
    apply filter_In in Hp as [_ Hneg]. apply negb_true_iff in Hneg.
    apply GrouperFacts.grouped_lookup_Some in Hl as [Htarget ->].
    apply GrouperFacts.group_In in Hin as [_ Hc].
    assert (Hex : existsb (String.eqb (community p)) TARGET_COMMUNITIES = true).
    { apply existsb_exists. exists name. split; [exact Htarget|].
      now apply String.eqb_eq. }
    congruence.
Qed.
End Groups.

Lemma target_filter_changes_no_group_witness :
  Agent.currentCommunityProperties Index.community Agent.standardPrototypeHas
    Index.MOCK_PROPERTIES "Motor City"
  = Agent.Listed (groupOf Index.community Index.MOCK_PROPERTIES "Motor City")
  /\ Agent.currentCommunityProperties Index.community Agent.standardPrototypeHas
       Index.MOCK_PROPERTIES Agent.initialActiveCommunity
     = Agent.Listed
         (groupOf Index.community Index.MOCK_PROPERTIES Agent.initialActiveCommunity)
  /\ Agent.currentCommunityProperties Index.community Agent.standardPrototypeHas
       Index.MOCK_PROPERTIES "Downtown Dubai" = Agent.Listed []
  /\ Agent.currentCommunityProperties Index.community Agent.standardPrototypeHas
       Index.MOCK_PROPERTIES "constructor" = Agent.Inherited "constructor".
Proof.
  destruct (target_filter_changes_no_group Index.community
              Agent.standardPrototypeHas Index.MOCK_PROPERTIES)
    as (_ & Hin & Htab & Hout & Hproto).
  split; [|split; [|split]].
  - apply Hin. simpl. tauto.
  - apply Htab. left. reflexivity.
  - apply Hout; [|reflexivity].
    simpl. intros [H | [H | [H | []]]]; discriminate.
  - apply Hproto; [|reflexivity].
    simpl. intros [H | [H | [H | []]]]; discriminate.
Defined.

Lemma shown_count_versus_filtered_count_witness :
  In Cases.downtownMock
     (List.filter
        (fun p => negb (existsb (String.eqb (Index.community p)) TARGET_COMMUNITIES))
        Index.MOCK_PROPERTIES)
  /\ ~ In Cases.downtownMock
        (groupOf Index.community Index.MOCK_PROPERTIES "Business Bay").
Proof.
  assert (Hhidden :
            In Cases.downtownMock
               (List.filter
                  (fun p => negb (existsb (String.eqb (Index.community p))
                                          TARGET_COMMUNITIES))
                  Index.MOCK_PROPERTIES)).
  { apply filter_In. split; [simpl; tauto | reflexivity]. }
  split; [exact Hhidden|].
  destruct (shown_count_versus_filtered_count Index.community Index.MOCK_PROPERTIES)
    as [_ H].
  apply (H Cases.downtownMock Hhidden "Business Bay").
  apply GrouperFacts.grouped_lookup_target. simpl. tauto.
Defined.

End GroupingProps.

(** ** The filter engine, further *)

Module FilterProps.
Import Dom Common Optimized OptimizedUi.

Lemma toLowerCase_truthy (s : string) :
  Str.truthy (Str.toLowerCase s) = Str.truthy s.
Proof. now destruct s. Qed.

Lemma lowerChar_idempotent (c : ascii) :
  Str.lowerChar (Str.lowerChar c) = Str.lowerChar c.
Proof. destruct c as [[] [] [] [] [] [] [] []]; reflexivity. Qed.

Lemma toLowerCase_idempotent (s : string) :
  Str.toLowerCase (Str.toLowerCase s) = Str.toLowerCase s.
Proof.
  induction s as [|c s IH]; simpl; [reflexivity|].
  now rewrite lowerChar_idempotent, IH.
Qed.

(** The search test alone: the term is empty, or occurs, lower-cased, in the
    lower-cased title, community or category. *)
Lemma passesFilter_search (st : State) (p : Property) :
  passesFilter st p = true ->
  searchTerm st = EmptyString
  \/ Str.Substring (Str.toLowerCase (searchTerm st)) (Str.toLowerCase (title p))
  \/ Str.Substring (Str.toLowerCase (searchTerm st)) (Str.toLowerCase (community p))
  \/ (exists c, category p = Some c
                /\ Str.Substring (Str.toLowerCase (searchTerm st))
                                 (Str.toLowerCase c)).
Proof.
  unfold passesFilter.
  destruct (negb (isCommercial (propertyType p))); [discriminate|].
  destruct (Str.truthy (searchTerm st)) eqn:Ht.
  2:{ intros _. left. now destruct (searchTerm st). }
  destruct (Str.includes (Str.toLowerCase (title p))
                         (Str.toLowerCase (searchTerm st))) eqn:H1.
  { intros _. right. left. now apply StrFacts.includes_iff. }
  destruct (Str.includes (Str.toLowerCase (community p))
                         (Str.toLowerCase (searchTerm st))) eqn:H2.
  { intros _. right. right. left. now apply StrFacts.includes_iff. }
  destruct (categoryIncludes (category p) (Str.toLowerCase (searchTerm st))) eqn:H3.
  { intros _. right. right. right.
    unfold categoryIncludes in H3. destruct (category p) as [c|]; [|discriminate].
    apply andb_true_iff in H3 as [_ H3].
    exists c. split; [reflexivity | now apply StrFacts.includes_iff]. }
  simpl. discriminate.
Qed.

(** X8. The text search ignores letter case: two search terms with the
    same lower-casing select the same records.  A record that passes the
    filter under a search term that is not empty has the lower-cased term
    in its lower-cased title, community or category. *)
Theorem search_ignores_case (st : State) (p : Property) (term1 term2 : string) :
  Str.toLowerCase term1 = Str.toLowerCase term2 ->
  passesFilter (setSearchTerm term1 st) p = passesFilter (setSearchTerm term2 st) p
  /\ (passesFilter (setSearchTerm term1 st) p = true ->
      term1 = EmptyString
      \/ Str.Substring (Str.toLowerCase term1) (Str.toLowerCase (title p))
      \/ Str.Substring (Str.toLowerCase term1) (Str.toLowerCase (community p))
      \/ (exists c, category p = Some c
                    /\ Str.Substring (Str.toLowerCase term1) (Str.toLowerCase c))).
Proof.
  intros Hlower. split.
  - unfold passesFilter. simpl.
    rewrite <- (toLowerCase_truthy term1), <- (toLowerCase_truthy term2).
    now rewrite Hlower.
  - intros Hpass. exact (passesFilter_search (setSearchTerm term1 st) p Hpass).
Qed.

Lemma search_ignores_case_witness :
  Str.toLowerCase "BAY" = Str.toLowerCase "bay"
  /\ passesFilter (setSearchTerm "BAY"
                     (Samples.loadedState [Samples.expensiveProperty]))
                  Samples.propertyWithoutCategory
     = passesFilter (setSearchTerm "bay"
                       (Samples.loadedState [Samples.expensiveProperty]))
                    Samples.propertyWithoutCategory.
Proof.
  split; [reflexivity|].
  apply (search_ignores_case (Samples.loadedState [Samples.expensiveProperty])
           Samples.propertyWithoutCategory "BAY" "bay").
  reflexivity.
Defined.

Lemma lt_zero_false (q : Q) : (0 < q)%Q -> Num.lt (Num.Num q) (Num.ofZ 0) = false.
Proof.
  intros H. unfold Num.lt, Num.ofZ. apply negb_false_iff.
  apply Qle_bool_iff. change (inject_Z 0) with 0%Q. now apply Qlt_le_weak.
Qed.

Lemma gt_positive_lt_false (x : Num.number) :
  Num.gt x (Num.ofZ 0) = true -> Num.lt x (Num.ofZ 0) = false.
Proof.
  destruct x as [|q]; [discriminate|].
  intros H. apply lt_zero_false. now apply ParseFacts.gt_zero_iff.
Qed.

(** X9. After [clearFilters], a record returned by the chunked extractor is
    in the filtered collection of its tab exactly when its price is not above
    5,000,000 and its area is not above 2,000: search, property type and the
    lower bounds reject nothing. *)
Theorem cleared_filter_keeps_in_range_records
        (parseFromString : string -> Document) (now : nat -> nat)
        (xmlString : string) (type : FeedType) (st : State) (p : Property) :
  In p (parseXMLPropertiesOptimized parseFromString now xmlString type) ->
  passesFilter (clearFilters st) p
  = negb (Num.gt (price p) (Num.ofZ 5000000))
    && negb (Num.gt (area p) (Num.ofZ 2000)).
Proof.
  intros Hin.
  destruct (ExtractorProps.optimized_record_sound _ _ _ _ _ Hin)
    as (_ & Harea & Hprice & _ & Hpt & _).
  unfold passesFilter.
  cbn [clearFilters searchTerm priceRange areaRange selectedPropertyType fst snd].
  rewrite Hpt, (gt_positive_lt_false _ Hprice), (gt_positive_lt_false _ Harea).
  set (priceAbove := Num.gt (price p) (Num.ofZ 5000000)).
  set (areaAbove := Num.gt (area p) (Num.ofZ 2000)).
  simpl. now destruct priceAbove, areaAbove.
Qed.

Lemma cleared_filter_keeps_in_range_records_witness :
  exists p : Property,
    In p (parseXMLPropertiesOptimized
            (fun _ => Samples.feedOf [Samples.listingRetailShop])
            (fun _ => 0%nat) "<feed/>" sale)
    /\ passesFilter (clearFilters Samples.officeFilterState) p = true.
Proof.
  eexists. split; [left; reflexivity|].
  rewrite (cleared_filter_keeps_in_range_records
             (fun _ => Samples.feedOf [Samples.listingRetailShop])
             (fun _ => 0%nat) "<feed/>" sale Samples.officeFilterState).
  - reflexivity.
  - left. reflexivity.
Defined.

(** X10. Filtering selects: the filtered collection is a sub-sequence of
    the records of the active tab, in their order, every member passes the
    filter and is commercial, and filtering the filtered collection again
    with the same settings returns it unchanged. *)
Theorem filter_selects_and_is_idempotent (st : State) :
  sublist (filteredProperties st) (currentProperties st)
  /\ (forall p, In p (filteredProperties st) <->
                In p (currentProperties st) /\ passesFilter st p = true)
  /\ (forall p, In p (filteredProperties st) -> propertyType p = commercial)
  /\ List.filter (passesFilter st) (filteredProperties st) = filteredProperties st.
Proof.
  unfold filteredProperties. split; [apply GrouperFacts.filter_sublist|].
  split; [intros p; apply filter_In|]. split.
  - intros p Hin. apply filter_In in Hin as [_ Hpass].
    unfold passesFilter in Hpass.
    destruct (propertyType p); [reflexivity | discriminate].
  - induction (currentProperties st) as [|p l IH]; simpl; [reflexivity|].
    destruct (passesFilter st p) eqn:Hp; simpl; [|exact IH].
    now rewrite Hp, IH.
Qed.

Lemma filter_selects_and_is_idempotent_witness :
  propertyType Samples.propertyWithoutCategory = commercial.
Proof.
  destruct (filter_selects_and_is_idempotent Samples.officeFilterState)
    as (_ & _ & H & _).
  apply H. left. reflexivity.
Defined.

Lemma passesCountFilter_commercial (st : State) (p : Property) :
  propertyType p = commercial -> passesCountFilter st p = passesFilter st p.
Proof. intros Hpt. unfold passesCountFilter, passesFilter. now rewrite Hpt. Qed.

Lemma filter_ext_on {A : Type} (f g : A -> bool) (l : list A) :
  (forall x, In x l -> f x = g x) -> List.filter f l = List.filter g l.
Proof.
  induction l as [|x l IH]; intros H; simpl; [reflexivity|].
  rewrite (H x (or_introl eq_refl)), IH; [reflexivity|].
  intros y Hy. apply H. now right.
Qed.

(** X11. The number on a tab's trigger is the size of the filtered
    collection the page shows once that tab is chosen, provided the records
    of that tab are all commercial, as those of the extractor are. *)
Theorem tab_count_is_filtered_count (st : State) (tab : FeedType) :
  (forall p,
      In p (match tab with sale => salesProperties st | rent => rentProperties st end) ->
      propertyType p = commercial) ->
  tabCount st tab = length (filteredProperties (setActiveTab tab st)).
Proof.
  intros Hcommercial. unfold tabCount.
  destruct (feedTypeEqb (activeTab st) tab) eqn:Htab.
  - assert (Heq : activeTab st = tab)
      by (destruct (activeTab st), tab; try reflexivity; discriminate).
    unfold filteredProperties, currentProperties. simpl. rewrite Heq.
    reflexivity.
  - unfold filteredProperties, currentProperties. simpl.
    f_equal. destruct tab; apply filter_ext_on; intros p Hp;
      (transitivity (passesFilter st p);
       [apply passesCountFilter_commercial; now apply Hcommercial | reflexivity]).
Qed.

Lemma tab_count_is_filtered_count_witness :
  tabCount Cases.twoTabState rent = 1%nat.
Proof.
  rewrite (tab_count_is_filtered_count Cases.twoTabState rent).
  - reflexivity.
  - intros p [<- | []]. reflexivity.
Defined.

End FilterProps.

(** ** States the controls can reach *)

Module ReachableProps.
Import Dom Common Optimized OptimizedUi.

Lemma parseInt_rangeInputValue (max step : Z) (value : string) :
  (0 <= step)%Z ->
  rangeInputValue max step value ->
  exists v : Z, (0 <= v <= max)%Z /\ Num.parseInt value = Num.ofZ v.
Proof.
  intros Hstep [k [Hk [Hmax ->]]]. exists (k * step)%Z. split; [nia|].
  rewrite DecimalTextFacts.parseInt_ofNat. unfold Num.ofNat.
  now rewrite Z2Nat.id by nia.
Qed.

Lemma gt_weaken (x : Num.number) (a b : Z) :
  (b <= a)%Z -> Num.gt x (Num.ofZ a) = true -> Num.gt x (Num.ofZ b) = true.
Proof.
  intros Hba. destruct x as [|q]; [discriminate|].
  unfold Num.gt, Num.lt, Num.ofZ. rewrite !negb_true_iff. intros Hgt.
  destruct (Qle_bool q (inject_Z b)) eqn:E; [|reflexivity].
  apply Qle_bool_iff in E.
  assert (Hle : (q <= inject_Z a)%Q).
  { eapply Qle_trans; [exact E|]. now rewrite <- Zle_Qle. }
  apply Qle_bool_iff in Hle. congruence.
Qed.

(** The bounds a reachable state holds. *)
Lemma reachable_ranges (st : State) :
  Reachable st ->
  (exists lo hi : Z,
      priceRange st = (Num.ofZ lo, Num.ofZ hi)
      /\ (0 <= lo <= 5000000)%Z /\ (0 <= hi <= 5000000)%Z)
  /\ (exists lo hi : Z,
         areaRange st = (Num.ofZ lo, Num.ofZ hi)
         /\ (0 <= lo <= 2000)%Z /\ (0 <= hi <= 2000)%Z)
  /\ In (selectedPropertyType st) propertyTypeOptions.
Proof.
  induction 1 as [|e st Hreach IH Hdeliver].
  - split; [exists 0%Z, 5000000%Z | split; [exists 0%Z, 2000%Z|]];
      simpl; repeat split; try lia; tauto.
  - destruct IH as ((plo & phi & Hp & Hplo & Hphi) & (alo & ahi & Ha & Halo & Hahi) & Hsel).
    destruct e; cbn [deliverable handle] in Hdeliver |- *;
      try (split; [exists plo, phi | split; [exists alo, ahi|]];
           repeat split; try lia; assumption).
    + destruct (parseInt_rangeInputValue 5000000 50000 _ ltac:(lia) Hdeliver) as [v [Hv Hparse]].
      unfold onPriceMinChange, onPriceMaxChange, onAreaMinChange, onAreaMaxChange;
        cbn [setPriceRange setAreaRange priceRange areaRange selectedPropertyType];
        rewrite Hparse.
      split; [exists v, phi | split; [exists alo, ahi|]];
        rewrite ?Hp; repeat split; try lia; assumption.
    + destruct (parseInt_rangeInputValue 5000000 50000 _ ltac:(lia) Hdeliver) as [v [Hv Hparse]].
      unfold onPriceMinChange, onPriceMaxChange, onAreaMinChange, onAreaMaxChange;
        cbn [setPriceRange setAreaRange priceRange areaRange selectedPropertyType];
        rewrite Hparse.
      split; [exists plo, v | split; [exists alo, ahi|]];
        rewrite ?Hp; repeat split; try lia; assumption.
    + destruct (parseInt_rangeInputValue 2000 50 _ ltac:(lia) Hdeliver) as [v [Hv Hparse]].
      unfold onPriceMinChange, onPriceMaxChange, onAreaMinChange, onAreaMaxChange;
        cbn [setPriceRange setAreaRange priceRange areaRange selectedPropertyType];
        rewrite Hparse.
      split; [exists plo, phi | split; [exists v, ahi|]];
        rewrite ?Ha; repeat split; try lia; assumption.
    + destruct (parseInt_rangeInputValue 2000 50 _ ltac:(lia) Hdeliver) as [v [Hv Hparse]].
      unfold onPriceMinChange, onPriceMaxChange, onAreaMinChange, onAreaMaxChange;
        cbn [setPriceRange setAreaRange priceRange areaRange selectedPropertyType];
        rewrite Hparse.
      split; [exists plo, phi | split; [exists alo, v|]];
        rewrite ?Ha; repeat split; try lia; assumption.
    + split; [exists 0%Z, 5000000%Z | split; [exists 0%Z, 2000%Z|]];
        simpl; repeat split; try lia; tauto.
Qed.

(** X12. In every state the controls can reach (typing, moving the four
    range inputs, choosing a property type or a tab, clearing the filters,
    feed loads), both ends of the price range are whole numbers between 0
    and 5,000,000, both ends of the area range are whole numbers between 0
    and 2,000, and the property type is one of the seven values offered.
    Hence no control can bring a record priced above 5,000,000 or larger than
    2,000 into the filtered collection. *)
Theorem reachable_state_bounds (st : State) :
  Reachable st ->
  (exists lo hi : Z,
      priceRange st = (Num.ofZ lo, Num.ofZ hi)
      /\ (0 <= lo <= 5000000)%Z /\ (0 <= hi <= 5000000)%Z)
  /\ (exists lo hi : Z,
         areaRange st = (Num.ofZ lo, Num.ofZ hi)
         /\ (0 <= lo <= 2000)%Z /\ (0 <= hi <= 2000)%Z)
  /\ In (selectedPropertyType st) propertyTypeOptions
  /\ (forall p : Property,
         Num.gt (price p) (Num.ofZ 5000000) = true
         \/ Num.gt (area p) (Num.ofZ 2000) = true ->
         ~ In p (filteredProperties st)).
Proof.
  intros Hreach.
  destruct (reachable_ranges st Hreach)
    as (Hprice & Harea & Hsel).
  split; [exact Hprice|]. split; [exact Harea|]. split; [exact Hsel|].
  destruct Hprice as (plo & phi & Hp & _ & Hphi).
  destruct Harea as (alo & ahi & Ha & _ & Hahi).
  intros p Habove Hin. unfold filteredProperties in Hin.
  apply filter_In in Hin as [_ Hpass].
  rewrite FilterFacts.passesFilter_above_range in Hpass; [discriminate|].
  rewrite Hp, Ha. simpl fst. simpl snd.
  destruct Habove as [H|H]; [left | right];
    (eapply gt_weaken; [|exact H]); lia.
Qed.

Lemma reachable_state_bounds_witness :
  Reachable (handle (PriceMaxMoved "50000")
                    (handle (SalesLoaded [Samples.expensiveProperty]) initialState))
  /\ ~ In Samples.expensiveProperty
         (filteredProperties
            (handle (PriceMaxMoved "50000")
                    (handle (SalesLoaded [Samples.expensiveProperty]) initialState))).
Proof.
  assert (Hreach :
            Reachable (handle (PriceMaxMoved "50000")
                         (handle (SalesLoaded [Samples.expensiveProperty])
                                 initialState))).
  { apply reach_event; [apply reach_event; [apply reach_initial | exact I]|].
    exists 1%Z. split; [lia|]. split; [lia|]. vm_compute. reflexivity. }
  split; [exact Hreach|].
  destruct (reachable_state_bounds _ Hreach) as (_ & _ & _ & H).
  apply H. left. reflexivity.
Defined.

End ReachableProps.

(** ** The image slider *)

Module SliderProps.
Import Num NumOps Slider.



Lemma inject_Z_nonzero (n : Z) : (0 < n)%Z -> Qeq_bool (inject_Z n) 0 = false.
Proof.
  intros Hn. destruct (Qeq_bool (inject_Z n) 0) eqn:E; [|reflexivity].
  apply Qeq_bool_iff in E. unfold Qeq in E. simpl in E. lia.
Qed.









End SliderProps.

(** ** Fetching through the proxies *)

Module FetchProps.
Import Dom Common Net.

Section Sequential.
Context (fetch : string -> option Response)
        (encodeURIComponent : string -> string)
        (parseFromString : string -> Document)
        (now : nat -> nat).

Abbreviation attempt :=
  (OptimizedLoad.fetchWithTimeout fetch encodeURIComponent parseFromString now).

(** An attempt that yields nothing usable: it failed, or parsed to no record. *)
Abbreviation fruitless url type proxy :=
  (attempt url type proxy = None \/ attempt url type proxy = Some []).

Lemma tryProxies_cases (url : string) (type : FeedType) (proxies : list string) :
  (OptimizedLoad.tryProxies fetch encodeURIComponent parseFromString now
     url type proxies = []
   /\ forall proxy, In proxy proxies -> fruitless url type proxy)
  \/ (exists (pre post : list string) (proxy : string),
         proxies = pre ++ proxy :: post
         /\ attempt url type proxy
            = Some (OptimizedLoad.tryProxies fetch encodeURIComponent
                      parseFromString now url type proxies)
         /\ OptimizedLoad.tryProxies fetch encodeURIComponent parseFromString now
              url type proxies <> []
         /\ forall q, In q pre -> fruitless url type q).
Proof.
  induction proxies as [|proxy rest IH]; simpl.
  - left. split; [reflexivity | intros proxy []].
  - destruct (attempt url type proxy) as [result|] eqn:Hattempt.
    + destruct result as [|p result].
      * simpl. destruct IH as [[Hnil Hall] | (pre & post & q & Heq & Hq & Hne & Hpre)].
        -- left. split; [exact Hnil|].
           intros x [<- | Hx]; [now right | now apply Hall].
        -- right. subst rest. exists (proxy :: pre), post, q.
           split; [reflexivity|]. split; [exact Hq|]. split; [exact Hne|].
           intros x [<- | Hx]; [now right | now apply Hpre].
      * simpl. right. exists [], rest, proxy.
        split; [reflexivity|]. split; [exact Hattempt|].
        split; [discriminate | intros q []].
    + destruct IH as [[Hnil Hall] | (pre & post & q & Heq & Hq & Hne & Hpre)].
      * left. split; [exact Hnil|].
        intros x [<- | Hx]; [now left | now apply Hall].
      * right. subst rest. exists (proxy :: pre), post, q.
        split; [reflexivity|]. split; [exact Hq|]. split; [exact Hne|].
        intros x [<- | Hx]; [now left | now apply Hpre].
Qed.

Lemma fetch_cases (url : string) (type : FeedType) :
  let result :=
    OptimizedLoad.fetchXMLDataOptimized fetch encodeURIComponent parseFromString
      now url type in
  (result = []
   /\ forall proxy, In proxy OptimizedLoad.CORS_PROXIES -> fruitless url type proxy)
  \/ (exists (pre post : list string) (proxy : string),
         OptimizedLoad.CORS_PROXIES = pre ++ proxy :: post
         /\ attempt url type proxy = Some result
         /\ result <> []
         /\ forall q, In q pre -> fruitless url type q).
Proof. apply tryProxies_cases. Qed.

(** X14. The sequential fetch of the chunked revision returns the records
    of the first proxy, in list order, whose response is [ok] and parses to
    at least one record; proxies before it failed or gave no record.  When
    every proxy fails or gives no record the result is the empty list, so an
    empty feed and an unreachable one give the same result. *)
Theorem sequential_fetch_first_fruitful_proxy (url : string) (type : FeedType) :
  let result :=
    OptimizedLoad.fetchXMLDataOptimized fetch encodeURIComponent parseFromString
      now url type in
  (result = []
   /\ forall proxy, In proxy OptimizedLoad.CORS_PROXIES -> fruitless url type proxy)
  \/ (exists (pre post : list string) (proxy : string),
         OptimizedLoad.CORS_PROXIES = pre ++ proxy :: post
         /\ attempt url type proxy = Some result
         /\ result <> []
         /\ forall q, In q pre -> fruitless url type q).
Proof. exact (fetch_cases url type). Qed.

(** Every record of a fetch comes from the extractor run on some text. *)
Lemma fetched_record_parsed (url : string) (type : FeedType) (p : Optimized.Property) :
  In p (OptimizedLoad.fetchXMLDataOptimized fetch encodeURIComponent
          parseFromString now url type) ->
  exists xmlString : string,
    In p (Optimized.parseXMLPropertiesOptimized parseFromString now xmlString type).
Proof.
  intros Hin. pose proof (fetch_cases url type) as H. cbv zeta in H.
  destruct H as [[Hnil _] | (pre & post & proxy & _ & Hattempt & _)].
  - rewrite Hnil in Hin. destruct Hin.
  - unfold OptimizedLoad.fetchWithTimeout in Hattempt.
    destruct (fetch (String.append proxy (encodeURIComponent url)))
      as [response|]; [|discriminate].
    destruct (ok response); [|discriminate].
    injection Hattempt as Hattempt. exists (text response).
    now rewrite <- Hattempt in Hin.
Qed.
End Sequential.

Lemma sequential_fetch_first_fruitful_proxy_witness :
  exists proxy : string,
    In proxy OptimizedLoad.CORS_PROXIES
    /\ OptimizedLoad.fetchWithTimeout Cases.secondProxyAnswers Cases.noEncoding
         Cases.oneListingParser (fun _ => 0%nat) OptimizedLoad.salesUrl sale proxy
       = Some (OptimizedLoad.fetchXMLDataOptimized Cases.secondProxyAnswers
                 Cases.noEncoding Cases.oneListingParser (fun _ => 0%nat)
                 OptimizedLoad.salesUrl sale).
Proof.
  destruct (sequential_fetch_first_fruitful_proxy Cases.secondProxyAnswers
              Cases.noEncoding Cases.oneListingParser (fun _ => 0%nat)
              OptimizedLoad.salesUrl sale)
    as [[Hnil _] | (pre & post & proxy & Heq & Hattempt & _)].
  - vm_compute in Hnil. discriminate.
  - exists proxy. split; [|exact Hattempt].
    rewrite Heq. apply in_or_app. right. now left.
Defined.

End FetchProps.

(** ** Loading the feeds *)

Module LoadProps.
Import Dom Common Net.

(** X15. After the load sequence of the chunked revision, started from the
    initial page, each list holds what its fetch returned, both loading flags
    are off and both completion flags on; the error flag of a feed is set
    exactly when its fetch returned no record, and the data source reads
    ['error'] exactly when the sales fetch returned none, whatever the
    rentals did.  Sales records are of kind sale and rental records of kind
    rent, all commercial with a price above zero. *)
Theorem load_sequence_outcome
        (fetch : string -> option Response)
        (encodeURIComponent : string -> string)
        (parseFromString : string -> Document) (now : nat -> nat) :
  let final :=
    OptimizedLoad.loadAll fetch encodeURIComponent parseFromString now
      OptimizedLoad.initialPage in
  let salesProps :=
    OptimizedLoad.fetchXMLDataOptimized fetch encodeURIComponent parseFromString
      now OptimizedLoad.salesUrl sale in
  let rentProps :=
    OptimizedLoad.fetchXMLDataOptimized fetch encodeURIComponent parseFromString
      now OptimizedLoad.rentUrl rent in
  OptimizedLoad.salesProperties final = salesProps
  /\ OptimizedLoad.rentProperties final = rentProps
  /\ OptimizedLoad.sales (OptimizedLoad.loadingState final) = false
  /\ OptimizedLoad.rent (OptimizedLoad.loadingState final) = false
  /\ OptimizedLoad.salesComplete (OptimizedLoad.loadingState final) = true
  /\ OptimizedLoad.rentComplete (OptimizedLoad.loadingState final) = true
  /\ (OptimizedLoad.salesError (OptimizedLoad.loadingState final) = true
      <-> salesProps = [])
  /\ (OptimizedLoad.rentError (OptimizedLoad.loadingState final) = true
      <-> rentProps = [])
  /\ (OptimizedLoad.dataSource final = OptimizedLoad.error <-> salesProps = [])
  /\ (forall p, In p (OptimizedLoad.salesProperties final) ->
                Optimized.type p = sale
                /\ Optimized.propertyType p = commercial
                /\ Num.gt (Optimized.price p) (Num.ofZ 0) = true)
  /\ (forall p, In p (OptimizedLoad.rentProperties final) ->
                Optimized.type p = rent
                /\ Optimized.propertyType p = commercial
                /\ Num.gt (Optimized.price p) (Num.ofZ 0) = true).
Proof.
  cbv zeta. unfold OptimizedLoad.loadAll. cbv zeta.
  set (salesProps := OptimizedLoad.fetchXMLDataOptimized fetch encodeURIComponent
                       parseFromString now OptimizedLoad.salesUrl sale).
  set (rentProps := OptimizedLoad.fetchXMLDataOptimized fetch encodeURIComponent
                      parseFromString now OptimizedLoad.rentUrl rent).
  assert (Hsales : forall p, In p salesProps ->
                             Optimized.type p = sale
                             /\ Optimized.propertyType p = commercial
                             /\ Num.gt (Optimized.price p) (Num.ofZ 0) = true).
  { intros p Hp. apply FetchProps.fetched_record_parsed in Hp as [xml Hp].
    pose proof (ExtractorProps.optimized_record_sound _ _ _ _ _ Hp)
      as (_ & _ & Hprice & Htype & Hpt & _). tauto. }
  assert (Hrent : forall p, In p rentProps ->
                            Optimized.type p = rent
                            /\ Optimized.propertyType p = commercial
                            /\ Num.gt (Optimized.price p) (Num.ofZ 0) = true).
  { intros p Hp. apply FetchProps.fetched_record_parsed in Hp as [xml Hp].
    pose proof (ExtractorProps.optimized_record_sound _ _ _ _ _ Hp)
      as (_ & _ & Hprice & Htype & Hpt & _). tauto. }
  clearbody salesProps rentProps.
  unfold OptimizedLoad.rentalsLoaded, OptimizedLoad.rentalsStarted,
    OptimizedLoad.salesLoaded.
  destruct salesProps as [|s salesProps]; destruct rentProps as [|r rentProps];
    cbn -[Num.gt In];
    do 6 (split; [reflexivity|]);
    do 3 (split; [split; intros; first [reflexivity | discriminate]|]);
    (split; [exact Hsales | exact Hrent]).
Qed.

Lemma load_sequence_outcome_witness :
  OptimizedLoad.salesError
    (OptimizedLoad.loadingState
       (OptimizedLoad.loadAll Cases.deadNetwork Cases.noEncoding
          Cases.oneListingParser (fun _ => 0%nat) OptimizedLoad.initialPage))
  = true.
Proof.
  destruct (load_sequence_outcome Cases.deadNetwork Cases.noEncoding
              Cases.oneListingParser (fun _ => 0%nat))
    as (_ & _ & _ & _ & _ & _ & Herror & _).
  apply Herror. reflexivity.
Defined.

Section FirstRevision.
Context (fetch : string -> option Response)
        (encodeURIComponent : string -> string)
        (parseFromString : string -> Document).

Lemma index_tryProxies_cases (url : string) (type : FeedType) (proxies : list string) :
  IndexLoad.tryProxies fetch encodeURIComponent parseFromString url type proxies
  = List.filter (fun p => feedTypeEqb (Index.type p) type) Index.MOCK_PROPERTIES
  \/ exists xmlString : string,
      IndexLoad.tryProxies fetch encodeURIComponent parseFromString url type proxies
      = Index.parseXMLProperties parseFromString xmlString type.
Proof.
  induction proxies as [|proxy rest IH]; simpl; [now left|].
  destruct (fetch (String.append proxy (encodeURIComponent url))) as [response|];
    [|exact IH].
  destruct (ok response); [|exact IH].
  right. now exists (text response).
Qed.

Lemma mock_record_sound (p : Index.Property) :
  In p Index.MOCK_PROPERTIES ->
  Index.title p <> EmptyString
  /\ Num.gt (Index.price p) (Num.ofZ 0) = true
  /\ Num.gt (Index.area p) (Num.ofZ 0) = true
  /\ (1 <= length (Index.images p))%nat.
Proof.
  simpl. intros H.
  repeat (destruct H as [<- | H];
          [simpl; repeat split; (discriminate || reflexivity || lia)|]).
  destruct H.
Qed.

Lemma index_fetched_record_sound (url : string) (type : FeedType) (p : Index.Property) :
  In p (IndexLoad.fetchXMLData fetch encodeURIComponent parseFromString url type) ->
  Index.type p = type
  /\ Index.title p <> EmptyString
  /\ Num.gt (Index.price p) (Num.ofZ 0) = true
  /\ Num.gt (Index.area p) (Num.ofZ 0) = true
  /\ (1 <= length (Index.images p))%nat.
Proof.
  unfold IndexLoad.fetchXMLData.
  destruct (index_tryProxies_cases url type IndexLoad.CORS_PROXIES) as [-> | [xml ->]].
  - intros Hin. apply filter_In in Hin as [Hmock Htype].
    split; [destruct (Index.type p), type; try reflexivity; discriminate|].
    now apply mock_record_sound.
  - intros Hin.
    pose proof (ExtractorProps.index_record_sound _ _ _ _ Hin)
      as (Htitle & Harea & Hprice & Htype & _).
    repeat split; try assumption.
    apply IndexFacts.index_parseDocument_In in Hin as [i [element Hp]].
    apply IndexFacts.index_processElement_Some in Hp.
    destruct Hp as (_ & _ & _ & _ & _ & _ & Himg).
    rewrite Himg. apply ImagesFacts.uncapped_length.
Qed.

(** X16. In the first revision a feed fetch returns only records of the
    kind asked for, whether they come from a proxy or from the mock data, and
    the collection [loadData] hands to the page is never empty: when both
    feeds give no record it is the six mock records.  Every record of it has
    a title, a price and an area above zero and at least one image. *)
Theorem first_revision_load_never_empty :
  (forall (url : string) (type : FeedType) (p : Index.Property),
      In p (IndexLoad.fetchXMLData fetch encodeURIComponent parseFromString url type) ->
      Index.type p = type)
  /\ IndexLoad.loadData fetch encodeURIComponent parseFromString <> []
  /\ (forall p : Index.Property,
         In p (IndexLoad.loadData fetch encodeURIComponent parseFromString) ->
         Index.title p <> EmptyString
         /\ Num.gt (Index.price p) (Num.ofZ 0) = true
         /\ Num.gt (Index.area p) (Num.ofZ 0) = true
         /\ (1 <= length (Index.images p))%nat).
Proof.
  split; [|split].
  - intros url type p Hin. now apply index_fetched_record_sound in Hin.
  - unfold IndexLoad.loadData. cbv zeta.
    destruct (_ ++ _) eqn:E; simpl; [discriminate | discriminate].
  - unfold IndexLoad.loadData. cbv zeta. intros p.
    destruct (_ ++ _) eqn:E; simpl Nat.eqb; cbv iota.
    + apply mock_record_sound.
    + rewrite <- E. intros Hin. apply in_app_or in Hin as [Hin|Hin];
        apply index_fetched_record_sound in Hin; tauto.
Qed.
End FirstRevision.

Lemma first_revision_load_never_empty_witness :
  In Cases.downtownMock
     (IndexLoad.fetchXMLData Cases.deadNetwork Cases.noEncoding
        Cases.oneListingParser OptimizedLoad.salesUrl sale)
  /\ Index.type Cases.downtownMock = sale.
Proof.
  assert (Hin : In Cases.downtownMock
                   (IndexLoad.fetchXMLData Cases.deadNetwork Cases.noEncoding
                      Cases.oneListingParser OptimizedLoad.salesUrl sale)).
  { right. left. reflexivity. }
  split; [exact Hin|].
  destruct (first_revision_load_never_empty Cases.deadNetwork Cases.noEncoding
              Cases.oneListingParser) as [H _].
  exact (H _ _ _ Hin).
Defined.

End LoadProps.

(** ** The revision with the category list and the 200-element cap *)

Module CommercialProps.
Import Dom Common.

Lemma setAdd_In (x c : string) (s : list string) :
  In c (Commercial.setAdd x s) <-> In c s \/ c = x.
Proof.
  unfold Commercial.setAdd.
  destruct (existsb (String.eqb x) s) eqn:E.
  - split; [tauto|]. intros [H | ->]; [exact H|].
    apply existsb_exists in E as [y [Hy Heq]].
    apply String.eqb_eq in Heq. now subst y.
  - rewrite in_app_iff. simpl. split; intros [H | H]; try tauto.
    + destruct H as [<- | []]. now right.
    + subst c. right. now left.
Qed.

Lemma setAdd_NoDup (x : string) (s : list string) :
  List.NoDup s -> List.NoDup (Commercial.setAdd x s).
Proof.
  intros Hnd. unfold Commercial.setAdd.
  destruct (existsb (String.eqb x) s) eqn:E; [exact Hnd|].
  apply List.NoDup_app; [exact Hnd | repeat constructor; intros [] |].
  intros a Ha [Heq | []]. subst a.
  assert (Hex : existsb (String.eqb x) s = true).
  { apply existsb_exists. exists x. split; [exact Ha | apply String.eqb_refl]. }
  congruence.
Qed.

Lemma addCategory_cases (categories : list string) (element : Handle) :
  (Str.truthy (getFieldValue element categoryFields) = true
   /\ Commercial.addCategory categories element
      = Commercial.setAdd (getFieldValue element categoryFields) categories)
  \/ (getFieldValue element categoryFields = EmptyString
      /\ Commercial.addCategory categories element = categories).
Proof.
  unfold Commercial.addCategory. cbv zeta.
  destruct (getFieldValue element categoryFields) eqn:E.
  - right. split; reflexivity.
  - left. split; reflexivity.
Qed.

Lemma collect_NoDup (elements : list Handle) :
  forall categories : list string,
    List.NoDup categories ->
    List.NoDup (fold_left Commercial.addCategory elements categories).
Proof.
  induction elements as [|element rest IH]; intros categories Hnd; [exact Hnd|].
  simpl fold_left. apply IH.
  destruct (addCategory_cases categories element) as [[_ ->] | [_ ->]];
    [now apply setAdd_NoDup | exact Hnd].
Qed.

Lemma collect_In (elements : list Handle) :
  forall (categories : list string) (c : string),
    In c (fold_left Commercial.addCategory elements categories) <->
    In c categories
    \/ (c <> EmptyString
        /\ exists element, In element elements
                           /\ getFieldValue element categoryFields = c).
Proof.
  induction elements as [|element rest IH]; intros categories c.
  - simpl. split; [tauto|]. intros [H | [_ [e [[] _]]]]. exact H.
  - simpl fold_left. rewrite IH.
    destruct (addCategory_cases categories element) as [[Ht ->] | [Hempty ->]].
    + rewrite setAdd_In. split.
      * intros [[H | ->] | [Hc [e [He Hcat]]]].
        -- now left.
        -- right. split; [now apply StrFacts.truthy_true_iff|].
           exists element. split; [now left | reflexivity].
        -- right. split; [exact Hc|]. exists e. split; [now right | exact Hcat].
      * intros [H | [Hc [e [[<- | He] Hcat]]]].
        -- left. now left.
        -- left. now right.
        -- right. split; [exact Hc|]. now exists e.
    + split.
      * intros [H | [Hc [e [He Hcat]]]]; [now left|].
        right. split; [exact Hc|]. exists e. split; [now right | exact Hcat].
      * intros [H | [Hc [e [[<- | He] Hcat]]]]; [now left | congruence |].
        right. split; [exact Hc|]. now exists e.
Qed.

Lemma commercial_forEach type (elements : list Handle) :
  forall (index : nat) (properties : list Commercial.Property),
    Commercial.forEachElement type index elements properties
    = properties ++ Commercial.recordsFrom type index elements.
Proof.
  induction elements as [|element rest IH]; intros index properties; simpl.
  - now rewrite app_nil_r.
  - rewrite IH. destruct (Commercial.processElement type index element) as [p|].
    + now rewrite <- app_assoc.
    + reflexivity.
Qed.

Lemma commercial_recordsFrom_In type (elements : list Handle)
      (p : Commercial.Property) :
  forall index : nat,
    In p (Commercial.recordsFrom type index elements) ->
    exists (i : nat) (element : Handle),
      In element elements /\ Commercial.processElement type i element = Some p.
Proof.
  induction elements as [|element rest IH]; intros index; simpl; [intros []|].
  destruct (Commercial.processElement type index element) as [q|] eqn:Hq.
  - intros [<- | Hin].
    + exists index, element. split; [now left | assumption].
    + destruct (IH _ Hin) as [i [e [He Hp]]]. exists i, e.
      split; [now right | assumption].
  - intros Hin. destruct (IH _ Hin) as [i [e [He Hp]]].
    exists i, e. split; [now right | assumption].
Qed.

Lemma commercial_recordsFrom_length type (elements : list Handle) :
  forall index : nat,
    (length (Commercial.recordsFrom type index elements) <= length elements)%nat.
Proof.
  induction elements as [|element rest IH]; intros index; simpl; [lia|].
  destruct (Commercial.processElement type index element); simpl;
    specialize (IH (S index)); lia.
Qed.

Lemma commercial_record_category type index element (p : Commercial.Property) :
  Commercial.processElement type index element = Some p ->
  Commercial.category p = Some (getFieldValue element categoryFields)
  /\ Str.truthy (getFieldValue element categoryFields) = true
  /\ isCommercialCategory (getFieldValue element categoryFields) = true.
Proof.
  unfold Commercial.processElement. cbv zeta.
  destruct (Str.truthy (getFieldValue element categoryFields)); [|discriminate].
  destruct (isCommercialCategory (getFieldValue element categoryFields));
    [|discriminate].
  simpl orb. cbv iota.
  destruct (negb _); [discriminate|].
  destruct (Num.gt _ _); [|discriminate].
  intros [= <-]. simpl. tauto.
Qed.

Lemma In_firstn {A : Type} (n : nat) (l : list A) (x : A) :
  In x (firstn n l) -> In x l.
Proof.
  revert l. induction n as [|n IH]; intros l; [intros []|].
  destruct l as [|y l]; [intros []|]. simpl. intros [-> | H]; [now left|].
  right. now apply IH.
Qed.

(** X17. The category list of a document holds each category once, none of
    them empty, and it holds exactly the categories read from the listing
    elements.  The extractor of this revision returns at most 200 records,
    and the category of every record it returns is in the category list of
    the same document, among those the classifier accepts. *)
Theorem category_list_covers_records (xmlDoc : Document) :
  List.NoDup (Commercial.extractCategories xmlDoc)
  /\ (forall c : string,
         In c (Commercial.extractCategories xmlDoc) <->
         c <> EmptyString
         /\ exists element : Handle,
             In element (docQuerySelectorAll xmlDoc listingSelectors)
             /\ getFieldValue element categoryFields = c)
  /\ (forall type : FeedType,
         (length (Commercial.parseDocument xmlDoc type) <= 200)%nat)
  /\ (forall (type : FeedType) (p : Commercial.Property),
         In p (Commercial.parseDocument xmlDoc type) ->
         exists c : string,
           Commercial.category p = Some c
           /\ In c (List.filter isCommercialCategory
                                (Commercial.extractCategories xmlDoc))).
Proof.
  assert (Hcover : forall c : string,
             In c (Commercial.extractCategories xmlDoc) <->
             c <> EmptyString
             /\ exists element : Handle,
                 In element (docQuerySelectorAll xmlDoc listingSelectors)
                 /\ getFieldValue element categoryFields = c).
  { intros c. unfold Commercial.extractCategories. rewrite collect_In. simpl. tauto. }
  split; [apply collect_NoDup; constructor|]. split; [exact Hcover|]. split.
  - intros type. unfold Commercial.parseDocument.
    destruct (docQuerySelector xmlDoc [Tag "parsererror"]); [simpl; lia|].
    cbv zeta. rewrite commercial_forEach. simpl app.
    etransitivity; [apply commercial_recordsFrom_length|].
    rewrite length_firstn. unfold Commercial.elementLimit. lia.
  - intros type p Hp. unfold Commercial.parseDocument in Hp.
    destruct (docQuerySelector xmlDoc [Tag "parsererror"]); [destruct Hp|].
    cbv zeta in Hp. rewrite commercial_forEach in Hp. simpl app in Hp.
    apply commercial_recordsFrom_In in Hp as [i [element [He Hp]]].
    apply In_firstn in He.
    apply commercial_record_category in Hp as (Hc & Ht & Hcom).
    exists (getFieldValue element categoryFields). split; [exact Hc|].
    apply filter_In. split; [|exact Hcom].
    apply Hcover. split; [now apply StrFacts.truthy_true_iff|].
    now exists element.
Qed.

Lemma category_list_covers_records_witness :
  Commercial.extractCategories
    (Samples.feedOf [Samples.listingRetailShop; Samples.listingApartment;
                     Samples.listingRetailShop])
  = ["Retail Shop"; "Apartment"]
  /\ exists c : string,
      In c (List.filter isCommercialCategory
              (Commercial.extractCategories
                 (Samples.feedOf [Samples.listingRetailShop;
                                  Samples.listingApartment;
                                  Samples.listingRetailShop]))).
Proof.
  split; [reflexivity|].
  destruct (category_list_covers_records
              (Samples.feedOf [Samples.listingRetailShop; Samples.listingApartment;
                               Samples.listingRetailShop])) as (_ & _ & _ & H).
  destruct (H sale _ (or_introl eq_refl)) as [c [_ Hc]].
  now exists c.
Defined.

End CommercialProps.

(** ** Reading fields *)

Module FieldProps.
Import Dom Common.

(** X18. Field lookup is first-match-wins over the candidate names: when
    the first field of a candidate name has text that is not blank, and every
    earlier candidate has no field or a first field that is blank, the value
    is that text, trimmed.  The value is empty exactly when every candidate
    is missing or blank. *)
Theorem getFieldValue_first_match (element : Handle) (fieldNames : list string) :
  let blank name :=
    match querySelector element [Tag name] with
    | Some field => trimmedText field = EmptyString
    | None => True
    end in
  (forall (pre post : list string) (name : string) (field : Handle),
      fieldNames = pre ++ name :: post ->
      (forall earlier, In earlier pre -> blank earlier) ->
      querySelector element [Tag name] = Some field ->
      trimmedText field <> EmptyString ->
      getFieldValue element fieldNames = trimmedText field)
  /\ (getFieldValue element fieldNames = EmptyString <->
      forall name, In name fieldNames -> blank name).
Proof.
  cbv zeta. split.
  - intros pre post name field -> Hpre Hfield Htext.
    induction pre as [|earlier pre IH]; simpl.
    + rewrite Hfield.
      destruct (trimmedText field); [congruence | reflexivity].
    + pose proof (Hpre earlier (or_introl eq_refl)) as Hblank.
      destruct (querySelector element [Tag earlier]) as [f|].
      * rewrite Hblank. simpl. apply IH. intros x Hx. apply Hpre. now right.
      * apply IH. intros x Hx. apply Hpre. now right.
  - induction fieldNames as [|name rest IH]; simpl.
    + split; [intros _ name [] | reflexivity].
    + destruct (querySelector element [Tag name]) as [field|] eqn:Hq.
      * destruct (trimmedText field) as [|c t] eqn:Ht; simpl.
        -- rewrite IH. split.
           ++ intros H x [<- | Hx]; [now rewrite Hq | now apply H].
           ++ intros H x Hx. apply H. now right.
        -- split; [discriminate|]. intros H.
           specialize (H name (or_introl eq_refl)). rewrite Hq in H. congruence.
      * rewrite IH. split.
        -- intros H x [<- | Hx]; [now rewrite Hq | now apply H].
        -- intros H x Hx. apply H. now right.
Qed.

Lemma getFieldValue_first_match_witness :
  exists field : Handle,
    querySelector (Samples.handleOf Cases.listingPriced) [Tag "Price"] = Some field
    /\ getFieldValue (Samples.handleOf Cases.listingPriced) (priceFields sale)
       = trimmedText field.
Proof.
  destruct (getFieldValue_first_match (Samples.handleOf Cases.listingPriced)
              (priceFields sale)) as [H _].
  eexists. split; [reflexivity|].
  apply (H ["SellPrice"] ["PropertyPrice"; "SalePrice"] "Price").
  - reflexivity.
  - intros earlier [<- | []]. exact I.
  - reflexivity.
  - discriminate.
Defined.

End FieldProps.

(** ** The classifier, further *)

Module ClassifierProps.
Import Common.

Lemma toLowerCase_app (a b : string) :
  Str.toLowerCase (String.append a b)
  = String.append (Str.toLowerCase a) (Str.toLowerCase b).
Proof.
  induction a as [|c a IH]; [reflexivity|].
  rewrite StrFacts.append_cons. simpl. now rewrite IH, StrFacts.append_cons.
Qed.

Lemma append_assoc (a b c : string) :
  String.append (String.append a b) c = String.append a (String.append b c).
Proof.
  induction a as [|x a IH]; [reflexivity|].
  rewrite !StrFacts.append_cons. now rewrite IH.
Qed.

Lemma Substring_context (p s before after : string) :
  Str.Substring p s ->
  Str.Substring p (String.append before (String.append s after)).
Proof.
  intros [pre [post ->]].
  exists (String.append before pre), (String.append post after).
  now rewrite !append_assoc.
Qed.

(** X19. The classifier ignores letter case, and text added before or
    after a commercial category leaves it commercial. *)
Theorem classifier_ignores_case_and_context (category : string) :
  isCommercialCategory (Str.toLowerCase category) = isCommercialCategory category
  /\ (isCommercialCategory category = true ->
      forall before after : string,
        isCommercialCategory
          (String.append before (String.append category after)) = true).
Proof.
  split.
  - unfold isCommercialCategory. now rewrite FilterProps.toLowerCase_idempotent.
  - unfold isCommercialCategory. intros Hc before after.
    apply existsb_exists in Hc as [pattern [Hin Hinc]].
    apply existsb_exists. exists pattern. split; [exact Hin|].
    apply StrFacts.includes_iff. apply StrFacts.includes_iff in Hinc.
    rewrite !toLowerCase_app. now apply Substring_context.
Qed.

Lemma classifier_ignores_case_and_context_witness :
  isCommercialCategory "Grade A Office (fitted)" = true.
Proof.
  destruct (classifier_ignores_case_and_context "Office") as [_ H].
  exact (H eq_refl "Grade A " " (fitted)").
Defined.

End ClassifierProps.

(** ** Prices written with decoration *)

Module PriceTextProps.
Import Common.

Lemma append_empty_r (s : string) : String.append s EmptyString = s.
Proof.
  induction s as [|c s IH]; [reflexivity|].
  now rewrite StrFacts.append_cons, IH.
Qed.

Lemma trimStart_ofNat (n : nat) : Str.trimStart (Str.ofNat n) = Str.ofNat n.
Proof.
  unfold Str.ofNat, NilZero.string_of_uint.
  destruct (Nat.to_uint n); reflexivity.
Qed.

Lemma digitsValue_ofNat (n : nat) :
  Num.digitsValue 10 Str.digitValue 0 (Str.ofNat n) = Z.of_nat n.
Proof.
  unfold Str.ofNat, NilZero.string_of_uint.
  rewrite <- (DecimalNat.Unsigned.of_to n) at 2.
  destruct (Nat.to_uint n) eqn:E; try reflexivity;
    rewrite <- E at 1;
    try (rewrite E; apply (DecimalTextFacts.digitsValue_string_of_uint _ 0)).
Qed.

Lemma parseFloat_ofNat (n : nat) : Num.parseFloat (Str.ofNat n) = Num.ofNat n.
Proof.
  unfold Num.parseFloat.
  rewrite trimStart_ofNat, IdentifierProps.span_ofNat.
  assert (Ht : Str.truthy (Str.ofNat n) = true).
  { unfold Str.ofNat, NilZero.string_of_uint. now destruct (Nat.to_uint n). }
  rewrite Ht. simpl andb. cbv iota.
  rewrite append_empty_r, digitsValue_ofNat. reflexivity.
Qed.

(** X20. A price or area text whose digits and dots, once every other
    character is removed, spell a whole number of at most [2 ^ 53] (the
    range in which binary64 holds every whole number) is read as that number:
    currency codes, thousands separators, units and spaces make no
    difference.  A text spelling zero gives the price 0 and the default area
    800. *)
Theorem decorated_number_is_read_exactly (text : string) (n : nat) :
  Str.stripNonNumeric text = Str.ofNat n ->
  (Z.of_nat n <= 2 ^ 53)%Z ->
  priceOf text = Num.ofNat n
  /\ (n <> 0%nat -> areaOf text = Num.ofNat n)
  /\ (n = 0%nat -> areaOf text = Num.ofZ 800).
Proof.
  intros Hstrip _. unfold priceOf, areaOf. rewrite Hstrip, parseFloat_ofNat.
  unfold Num.orElse, Num.ofNat, Num.ofZ, Num.truthy.
  destruct n as [|n].
  - split; [reflexivity|]. split; [congruence | reflexivity].
  - assert (Hnz : Qeq_bool (inject_Z (Z.of_nat (S n))) 0 = false).
    { apply SliderProps.inject_Z_nonzero. lia. }
    rewrite Hnz. simpl negb. cbv iota.
    split; [reflexivity|]. split; [reflexivity | discriminate].
Qed.

Lemma decorated_number_is_read_exactly_witness :
  Str.stripNonNumeric "AED 12,500 / year" = Str.ofNat 12500
  /\ (Z.of_nat 12500 <= 2 ^ 53)%Z
  /\ priceOf "AED 12,500 / year" = Num.ofNat 12500
  /\ areaOf "AED 12,500 / year" = Num.ofNat 12500.
Proof.
  assert (Hstrip : Str.stripNonNumeric "AED 12,500 / year" = Str.ofNat 12500)
    by (vm_compute; reflexivity).
  assert (Hrange : (Z.of_nat 12500 <= 2 ^ 53)%Z) by (vm_compute; discriminate).
  destruct (decorated_number_is_read_exactly "AED 12,500 / year" 12500
              Hstrip Hrange)
    as (Hprice & Harea & _).
  split; [exact Hstrip|]. split; [exact Hrange|]. split; [exact Hprice|].
  apply Harea. discriminate.
Defined.

End PriceTextProps.
